(** * python-odbtp: a DB API 2.0 driver over the ODBTP client library

    A shallow embedding of [odbtp/errors.py], [odbtp/types.py] and
    [odbtp/connection.py].  The native library [libodbtp.so] reached through
    [ctypes] is a transport the driver does not control: it is modelled as an
    arbitrary state machine answering each call, and every call the driver
    issues is recorded, with its answer, in a trace. *)

From Stdlib Require Import ZArith Ascii String Lia.
From stdpp Require Import base list strings gmap.

Local Open Scope Z_scope.
Local Open Scope string_scope.
Local Open Scope list_scope.

(** ** Python 2 byte strings *)

Module Py.

Definition TAB : ascii := "009"%char.
Definition LF : ascii := "010"%char.
Definition VT : ascii := "011"%char.
Definition FF : ascii := "012"%char.
Definition CR : ascii := "013"%char.

(** [str.isspace] on one character, in the C locale. *)
Definition isspace (c : ascii) : bool :=
  bool_decide (c ∈ [" "%char; TAB; LF; VT; FF; CR]).

Fixpoint lstrip (s : string) : string :=
  match s with
  | String c s' => if isspace c then lstrip s' else s
  | EmptyString => EmptyString
  end.

Fixpoint rstrip (s : string) : string :=
  match s with
  | String c s' =>
      match rstrip s' with
      | EmptyString => if isspace c then EmptyString else String c EmptyString
      | r => String c r
      end
  | EmptyString => EmptyString
  end.

(** [s.strip()] *)
Definition strip (s : string) : string := lstrip (rstrip s).

(** [s.replace(old, new)] for a non-empty [old]: leftmost occurrences, not
    overlapping.  [skip] counts the characters of a match still to be
    dropped. *)
Fixpoint replace_from (old new : string) (skip : nat) (s : string) : string :=
  match s with
  | EmptyString => EmptyString
  | String c s' =>
      match skip with
      | S k => replace_from old new k s'
      | O =>
          if String.prefix old s
          then new +:+ replace_from old new (Nat.pred (String.length old)) s'
          else String c (replace_from old new O s')
      end
  end.

Definition replace (old new s : string) : string := replace_from old new O s.

(** [s.split(sep)] for a one-character separator; never the empty list. *)
Fixpoint split (sep : ascii) (s : string) : list string :=
  match s with
  | EmptyString => [EmptyString]
  | String c s' =>
      if bool_decide (c = sep) then EmptyString :: split sep s'
      else match split sep s' with
           | h :: t => String c h :: t
           | [] => [String c EmptyString]
           end
  end.

(** [s[i:j]] for [0 <= i <= j]. *)
Definition slice (i j : nat) (s : string) : string :=
  String.substring i (j - i) s.

Definition upper_char (c : ascii) : ascii :=
  let n := nat_of_ascii c in
  if (97 <=? n)%nat && (n <=? 122)%nat then ascii_of_nat (n - 32) else c.

Definition lower_char (c : ascii) : ascii :=
  let n := nat_of_ascii c in
  if (65 <=? n)%nat && (n <=? 90)%nat then ascii_of_nat (n + 32) else c.

Fixpoint map_chars (f : ascii → ascii) (s : string) : string :=
  match s with
  | EmptyString => EmptyString
  | String c s' => String (f c) (map_chars f s')
  end.

Definition upper : string → string := map_chars upper_char.
Definition lower : string → string := map_chars lower_char.

(** A dict literal [{k1: v1, ...}]: a later entry replaces an earlier one
    with an equal key. *)
Definition dict `{Countable K} {V} (entries : list (K * V)) : gmap K V :=
  list_to_map (reverse entries).

End Py.

(** ** Exceptions *)

(** The classes of [errors.py], and the built-in ones the driver can let
    escape. *)
Inductive exc_class :=
  | Warning | Error | InterfaceError | DatabaseError | DataError
  | OperationalError | IntegrityError | InternalError | ProgrammingError
  | NotSupportedError
  | NameError | TypeError | AttributeError | StopIteration.

(** The arguments an exception is built from: none, a message, an integer,
    or a ['...%d...' % (n1, ...)] message kept as template and numbers. *)
Inductive exc_args :=
  | NoArgs
  | Msg (s : string)
  | Code (n : Z)
  | Fmt (template : string) (values : list Z).

Record exception := Exc { exc_type : exc_class; args : exc_args }.

Global Instance exc_class_eq_dec : EqDecision exc_class.
Proof. solve_decision. Defined.
Global Instance exc_args_eq_dec : EqDecision exc_args.
Proof. solve_decision. Defined.
Global Instance exception_eq_dec : EqDecision exception.
Proof. solve_decision. Defined.

(** ** The constants of [odbtp/constants.py]

    The module is imported by every source file and gives the integer values
    of the names below; the values themselves take no part in the driver's
    logic, so they are left open. *)
Class Constants := {
  ODBTPERR_NONE : Z; ODBTPERR_MEMORY : Z; ODBTPERR_HANDLE : Z;
  ODBTPERR_CONNECT : Z; ODBTPERR_READ : Z; ODBTPERR_SEND : Z;
  ODBTPERR_TIMEOUTCONN : Z; ODBTPERR_TIMEOUTREAD : Z; ODBTPERR_TIMEOUTSEND : Z;
  ODBTPERR_CONNECTED : Z; ODBTPERR_PROTOCOL : Z; ODBTPERR_RESPONSE : Z;
  ODBTPERR_MAXQUERYS : Z; ODBTPERR_COLNUMBER : Z; ODBTPERR_COLNAME : Z;
  ODBTPERR_FETCHROW : Z; ODBTPERR_NOTPREPPROC : Z; ODBTPERR_NOPARAMINFO : Z;
  ODBTPERR_PARAMNUMBER : Z; ODBTPERR_PARAMNAME : Z; ODBTPERR_PARAMBIND : Z;
  ODBTPERR_PARAMGET : Z; ODBTPERR_ATTRTYPE : Z; ODBTPERR_GETQUERY : Z;
  ODBTPERR_INTERFFILE : Z; ODBTPERR_INTERFSYN : Z; ODBTPERR_INTERFTYPE : Z;
  ODBTPERR_CONNSTRLEN : Z; ODBTPERR_NOSEEKCURSOR : Z; ODBTPERR_SEEKROWPOS : Z;
  ODBTPERR_DETACHED : Z; ODBTPERR_GETTYPEINFO : Z; ODBTPERR_LOADTYPES : Z;
  ODBTPERR_NOREQUEST : Z; ODBTPERR_FETCHEDROWS : Z; ODBTPERR_DISCONNECTED : Z;
  ODBTPERR_HOSTRESOLVE : Z; ODBTPERR_SERVER : Z;
  ODB_CHAR : Z; ODB_WCHAR : Z; ODB_BIGINT : Z; ODB_DOUBLE : Z;
  ODB_DATE : Z; ODB_TIME : Z; ODB_NUMERIC : Z;
  SQL_CHAR : Z; SQL_BINARY : Z; SQL_BIGINT : Z; SQL_DOUBLE : Z;
  ODB_PARAM_INOUT : Z
}.

(** How a call ends. *)
Inductive outcome (A : Type) :=
  | Return (a : A)
  | Raise (e : exception).
Arguments Return {A} a.
Arguments Raise {A} e.

(** ** The transport: [libodbtp.so] behind [ctypes] *)

(** The value setters a type object may hold in [odb_set_func]. *)
Inductive set_func := odbSetParamText | odbSetParamLongLong | odbSetParamDouble.

(** The Python values the driver tells apart by [isinstance].  Dates and
    times carry their [str()] rendering, floats their bit pattern; a value
    of any other type carries [str(type(value))]. *)
Inductive pyvalue :=
  | PyNone
  | PyBinary (s : string)
  | PyStr (s : string)
  | PyDatetime (iso : string)
  | PyDate (iso : string)
  | PyTime (iso : string)
  | PyInt (n : Z)
  | PyDecimal (digits : string)
  | PyFloat (bits : Z)
  | PyOther (type_name : string).

(** What [convert_to_c] hands to a setter: [c_char_p(value)] for a string
    or for an integer address, [c_char_p(str(value))], [c_longlong(value)]
    or [c_double(value)]. *)
Inductive c_value :=
  | c_char_p (s : string)
  | c_char_p_address (address : Z)
  | c_char_p_str (value : pyvalue)
  | c_longlong (n : Z)
  | c_double (value : pyvalue).

(** The [convert_to_c] a type object carries, if any. *)
Inductive converter :=
  | convert_text           (* c_char_p(value) *)
  | convert_str            (* c_char_p(str(value)) *)
  | convert_int            (* c_longlong(value) *)
  | convert_float.         (* c_double(value) *)

(** One call into the library, with the arguments the driver passes. *)
Inductive odb_call :=
  | odbAllocate (parent : option Z)
  | odbFree (h : Z)
  | odbLogout (h : Z) (disconnect : bool)
  | odbCommit (h : Z)
  | odbRollback (h : Z)
  | odbDropQry (h : Z)
  | odbPrepare (h : Z) (operation : string)
  | odbPrepareProc (procname : string)
  | odbExecute (h : Z)
  | odbGetRowCount (h : Z)
  | odbGetTotalCols (h : Z)
  | odbColName (h column : Z)
  | odbColSqlType (h column : Z)
  | odbColDataType (h column : Z)
  | odbFetchRow (h : Z)
  | odbNoData (h : Z)
  | odbFetchNextResult (h : Z)
  | odbColTruncated (h column : Z)
  | odbColActualLen (h column : Z)
  | odbColData (h column : Z)
  | odbColDataLen (h column : Z)
  | odbBindParamEx (h col_number param_type odb_type size sql_type
                    max_size precision : Z) (final : bool)
  | odbSetParamNull (h col_number : Z) (final : bool)
  | odbSetParam (f : set_func) (h col_number : Z) (v : c_value) (final : bool)
  | odbGetError (h : Z)
  | odbGetErrorText (h : Z).

(** The answer to a call.  [ctypes] reads it as a C [int] unless the
    function's [restype] was set to [c_char_p], in which case it reads a
    string, or [None] for a null pointer. *)
Record reply := Reply { as_int : Z; as_text : option string }.

(** The library: its state and its answer to each call; and what
    [ODB_TO_PYTHON[data_type](address, length)] reads from the library's
    memory, [None] standing for a [KeyError] ([data_type] is no key of the
    table, or the converter raised one).  [ctypes_value] is what the
    [ctypes] constructor behind a converter makes of a value whose fate the
    driver's code does not settle: it depends on the class of the value
    (whether it is a [long] or a [unicode], has an [__int__] or a
    [__float__], and what these do) and on the version of [ctypes]. *)
Class Transport := {
  tstate : Type;
  odb : tstate → odb_call → reply * tstate;
  ODB_TO_PYTHON : tstate → Z → Z → Z → option (outcome pyvalue);
  ctypes_value : converter → pyvalue → outcome c_value
}.

Definition event : Type := odb_call * reply.

Definition is_rollback (e : event) : bool :=
  match e.1 with odbRollback _ => true | _ => false end.

Definition is_free (e : event) : bool :=
  match e.1 with odbFree _ => true | _ => false end.

(** A prepare or execute call that reported failure. *)
Definition is_failed_run (e : event) : bool :=
  match e.1 with
  | odbPrepare _ _ | odbPrepareProc _ | odbExecute _ => (as_int e.2 =? 0)%Z
  | _ => false
  end.

(** ** Host values and the objects of the driver *)

Inductive type_class := DbApiTypeObject_ | STRING_ | BINARY_ | NUMBER_ | DATETIME_ | ROWID_.

(** An instance of [_DbApiTypeObject] or of a subclass.  [cursor] tells
    whether [self.cursor] has been set (to the cursor at hand). *)
Record TypeObject := {
  class_of : type_class;
  sub_type : option string;
  odb_type : Z;
  sql_type : Z;
  size : Z;
  max_size : Z;
  precision : Z;
  cursor : bool;
  col_number : Z;
  final : bool;
  bound : Z;
  odb_set_func : option set_func;
  convert_to_c : option converter
}.

Definition column_description : Type := option string * Z.

Definition row : Type := list pyvalue.

Record Connection := {
  Connection_open : bool;
  Connection_handle : option Z;
  committed : bool
}.

Record Cursor := {
  Cursor_open : bool;
  Cursor_handle : Z;
  arraysize : Z;
  description : option (list column_description);
  prepared_operation : option string;
  input_sizes : list TypeObject;
  rowcount : Z
}.

(** An item handed to [setinputsizes]: a type object or any other value. *)
Inductive size_item :=
  | SizeType (t : TypeObject)
  | SizeValue (v : pyvalue).

(** The arguments [*sizes] of [setinputsizes]: the items themselves, or one
    tuple holding them. *)
Inductive size_args :=
  | Items (items : list size_item)
  | OneTuple (items : list size_item).

(** ** Module namespaces

    The names bound at the top level of each source module, in order of
    binding; [from m import *] binds those names of [m] that do not start
    with an underscore, since no module sets [__all__]. *)
Definition star (names : list string) : list string :=
  filter (λ n, negb (String.prefix "_" n)) names.

Section Namespaces.
(** What [from ctypes import *] and [from odbtp.constants import *] bind. *)
Context (ctypes_names constants_names : list string).

Definition errors_py : list string :=
  star ctypes_names ++ ["exceptions"] ++ star constants_names ++
  ["odb"; "Warning"; "Error"; "InterfaceError"; "DatabaseError"; "DataError";
   "OperationalError"; "IntegrityError"; "InternalError"; "ProgrammingError";
   "NotSupportedError"; "get_exception"; "ODBTP_ERRORS"; "ODBC_ERROR_CODES";
   "HY_ERROR_CODES"].

Definition types_py : list string :=
  ["time"; "struct"; "date"; "time"; "datetime"] ++ star ctypes_names ++
  ["Decimal"] ++ star errors_py ++ star constants_names ++
  ["odb"; "Date"; "Time"; "Timestamp"; "DateFromTicks"; "TimeFromTicks";
   "TimestampFromTicks"; "Binary"; "_DbApiType"; "_DbApiTypeObject";
   "STRING"; "BINARY"; "NUMBER"; "DATETIME"; "ROWID"; "get_db_api_type";
   "get_odb_type"; "get_data"; "_convert_binary"; "_convert_int";
   "_convert_uint"; "_convert_float"; "_convert_bit"; "_convert_char";
   "_convert_date"; "_convert_time"; "_convert_datetime"; "_convert_guid";
   "_convert_numeric"; "_convert_wchar"; "_get_sizes"; "INT_SIZES";
   "UINT_SIZES"; "FLOAT_SIZES"; "ODB_TO_PYTHON"].

Definition connection_py : list string :=
  star ctypes_names ++ star errors_py ++ star types_py ++ star constants_names ++
  ["odb"; "connect"; "Connection"; "Cursor"].

End Namespaces.

Section Driver.
Context `{consts : Constants} `{lib : Transport}.

(** The state a method runs in: the library's own state, the calls made so
    far, the connection, and the cursor ([self], whose [connection]
    attribute is the connection of the same world). *)
Record World := {
  transport : tstate;
  trace : list event;
  connection : Connection;
  self : Cursor
}.

(** A method: it ends by returning or raising, in a new world; [None] only
    when a loop was cut short by lack of fuel. *)
Definition M (A : Type) : Type := World → option (outcome A * World).

Definition ret {A} (a : A) : M A := λ w, Some (Return a, w).
Definition raise {A} (e : exception) : M A := λ w, Some (Raise e, w).
Definition bind {A B} (m : M A) (k : A → M B) : M B :=
  λ w, match m w with
       | Some (Return a, w') => k a w'
       | Some (Raise e, w') => Some (Raise e, w')
       | None => None
       end.

Notation "'let*' x ':=' m 'in' k" := (bind m (λ x, k))
  (at level 10, x pattern, m at level 200, k at level 200).

Definition lift {A} (o : outcome A) : M A :=
  match o with Return a => ret a | Raise e => raise e end.

(** One call into the library. *)
Definition call (c : odb_call) : M reply :=
  λ w, let '(r, t) := odb (transport w) c in
       Some (Return r, {| transport := t; trace := trace w ++ [(c, r)];
                          connection := connection w; self := self w |}).

Definition get_connection : M Connection := λ w, Some (Return (connection w), w).
Definition get_self : M Cursor := λ w, Some (Return (self w), w).

Definition set_connection (c : Connection) : M unit :=
  λ w, Some (Return (), {| transport := transport w; trace := trace w;
                           connection := c; self := self w |}).

Definition set_self (c : Cursor) : M unit :=
  λ w, Some (Return (), {| transport := transport w; trace := trace w;
                           connection := connection w; self := c |}).

(** Reading [connection.handle]; the attribute is gone after [close]. *)
Definition get_connection_handle : M Z :=
  let* c := get_connection in
  match Connection_handle c with
  | Some h => ret h
  | None => raise (Exc AttributeError (Msg "Connection instance has no attribute 'handle'"))
  end.

(** ** errors.py *)

Definition ODBTP_ERRORS : gmap Z exception := Py.dict [
  (ODBTPERR_MEMORY, Exc InterfaceError (Msg "Memory error."));
  (ODBTPERR_HANDLE, Exc InterfaceError (Msg "Connection or cursor handle error."));
  (ODBTPERR_CONNECT, Exc InterfaceError (Msg "Connection error."));
  (ODBTPERR_READ, Exc InterfaceError (Msg "Read error."));
  (ODBTPERR_SEND, Exc InterfaceError (Msg "Send error."));
  (ODBTPERR_TIMEOUTCONN, Exc InterfaceError (Msg "Connection timed out."));
  (ODBTPERR_TIMEOUTREAD, Exc InterfaceError (Msg "Read timed out."));
  (ODBTPERR_TIMEOUTSEND, Exc InterfaceError (Msg "Send timed out."));
  (ODBTPERR_CONNECTED, Exc InterfaceError (Msg "Connection error."));
  (ODBTPERR_PROTOCOL, Exc InterfaceError (Msg "Protocol error."));
  (ODBTPERR_RESPONSE, Exc InterfaceError (Msg "Response error."));
  (ODBTPERR_MAXQUERYS, Exc InterfaceError (Msg "Maximum queries exceeded."));
  (ODBTPERR_COLNUMBER, Exc InterfaceError (Msg "Column number error."));
  (ODBTPERR_COLNAME, Exc InterfaceError (Msg "Column name error."));
  (ODBTPERR_FETCHROW, Exc InterfaceError (Msg "Error fetching row."));
  (ODBTPERR_NOTPREPPROC, Exc InterfaceError (Msg "Not a prepared procedure."));
  (ODBTPERR_NOPARAMINFO, Exc InterfaceError (Msg "Missing required parameter info."));
  (ODBTPERR_PARAMNUMBER, Exc InterfaceError (Msg "Parameter number error."));
  (ODBTPERR_PARAMNAME, Exc InterfaceError (Msg "Parameter name error."));
  (ODBTPERR_PARAMBIND, Exc InterfaceError (Msg "Parameter binding error."));
  (ODBTPERR_PARAMGET, Exc InterfaceError (Msg "Paramter retrieval error."));
  (ODBTPERR_ATTRTYPE, Exc InterfaceError (Msg "Attribute type error."));
  (ODBTPERR_GETQUERY, Exc InterfaceError (Msg "Query error."));
  (ODBTPERR_INTERFFILE, Exc InterfaceError NoArgs);
  (ODBTPERR_INTERFSYN, Exc InterfaceError NoArgs);
  (ODBTPERR_INTERFTYPE, Exc InterfaceError NoArgs);
  (ODBTPERR_CONNSTRLEN, Exc InterfaceError (Msg "Connection string length error."));
  (ODBTPERR_NOSEEKCURSOR, Exc InterfaceError (Msg "No seek cursor."));
  (ODBTPERR_SEEKROWPOS, Exc InterfaceError (Msg "Seek row position error."));
  (ODBTPERR_DETACHED, Exc InterfaceError (Msg "Connection has been detached."));
  (ODBTPERR_GETTYPEINFO, Exc InterfaceError (Msg "Error getting type info."));
  (ODBTPERR_LOADTYPES, Exc InterfaceError (Msg "Error loading types."));
  (ODBTPERR_NOREQUEST, Exc InterfaceError (Msg "No request."));
  (ODBTPERR_FETCHEDROWS, Exc InterfaceError (Msg "Error in fetched rows."));
  (ODBTPERR_DISCONNECTED, Exc InterfaceError (Msg "Disconnected."));
  (ODBTPERR_HOSTRESOLVE, Exc InterfaceError (Msg "Cannot resolve host."))
].

Definition ODBC_ERROR_CODES : gmap string exc_class := Py.dict [
  ("01", Warning); ("07", ProgrammingError); ("08", InterfaceError);
  ("21", ProgrammingError); ("22", ProgrammingError); ("23", IntegrityError);
  ("24", InternalError); ("25", InternalError); ("28", DatabaseError);
  ("34", InternalError); ("3C", InternalError); ("3D", ProgrammingError);
  ("3F", ProgrammingError); ("40", IntegrityError); ("42", ProgrammingError);
  ("44", DatabaseError); ("HY", ProgrammingError); ("IM", InterfaceError)
].

Definition HY_ERROR_CODES : gmap string exc_class := Py.dict [
  ("000", Error); ("001", InterfaceError); ("003", DataError);
  ("004", DataError); ("008", OperationalError); ("014", InterfaceError);
  ("018", OperationalError); ("C00", NotSupportedError);
  ("T00", OperationalError); ("T01", OperationalError)
].

(** The text after [.strip()] and with its line endings unified. *)
Definition normalize (odbc_error : string) : string :=
  Py.replace (String Py.CR "") (String Py.LF "")
    (Py.replace (String Py.CR (String Py.LF "")) (String Py.LF "") odbc_error).

(** [odbc_error.split('\n')[0].split(']')] *)
Definition error_parts (odbc_error : string) : list string :=
  Py.split "]" (default "" (head (Py.split Py.LF odbc_error))).

Definition error_code (odbc_error : string) : string :=
  Py.upper (Py.slice 1 3 (default "" (head (error_parts odbc_error)))).

Definition error_subcode (odbc_error : string) : string :=
  Py.upper (Py.slice 3 6 (default "" (head (error_parts odbc_error)))).

(** The branch of [get_exception] taken for [ODBTPERR_SERVER], from the
    text [odbGetErrorText] answered. *)
Definition server_exception (odbtp_error : Z) (text : string) : exception :=
  let odbc_error := Py.strip text in
  if bool_decide (odbc_error ∈ [""; "None"]) then Exc Error (Msg "Unknown Error.")
  else
    let odbc_error := normalize odbc_error in
    if (length (error_parts odbc_error) <? 2)%nat then Exc Error (Code odbtp_error)
    else
      match
        (if bool_decide (error_code odbc_error = "HY")
         then HY_ERROR_CODES !! error_subcode odbc_error else None),
        ODBC_ERROR_CODES !! error_code odbc_error
      with
      | Some cls, _ => Exc cls (Msg odbc_error)
      | None, Some cls => Exc cls (Msg odbc_error)
      | None, None => Exc Error (Msg odbc_error)
      end.

Definition get_exception (handle : Z) : M exception :=
  let* r := call (odbGetError handle) in
  let odbtp_error := as_int r in
  if bool_decide (odbtp_error = ODBTPERR_NONE) then
    ret (Exc Error (Msg "Unknown error."))
  else
    match ODBTP_ERRORS !! odbtp_error with
    | Some e => ret e
    | None =>
        if bool_decide (odbtp_error = ODBTPERR_SERVER) then
          let* r := call (odbGetErrorText handle) in
          match as_text r with
          | Some text => ret (server_exception odbtp_error text)
          | None => raise (Exc AttributeError (Msg "'NoneType' object has no attribute 'strip'"))
          end
        else ret (Exc Error (Msg "Unknown error."))
    end.

(** [raise get_exception(handle)] *)
Definition raise_get_exception {A} (handle : Z) : M A :=
  let* e := get_exception handle in raise e.

(** ** types.py *)

(** The class attributes of [_DbApiTypeObject]: what an instance holds
    before any [__init__] or binding. *)
Definition DbApiTypeObject : TypeObject := {|
  class_of := DbApiTypeObject_; sub_type := None;
  odb_type := 0; sql_type := 0; size := 0; max_size := 0; precision := 0;
  cursor := false; col_number := 0; final := false; bound := 0;
  odb_set_func := None; convert_to_c := None
|}.

Definition STRING (max_size : Z) : TypeObject := {|
  class_of := STRING_; sub_type := None;
  odb_type := ODB_CHAR; sql_type := SQL_CHAR; size := max_size;
  max_size := max_size; precision := 0;
  cursor := false; col_number := 0; final := false; bound := 0;
  odb_set_func := Some odbSetParamText; convert_to_c := Some convert_text
|}.

Definition BINARY (max_size : Z) : TypeObject := {|
  class_of := BINARY_; sub_type := None;
  odb_type := ODB_CHAR; sql_type := SQL_BINARY; size := max_size;
  max_size := max_size; precision := 0;
  cursor := false; col_number := 0; final := false; bound := 0;
  odb_set_func := Some odbSetParamText; convert_to_c := Some convert_str
|}.

(** [NUMBER.__init__]: the object when the constructor returns. *)
Definition NUMBER (sub_type : string) : outcome TypeObject :=
  let sub_type := Py.lower sub_type in
  let number odb_type sql_type odb_set_func convert_to_c := {|
    class_of := NUMBER_; sub_type := Some sub_type;
    odb_type := odb_type; sql_type := sql_type; size := 0; max_size := 0;
    precision := 8;
    cursor := false; col_number := 0; final := false; bound := 0;
    odb_set_func := Some odb_set_func; convert_to_c := Some convert_to_c |} in
  if bool_decide (sub_type = "int") then
    Return (number ODB_BIGINT SQL_BIGINT odbSetParamLongLong convert_int)
  else if bool_decide (sub_type = "float") then
    Return (number ODB_DOUBLE SQL_DOUBLE odbSetParamDouble convert_float)
  else if bool_decide (sub_type = "decimal") then
    Return (number ODB_CHAR SQL_CHAR odbSetParamText convert_str)
  else Raise (Exc ProgrammingError (Msg "Illegal sub_type for NUMBER.")).

(** The default of [NUMBER]'s [sub_type] parameter. *)
Definition NUMBER_default_sub_type : string := "numeric".

Definition DATETIME (sub_type : string) : outcome TypeObject :=
  let sub_type := Py.lower sub_type in
  let datetime width := {|
    class_of := DATETIME_; sub_type := Some sub_type;
    odb_type := ODB_CHAR; sql_type := SQL_CHAR; size := width; max_size := width;
    precision := 0;
    cursor := false; col_number := 0; final := false; bound := 0;
    odb_set_func := Some odbSetParamText; convert_to_c := Some convert_str |} in
  if bool_decide (sub_type ∈ ["datetime"; "timestamp"]) then Return (datetime 22)
  else if bool_decide (sub_type = "date") then Return (datetime 10)
  else if bool_decide (sub_type = "time") then Return (datetime 11)
  else Raise (Exc ProgrammingError (Msg "Illegal sub_type for DATETIME.")).

Definition DATETIME_default_sub_type : string := "datetime".

Definition len (s : string) : Z := Z.of_nat (String.length s).

(** The [isinstance] chain; [Binary] is tested before [str], [datetime]
    before [date]. *)
Definition get_db_api_type (value : pyvalue) : outcome TypeObject :=
  match value with
  | PyNone => Return DbApiTypeObject
  | PyBinary s => Return (BINARY (len s))
  | PyStr s => Return (STRING (len s))
  | PyDatetime _ => DATETIME DATETIME_default_sub_type
  | PyDate _ => DATETIME "date"
  | PyTime _ => DATETIME "time"
  | PyInt _ => NUMBER "int"
  | PyDecimal _ => NUMBER NUMBER_default_sub_type
  | PyFloat _ => NUMBER "float"
  | PyOther type_name =>
      Raise (Exc DataError (Msg ("Data type " +:+ type_name +:+ " is not supported.")))
  end.

(** The decision of [get_odb_type], from the two answers of the library. *)
Definition resolve_odb_type (sql_type odb_type : Z) : Z :=
  if bool_decide (sql_type = odb_type) then odb_type
  else if bool_decide (sql_type = 91) && bool_decide (odb_type = ODB_CHAR) then ODB_DATE
  else if bool_decide (sql_type = 92) && bool_decide (odb_type = ODB_CHAR) then ODB_TIME
  else if bool_decide (sql_type = -9) && bool_decide (odb_type = ODB_WCHAR) then ODB_CHAR
  else if bool_decide (sql_type = 2) && bool_decide (odb_type = 1) then ODB_NUMERIC
  else odb_type.

Definition get_odb_type (handle column : Z) : M Z :=
  let* s := call (odbColSqlType handle column) in
  let* o := call (odbColDataType handle column) in
  ret (resolve_odb_type (as_int s) (as_int o)).

(** [get_data(address, data_type, length)], reading the library's memory. *)
Definition get_data (address data_type length : Z) : M pyvalue :=
  if bool_decide (address = 0) then ret PyNone
  else λ w,
    match ODB_TO_PYTHON (transport w) data_type address length with
    | Some o => lift o w
    | None => raise (Exc DataError (Fmt "Data type ID %d cannot be converted." [data_type])) w
    end.

(** [self.convert_to_c(value)].  [c_char_p] takes a string, an integer
    address, or [None] for the null pointer (address 0), and refuses the
    other values the driver tells apart; [str(value)] is a string for each
    of these values; [c_longlong] takes an [int] and refuses what has no
    [__int__]; [c_double] takes a float and an [int] and refuses what has
    no [__float__].  Every other case is the host's, [ctypes_value]: a
    value of another type, a float or a [Decimal] given to [c_longlong]
    (accepted or not by the version), a [Decimal] given to [c_double]
    (its [__float__] may raise). *)
Definition convert (c : converter) (value : pyvalue) : outcome c_value :=
  match c, value with
  | convert_text, (PyStr s | PyBinary s) => Return (c_char_p s)
  | convert_text, PyInt n => Return (c_char_p_address n)
  | convert_text, PyNone => Return (c_char_p_address 0)
  | convert_text, (PyDatetime _ | PyDate _ | PyTime _ | PyDecimal _ | PyFloat _) =>
      Raise (Exc TypeError (Msg "string or integer address expected"))
  | convert_text, PyOther _ => ctypes_value c value
  | convert_str, PyOther _ => ctypes_value c value
  | convert_str, _ => Return (c_char_p_str value)
  | convert_int, PyInt n => Return (c_longlong n)
  | convert_int, (PyFloat _ | PyDecimal _ | PyOther _) => ctypes_value c value
  | convert_int, (PyNone | PyStr _ | PyBinary _ | PyDatetime _ | PyDate _ | PyTime _) =>
      Raise (Exc TypeError (Msg "int expected"))
  | convert_float, (PyFloat _ | PyInt _) => Return (c_double value)
  | convert_float, (PyDecimal _ | PyOther _) => ctypes_value c value
  | convert_float, (PyNone | PyStr _ | PyBinary _ | PyDatetime _ | PyDate _ | PyTime _) =>
      Raise (Exc TypeError (Msg "float expected"))
  end.

(** ** connection.py: Connection *)

Definition Connection_assert_connection_is_open : M unit :=
  let* c := get_connection in
  if negb (Connection_open c)
  then raise (Exc InterfaceError (Msg "The connection has been closed."))
  else ret ().

Definition Connection_rollback : M unit :=
  let* _ := Connection_assert_connection_is_open in
  let* h := get_connection_handle in
  let* r := call (odbRollback h) in
  if (as_int r =? 0)%Z then raise_get_exception h else ret ().

Definition Connection_commit : M unit :=
  let* _ := Connection_assert_connection_is_open in
  let* h := get_connection_handle in
  let* r := call (odbCommit h) in
  if (as_int r =? 0)%Z then raise_get_exception h
  else
    let* c := get_connection in
    set_connection {| Connection_open := Connection_open c;
                      Connection_handle := Connection_handle c;
                      committed := true |}.

Definition Connection_close : M unit :=
  let* _ := Connection_assert_connection_is_open in
  let* c := get_connection in
  let* _ := (if negb (committed c) then Connection_rollback else ret ()) in
  let* c := get_connection in
  let* _ := set_connection {| Connection_open := false;
                              Connection_handle := Connection_handle c;
                              committed := committed c |} in
  let* h := get_connection_handle in
  let* r := call (odbLogout h true) in
  if (as_int r =? 0)%Z then raise_get_exception h
  else
    let* _ := call (odbFree h) in
    let* c := get_connection in
    set_connection {| Connection_open := Connection_open c;
                      Connection_handle := None;
                      committed := committed c |}.

(** [Cursor.__init__]: the new cursor object. *)
Definition Cursor_init : M Cursor :=
  let* ch := get_connection_handle in
  let* r := call (odbAllocate (Some ch)) in
  if (as_int r =? 0)%Z then raise_get_exception ch
  else ret {| Cursor_open := true; Cursor_handle := as_int r; arraysize := 1;
              description := None; prepared_operation := None;
              input_sizes := []; rowcount := -1 |}.

Definition Connection_cursor : M Cursor :=
  let* _ := Connection_assert_connection_is_open in
  let* h := get_connection_handle in
  let* cursorhandle := call (odbAllocate (Some h)) in
  if (as_int cursorhandle =? 0)%Z then raise_get_exception h
  else Cursor_init.

Definition set_committed (b : bool) : M unit :=
  let* c := get_connection in
  set_connection {| Connection_open := Connection_open c;
                    Connection_handle := Connection_handle c;
                    committed := b |}.

(** ** Attribute assignment on the cursor *)

Definition with_open (b : bool) (c : Cursor) : Cursor :=
  {| Cursor_open := b; Cursor_handle := Cursor_handle c; arraysize := arraysize c;
     description := description c; prepared_operation := prepared_operation c;
     input_sizes := input_sizes c; rowcount := rowcount c |}.

Definition with_description (d : option (list column_description)) (c : Cursor) : Cursor :=
  {| Cursor_open := Cursor_open c; Cursor_handle := Cursor_handle c;
     arraysize := arraysize c; description := d;
     prepared_operation := prepared_operation c;
     input_sizes := input_sizes c; rowcount := rowcount c |}.

Definition with_prepared_operation (o : option string) (c : Cursor) : Cursor :=
  {| Cursor_open := Cursor_open c; Cursor_handle := Cursor_handle c;
     arraysize := arraysize c; description := description c;
     prepared_operation := o;
     input_sizes := input_sizes c; rowcount := rowcount c |}.

Definition with_input_sizes (l : list TypeObject) (c : Cursor) : Cursor :=
  {| Cursor_open := Cursor_open c; Cursor_handle := Cursor_handle c;
     arraysize := arraysize c; description := description c;
     prepared_operation := prepared_operation c;
     input_sizes := l; rowcount := rowcount c |}.

Definition with_rowcount (n : Z) (c : Cursor) : Cursor :=
  {| Cursor_open := Cursor_open c; Cursor_handle := Cursor_handle c;
     arraysize := arraysize c; description := description c;
     prepared_operation := prepared_operation c;
     input_sizes := input_sizes c; rowcount := n |}.

Definition update_self (f : Cursor → Cursor) : M unit :=
  let* c := get_self in set_self (f c).

(** ** types.py: the methods of a type object *)

(** Where the object a method mutates lives: [Some i] when it is item [i]
    of the cursor's [input_sizes] (the mutation shows there), [None] when
    it was just built.  The items of [input_sizes] are taken to be distinct
    objects. *)
Definition store (slot : option nat) (t : TypeObject) : M unit :=
  match slot with
  | Some i => update_self (λ c, with_input_sizes (<[i := t]> (input_sizes c)) c)
  | None => ret ()
  end.

Definition bind_to_column (slot : option nat) (t : TypeObject)
    (col_number total_cols : Z) : M TypeObject :=
  let* c := get_self in
  let final := bool_decide (col_number = total_cols) in
  let* r := call (odbBindParamEx (Cursor_handle c) col_number ODB_PARAM_INOUT
                    (odb_type t) (size t) (sql_type t) (max_size t)
                    (precision t) final) in
  let t' := {| class_of := class_of t; sub_type := sub_type t;
               odb_type := odb_type t; sql_type := sql_type t; size := size t;
               max_size := max_size t; precision := precision t;
               cursor := true; col_number := col_number; final := final;
               bound := as_int r;
               odb_set_func := odb_set_func t; convert_to_c := convert_to_c t |} in
  let* _ := store slot t' in
  if (as_int r =? 0)%Z then
    let* _ := Connection_rollback in
    let* h := get_connection_handle in
    raise_get_exception h
  else ret t'.

Definition set_parameter (t : TypeObject) (value : pyvalue) : M unit :=
  if (bound t =? 0)%Z then
    raise (Exc InterfaceError (Msg "You must bind a parameter before setting."))
  else
    let* c := get_self in
    let* h := (if cursor t then ret (Cursor_handle c)
               else raise (Exc AttributeError (Msg "'NoneType' object has no attribute 'handle'"))) in
    let* ret_val :=
      match value with
      | PyNone => call (odbSetParamNull h (col_number t) (final t))
      | _ =>
          match convert_to_c t with
          | None => raise (Exc AttributeError (Msg "object has no attribute 'convert_to_c'"))
          | Some f =>
              let* v := lift (convert f value) in
              match odb_set_func t with
              | None => raise (Exc TypeError (Msg "'NoneType' object is not callable"))
              | Some set => call (odbSetParam set h (col_number t) v (final t))
              end
          end
      end in
    if (as_int ret_val =? 0)%Z then
      let* _ := Connection_rollback in
      let* h := get_connection_handle in
      raise_get_exception h
    else ret ().

(** ** connection.py: Cursor *)

Definition Cursor_assert_cursor_is_open : M unit :=
  let* c := get_self in
  let* conn := get_connection in
  if negb (Cursor_open c) || negb (Connection_open conn)
  then raise (Exc InterfaceError (Msg "Cursor or connection has been closed."))
  else ret ().

Definition Cursor_close : M unit :=
  let* c := get_self in
  let* r := call (odbDropQry (Cursor_handle c)) in
  if (as_int r =? 0)%Z then raise_get_exception (Cursor_handle c)
  else
    let* _ := call (odbFree (Cursor_handle c)) in
    update_self (with_open false).

(** The loop of [_update_description] over [range(column, column + n)]. *)
Fixpoint describe_columns (handle column : Z) (n : nat) : M (list column_description) :=
  match n with
  | O => ret []
  | S n =>
      let* name := call (odbColName handle column) in
      let* type_code := get_odb_type handle column in
      let* rest := describe_columns handle (column + 1) n in
      ret ((as_text name, type_code) :: rest)
  end.

Definition Cursor_update_description : M unit :=
  let* c := get_self in
  let* num_columns := call (odbGetTotalCols (Cursor_handle c)) in
  let* description := describe_columns (Cursor_handle c) 1 (Z.to_nat (as_int num_columns)) in
  update_self (with_description (Some description)).

(** The loop of [_prepare_operation] over [enumerate(self.input_sizes)],
    from item [index] on. *)
Fixpoint bind_input_sizes (index : nat) (items : list TypeObject) (total_cols : Z) : M unit :=
  match items with
  | [] => ret ()
  | db_api_type :: items =>
      let* _ := bind_to_column (Some index) db_api_type (Z.of_nat index + 1) total_cols in
      bind_input_sizes (S index) items total_cols
  end.

Definition Cursor_prepare_operation (operation : string) (total_cols : Z) : M unit :=
  let* c := get_self in
  let* r := call (odbPrepare (Cursor_handle c) operation) in
  if (as_int r =? 0)%Z then
    let* _ := Connection_rollback in
    raise_get_exception (Cursor_handle c)
  else
    let* _ := (if bool_decide (prepared_operation c ≠ None)
               then update_self (with_input_sizes []) else ret ()) in
    let* _ := update_self (with_prepared_operation (Some operation)) in
    let* c := get_self in
    bind_input_sizes 0 (input_sizes c) total_cols.

(** [map(None, input_sizes, parameters)]: pairs, the shorter sequence
    padded with [None]. *)
Fixpoint map_None (input_sizes : list TypeObject) (parameters : row)
    : list (option TypeObject * pyvalue) :=
  match input_sizes, parameters with
  | t :: ts, v :: vs => (Some t, v) :: map_None ts vs
  | t :: ts, [] => (Some t, PyNone) :: map_None ts []
  | [], vs => (λ v, (None, v)) <$> vs
  end.

(** The loop over [enumerate(parameters)] that infers and binds a type
    object per value, from position [index] on. *)
Fixpoint bind_parameters (index : nat) (parameters : row) (total_cols : Z)
    : M (list (option TypeObject * pyvalue)) :=
  match parameters with
  | [] => ret []
  | value :: parameters =>
      let col_number := Z.of_nat index + 1 in
      let* db_api_type := lift (get_db_api_type value) in
      let* db_api_type := bind_to_column None db_api_type col_number total_cols in
      let* rest := bind_parameters (S index) parameters total_cols in
      ret ((Some db_api_type, value) :: rest)
  end.

Fixpoint set_parameters (bound_parameters : list (option TypeObject * pyvalue)) : M unit :=
  match bound_parameters with
  | [] => ret ()
  | (Some db_api_type, value) :: rest =>
      let* _ := set_parameter db_api_type value in set_parameters rest
  | (None, _) :: _ =>
      raise (Exc AttributeError (Msg "'NoneType' object has no attribute 'set_parameter'"))
  end.

(** The loop of [executemany] over [seq_of_parameters]. *)
Fixpoint execute_rows (seq_of_parameters : list row) (total_cols : Z) : M unit :=
  match seq_of_parameters with
  | [] => ret ()
  | parameters :: rest =>
      let* c := get_self in
      let* bound_parameters :=
        match input_sizes c with
        | [] => bind_parameters 0 parameters total_cols
        | sizes => ret (map_None sizes parameters)
        end in
      let* _ := set_parameters bound_parameters in
      let* c := get_self in
      let* r := call (odbExecute (Cursor_handle c)) in
      if (as_int r =? 0)%Z then
        let* _ := Connection_rollback in
        raise_get_exception (Cursor_handle c)
      else execute_rows rest total_cols
  end.

Definition Cursor_executemany (operation : string) (seq_of_parameters : list row) : M unit :=
  let* _ := Cursor_assert_cursor_is_open in
  let* total_cols :=
    match seq_of_parameters with
    | parameters :: _ => ret (Z.of_nat (length parameters))
    | [] => raise (Exc InterfaceError (Msg "Parameters are required for .executemany()"))
    end in
  let* c := get_self in
  let* _ := (if bool_decide (Some operation ≠ prepared_operation c)
             then Cursor_prepare_operation operation total_cols else ret ()) in
  let* _ := execute_rows seq_of_parameters total_cols in
  let* _ := Cursor_update_description in
  let* c := get_self in
  let* n := call (odbGetRowCount (Cursor_handle c)) in
  let* _ := update_self (with_rowcount (as_int n)) in
  set_committed false.

Definition Cursor_execute (operation : string) (parameters : row) : M unit :=
  Cursor_executemany operation [parameters].

(** The loop of [callproc] over [parameters]. *)
Fixpoint set_proc_parameters (parameters : row) : M unit :=
  match parameters with
  | [] => ret ()
  | value :: parameters =>
      let* db_api_type := lift (get_db_api_type value) in
      let* _ := set_parameter db_api_type value in
      set_proc_parameters parameters
  end.

Definition Cursor_callproc (procname : string) (parameters : row) : M unit :=
  let* _ := update_self (with_input_sizes []) in
  let* _ := update_self (with_prepared_operation None) in
  let* c := get_self in
  let* r := call (odbPrepareProc procname) in
  if (as_int r =? 0)%Z then
    let* _ := Connection_rollback in
    raise_get_exception (Cursor_handle c)
  else
    let* _ := set_proc_parameters parameters in
    let* r := call (odbExecute (Cursor_handle c)) in
    if (as_int r =? 0)%Z then
      let* _ := Connection_rollback in
      raise_get_exception (Cursor_handle c)
    else
      let* _ := Cursor_update_description in
      let* n := call (odbGetRowCount (Cursor_handle c)) in
      let* _ := update_self (with_rowcount (as_int n)) in
      set_committed false.

(** The loop of [fetchmany] over the columns of one row: [description]
    holds the columns from number [column] on. *)
Fixpoint fetch_columns (handle column : Z) (description : list column_description) : M row :=
  match description with
  | [] => ret []
  | (_, data_type) :: description =>
      let* t := call (odbColTruncated handle column) in
      if negb (as_int t =? 0)%Z then
        let* n := call (odbColActualLen handle column) in
        raise (Exc Warning (Fmt "Column %d was truncated. Actual size is %d."
                              [column; as_int n]))
      else
        let* data_address := call (odbColData handle column) in
        let* data_length := call (odbColDataLen handle column) in
        let* value := get_data (as_int data_address) data_type (as_int data_length) in
        let* rest := fetch_columns handle (column + 1) description in
        ret (value :: rest)
  end.

(** [while len(rows) < size: ...]; the loop appends one row per turn, so
    [size] turns are always enough. *)
Fixpoint fetchmany_loop (fuel : nat) (size : Z) (rows : list row) : M (list row) :=
  if (Z.of_nat (length rows) <? size)%Z then
    match fuel with
    | O => λ _, None
    | S fuel =>
        let* c := get_self in
        let* r := call (odbFetchRow (Cursor_handle c)) in
        if (as_int r =? 0)%Z then raise_get_exception (Cursor_handle c)
        else
          let* no_data := call (odbNoData (Cursor_handle c)) in
          if negb (as_int no_data =? 0)%Z then ret rows
          else
            match description c with
            | None => raise (Exc TypeError (Msg "object of type 'NoneType' has no len()"))
            | Some d =>
                let* row := fetch_columns (Cursor_handle c) 1 d in
                fetchmany_loop fuel size (rows ++ [row])
            end
    end
  else ret rows.

Definition Cursor_fetchmany (size : option Z) : M (list row) :=
  let* _ := Cursor_assert_cursor_is_open in
  let* c := get_self in
  let size := default (arraysize c) size in
  fetchmany_loop (Z.to_nat size) size [].

Definition Cursor_fetchone : M (option row) :=
  let* result := Cursor_fetchmany (Some 1) in
  ret (head result).

(** [while True: ...] of [fetchall]; it has no bound of its own. *)
Fixpoint fetchall_loop (fuel : nat) (size : Z) (rows : list row) : M (list row) :=
  match fuel with
  | O => λ _, None
  | S fuel =>
      let* new_rows := Cursor_fetchmany (Some size) in
      let rows := rows ++ new_rows in
      if (Z.of_nat (length new_rows) <? size)%Z then ret rows
      else fetchall_loop fuel size rows
  end.

Definition Cursor_fetchall (fuel : nat) : M (list row) :=
  let* c := get_self in
  fetchall_loop fuel (Z.max 20 (arraysize c)) [].

Definition Cursor_next : M row :=
  let* result := Cursor_fetchmany (Some 1) in
  match result with
  | [] => raise (Exc StopIteration NoArgs)
  | r :: _ => ret r
  end.

Definition Cursor_nextset : M unit :=
  let* _ := Cursor_assert_cursor_is_open in
  let* c := get_self in
  let* r := call (odbFetchNextResult (Cursor_handle c)) in
  if (as_int r =? 0)%Z then raise_get_exception (Cursor_handle c) else ret ().

(** Evaluating a global name inside [connection.py]. *)
Definition global_name (ctypes_names constants_names : list string) (name : string) : M unit :=
  if bool_decide (name ∈ connection_py ctypes_names constants_names) then ret ()
  else raise (Exc NameError (Msg ("global name '" +:+ name +:+ "' is not defined"))).

Section Setinputsizes.
Context (ctypes_names constants_names : list string).

(** The loop of [setinputsizes] over [sizes]. *)
Fixpoint check_sizes (sizes : list size_item) : M unit :=
  match sizes with
  | [] => ret ()
  | item :: sizes =>
      let* _ := global_name ctypes_names constants_names "DbApiTypeObject" in
      match item with
      | SizeType _ => check_sizes sizes
      | _ => raise (Exc InterfaceError (Msg "Input sizes must use Type Objects."))
      end
  end.

Definition type_objects (sizes : list size_item) : list TypeObject :=
  omap (λ item, match item with SizeType t => Some t | _ => None end) sizes.

Definition Cursor_setinputsizes (sizes : size_args) : M unit :=
  let sizes := match sizes with Items items | OneTuple items => items end in
  let* _ := check_sizes sizes in
  let* _ := update_self (with_input_sizes (type_objects sizes)) in
  update_self (with_prepared_operation None).

End Setinputsizes.

Definition Cursor_setoutputsize (size : pyvalue) (column : pyvalue) : M unit := ret ().

(** ** Vocabulary of the statements *)

(** What a method returned or raised, the final world set aside. *)
Definition result_of {A} (m : M A) (w : World) : option (outcome A) := fst <$> m w.

(** The two answers [get_exception] may read through [handle] in world
    [w]: the protocol-level code, and the error text asked for after it. *)
Definition error_code_of (handle : Z) (w : World) : Z :=
  as_int (odb (transport w) (odbGetError handle)).1.

Definition error_text_of (handle : Z) (w : World) : option string :=
  as_text (odb (odb (transport w) (odbGetError handle)).2 (odbGetErrorText handle)).1.

(** Every protocol-level code [errors.py] names: [ODBTPERR_NONE],
    [ODBTPERR_SERVER], and the keys of [ODBTP_ERRORS]. *)
Definition protocol_codes : list Z :=
  [ODBTPERR_NONE; ODBTPERR_SERVER; ODBTPERR_MEMORY; ODBTPERR_HANDLE;
   ODBTPERR_CONNECT; ODBTPERR_READ; ODBTPERR_SEND; ODBTPERR_TIMEOUTCONN;
   ODBTPERR_TIMEOUTREAD; ODBTPERR_TIMEOUTSEND; ODBTPERR_CONNECTED;
   ODBTPERR_PROTOCOL; ODBTPERR_RESPONSE; ODBTPERR_MAXQUERYS;
   ODBTPERR_COLNUMBER; ODBTPERR_COLNAME; ODBTPERR_FETCHROW;
   ODBTPERR_NOTPREPPROC; ODBTPERR_NOPARAMINFO; ODBTPERR_PARAMNUMBER;
   ODBTPERR_PARAMNAME; ODBTPERR_PARAMBIND; ODBTPERR_PARAMGET;
   ODBTPERR_ATTRTYPE; ODBTPERR_GETQUERY; ODBTPERR_INTERFFILE;
   ODBTPERR_INTERFSYN; ODBTPERR_INTERFTYPE; ODBTPERR_CONNSTRLEN;
   ODBTPERR_NOSEEKCURSOR; ODBTPERR_SEEKROWPOS; ODBTPERR_DETACHED;
   ODBTPERR_GETTYPEINFO; ODBTPERR_LOADTYPES; ODBTPERR_NOREQUEST;
   ODBTPERR_FETCHEDROWS; ODBTPERR_DISCONNECTED; ODBTPERR_HOSTRESOLVE].

(** The error text as [server_exception] classifies and reports it. *)
Definition odbc_text (text : string) : string := normalize (Py.strip text).

(** The text is neither empty nor ['None'], and its first line has a
    [']']: a class code and a subcode are read off it. *)
Definition parses (text : string) : Prop :=
  (Py.strip text ∉ [""; "None"]) ∧ (2 ≤ length (error_parts (odbc_text text)))%nat.

(** The two type signals [get_odb_type] reads for a column in world [w]. *)
Definition sql_type_of (handle column : Z) (w : World) : Z :=
  as_int (odb (transport w) (odbColSqlType handle column)).1.

Definition wire_type_of (handle column : Z) (w : World) : Z :=
  as_int (odb (odb (transport w) (odbColSqlType handle column)).2
              (odbColDataType handle column)).1.

(** A call that only asks the library for the error it recorded. *)
Definition is_error_query (e : event) : bool :=
  match e.1 with odbGetError _ | odbGetErrorText _ => true | _ => false end.

(** A stretch of calls with no rollback and no failed prepare or execute. *)
Definition calm (seg : list event) : Prop :=
  Forall (λ e, is_rollback e = false ∧ is_failed_run e = false) seg.

(** A stretch of calls in which one call reported failure and a rollback on
    connection handle [ch] is the very next call, everything around the two
    being calm. *)
Definition rolled (ch : Z) (seg : list event) : Prop :=
  ∃ pre c r post,
    seg = pre ++ c :: (odbRollback ch, r) :: post
    ∧ calm pre ∧ calm post ∧ is_rollback c = false ∧ as_int c.2 = 0.

(** The stretch holds a failed prepare or execute, a rollback on [ch] is the
    next call, and it is the only rollback of the stretch. *)
Definition rolled_back_once (ch : Z) (seg : list event) : Prop :=
  ∃ pre c r post,
    seg = pre ++ c :: (odbRollback ch, r) :: post
    ∧ is_failed_run c = true
    ∧ Forall (λ e, is_rollback e = false) (pre ++ c :: post).

(** The methods that prepare and execute. *)
Inductive runs : M unit → Prop :=
  | runs_executemany operation seq_of_parameters :
      runs (Cursor_executemany operation seq_of_parameters)
  | runs_execute operation parameters :
      runs (Cursor_execute operation parameters)
  | runs_callproc procname parameters :
      runs (Cursor_callproc procname parameters).

(** On an open connection with handle [ch], [m] leaves the connection
    object alone and makes calm calls, unless it raises after a failed call
    it answered with a rollback. *)
Definition tidy (ch : Z) {A} (m : M A) : Prop :=
  ∀ w r w',
    Connection_open (connection w) = true →
    Connection_handle (connection w) = Some ch →
    m w = Some (r, w') →
    connection w' = connection w
    ∧ ∃ seg, trace w' = trace w ++ seg
             ∧ match r with
               | Return _ => calm seg
               | Raise _ => calm seg ∨ rolled ch seg
               end.

(** [m] always returns or raises: it has no loop that could go on. *)
Definition ends {A} (m : M A) : Prop := ∀ w, is_Some (m w).

(** As [tidy], for a method that may end by resetting [committed]. *)
Definition tidy_run (ch : Z) {A} (m : M A) : Prop :=
  ∀ w r w',
    Connection_open (connection w) = true →
    Connection_handle (connection w) = Some ch →
    m w = Some (r, w') →
    ∃ seg, trace w' = trace w ++ seg
           ∧ match r with
             | Return _ => calm seg
             | Raise _ => connection w' = connection w ∧ (calm seg ∨ rolled ch seg)
             end.

(** [m] always raises, after calm calls, the connection object left alone. *)
Definition fails_calmly {A} (m : M A) : Prop :=
  ∀ w r w',
    m w = Some (r, w') →
    connection w' = connection w
    ∧ (∃ e, r = Raise e)
    ∧ ∃ seg, trace w' = trace w ++ seg ∧ calm seg.

(** [m] returns after exactly one call, which is no rollback, or raises
    without calling. *)
Definition one_call (m : M reply) : Prop :=
  ∀ w res w',
    m w = Some (res, w') →
    connection w' = connection w
    ∧ match res with
      | Return r => ∃ c, trace w' = trace w ++ [(c, r)] ∧ is_rollback (c, r) = false
      | Raise _ => trace w' = trace w
      end.

(** [m] returns without a call and leaves the connection object alone. *)
Definition silent {A} (m : M A) : Prop :=
  ∀ w, ∃ a w', m w = Some (Return a, w')
               ∧ connection w' = connection w ∧ trace w' = trace w.

(** On an open connection with handle [ch], [m] first rolls back, makes
    calm calls after that, and raises. *)
Definition rolls_back (ch : Z) {A} (m : M A) : Prop :=
  ∀ w r w',
    Connection_open (connection w) = true →
    Connection_handle (connection w) = Some ch →
    m w = Some (r, w') →
    connection w' = connection w
    ∧ (∃ e, r = Raise e)
    ∧ ∃ r0 seg, trace w' = trace w ++ (odbRollback ch, r0) :: seg ∧ calm seg.

(** The library, in state [t], serves the columns of the current row of
    [handle], from number [column] on and typed as [description] says: no
    column is truncated, a null address stands for [None], any other decodes
    to the value; it is left in state [t']. *)
Inductive serves_columns (handle : Z) :
    Z → list column_description → tstate → row → tstate → Prop :=
  | serves_no_column column t :
      serves_columns handle column [] t [] t
  | serves_column column name data_type description t value values t' :
      let truncated := odb t (odbColTruncated handle column) in
      let data := odb truncated.2 (odbColData handle column) in
      let size := odb data.2 (odbColDataLen handle column) in
      as_int truncated.1 = 0 →
      (if bool_decide (as_int data.1 = 0) then value = PyNone
       else ODB_TO_PYTHON size.2 data_type (as_int data.1) (as_int size.1)
            = Some (Return value)) →
      serves_columns handle (column + 1) description size.2 values t' →
      serves_columns handle column ((name, data_type) :: description) t
        (value :: values) t'.

(** [holds t rows] reads: in state [t] the library still has [rows] to
    serve through [handle].  The library keeps to it: with no row left it
    answers a fetch with success and no data, for good; with a row left it
    answers with success and data, serves that row, and has the others
    left. *)
Definition serves_rows (handle : Z) (description : list column_description)
    (holds : tstate → list row → Prop) : Prop :=
  (∀ t, holds t [] →
        let fetched := odb t (odbFetchRow handle) in
        let no_data := odb fetched.2 (odbNoData handle) in
        as_int fetched.1 ≠ 0 ∧ as_int no_data.1 ≠ 0 ∧ holds no_data.2 [])
  ∧ (∀ t r rows, holds t (r :: rows) →
        let fetched := odb t (odbFetchRow handle) in
        let no_data := odb fetched.2 (odbNoData handle) in
        as_int fetched.1 ≠ 0 ∧ as_int no_data.1 = 0
        ∧ ∃ t', serves_columns handle 1 description no_data.2 r t' ∧ holds t' rows).

(** The cursor of [w] is open on an open connection, holds [handle], and
    has [description] for the result set at hand. *)
Definition ready (handle : Z) (description_ : list column_description) (w : World) : Prop :=
  (Cursor_open (self w) = true ∧ Connection_open (connection w) = true)
  ∧ Cursor_handle (self w) = handle
  ∧ description (self w) = Some description_.

(** A fetch method called by the user: [fetchmany(n)], [fetchall()] given
    at least one turn of its loop, or [fetchone()]. *)
Inductive fetch_call :=
  | FetchMany (n : Z)
  | FetchAll (fuel : nat)
  | FetchOne.

(** The rows a fetch call hands back; [fetchone] hands back one or none. *)
Definition run_fetch (c : fetch_call) : M (list row) :=
  match c with
  | FetchMany n => Cursor_fetchmany (Some n)
  | FetchAll fuel => Cursor_fetchall (S fuel)
  | FetchOne => let* r := Cursor_fetchone in ret (option_list r)
  end.

(** Fetch calls made one after the other, and what each handed back. *)
Fixpoint run_fetches (calls : list fetch_call) : M (list (list row)) :=
  match calls with
  | [] => ret []
  | c :: calls =>
      let* rows := run_fetch c in
      let* rest := run_fetches calls in
      ret (rows :: rest)
  end.

(** The driver's own state is the same in both worlds. *)
Definition same_objects (w w' : World) : Prop :=
  connection w' = connection w ∧ self w' = self w.

(** The refusal of a method called on a closed cursor or connection: an
    [InterfaceError], the world left as it was. *)
Definition refused {A} (w : World) : option (outcome A * World) :=
  Some (Raise (Exc InterfaceError (Msg "Cursor or connection has been closed.")), w).

(** The cursor of [w] and its connection are both open. *)
Definition is_open (w : World) : Prop :=
  Cursor_open (self w) = true ∧ Connection_open (connection w) = true.

(** The calls made between two worlds. *)
Definition calls_between (w w' : World) (seg : list event) : Prop :=
  trace w' = trace w ++ seg.

End Driver.

(** ** Concrete instances *)

(** The values of [odbtp.h], for the names [Constants] lists. *)
Definition odbtp_h : Constants := {|
  ODBTPERR_NONE := 0; ODBTPERR_MEMORY := 1; ODBTPERR_HANDLE := 2;
  ODBTPERR_CONNECT := 3; ODBTPERR_READ := 4; ODBTPERR_SEND := 5;
  ODBTPERR_TIMEOUTCONN := 6; ODBTPERR_TIMEOUTREAD := 7; ODBTPERR_TIMEOUTSEND := 8;
  ODBTPERR_CONNECTED := 9; ODBTPERR_PROTOCOL := 10; ODBTPERR_RESPONSE := 11;
  ODBTPERR_MAXQUERYS := 12; ODBTPERR_COLNUMBER := 13; ODBTPERR_COLNAME := 14;
  ODBTPERR_FETCHROW := 15; ODBTPERR_NOTPREPPROC := 16; ODBTPERR_NOPARAMINFO := 17;
  ODBTPERR_PARAMNUMBER := 18; ODBTPERR_PARAMNAME := 19; ODBTPERR_PARAMBIND := 20;
  ODBTPERR_PARAMGET := 21; ODBTPERR_ATTRTYPE := 22; ODBTPERR_GETQUERY := 23;
  ODBTPERR_INTERFFILE := 24; ODBTPERR_INTERFSYN := 25; ODBTPERR_INTERFTYPE := 26;
  ODBTPERR_CONNSTRLEN := 27; ODBTPERR_NOSEEKCURSOR := 28; ODBTPERR_SEEKROWPOS := 29;
  ODBTPERR_DETACHED := 30; ODBTPERR_GETTYPEINFO := 31; ODBTPERR_LOADTYPES := 32;
  ODBTPERR_NOREQUEST := 33; ODBTPERR_FETCHEDROWS := 34; ODBTPERR_DISCONNECTED := 35;
  ODBTPERR_HOSTRESOLVE := 36; ODBTPERR_SERVER := 100;
  ODB_CHAR := 1; ODB_WCHAR := -8; ODB_BIGINT := -25; ODB_DOUBLE := 8;
  ODB_DATE := 9; ODB_TIME := 10; ODB_NUMERIC := 2;
  SQL_CHAR := 1; SQL_BINARY := -2; SQL_BIGINT := -5; SQL_DOUBLE := 8;
  ODB_PARAM_INOUT := 4
|}.

(** A library that answers from a script, one reply per call, and [1]
    ever after; it decodes any non-null address to the address itself.
    The host's [ctypes] refuses every value left to it. *)
Definition scripted : Transport := {|
  tstate := list reply;
  odb := λ t _, match t with r :: t' => (r, t') | [] => (Reply 1 None, []) end;
  ODB_TO_PYTHON := λ _ _ address _, Some (Return (PyInt address));
  ctypes_value := λ _ _, Raise (Exc TypeError (Msg "wrong type"))
|}.

Definition int_reply (n : Z) : reply := Reply n None.


Definition new_connection (h : Z) : Connection :=
  {| Connection_open := true; Connection_handle := Some h; committed := false |}.

Definition new_cursor (h : Z) : Cursor :=
  {| Cursor_open := true; Cursor_handle := h; arraysize := 1; description := None;
     prepared_operation := None; input_sizes := []; rowcount := -1 |}.

(** A world over [scripted]: connection 1 and cursor 2 just opened, no call
    made yet, the library about to answer from [script]. *)
Definition fresh (script : list reply) : @World scripted :=
  @Build_World scripted script [] (new_connection 1) (new_cursor 2).

(** A library holding one-column rows, one address per row: it serves them
    in order and reports no data once they are gone. *)
Definition table_server : Transport := {|
  tstate := list Z;
  odb := λ t c,
    match c with
    | odbNoData _ => (Reply (if t is [] then 1 else 0) None, t)
    | odbColData _ _ => (Reply (default 0 (head t)) None, tail t)
    | odbColTruncated _ _ => (Reply 0 None, t)
    | _ => (Reply 1 None, t)
    end;
  ODB_TO_PYTHON := λ _ _ address _, Some (Return (PyInt address));
  ctypes_value := λ _ _, Raise (Exc TypeError (Msg "wrong type"))
|}.

(** The row [table_server] serves for an address. *)
Definition table_row (address : Z) : row :=
  [if bool_decide (address = 0) then PyNone else PyInt address].

Definition table_holds (t : list Z) (rows : list row) : Prop :=
  rows = table_row <$> t.

(** A world over [table_server]: cursor 2 of connection 1 after a query of
    one column, the library holding [table]. *)
Definition queried (table : list Z) : @World table_server :=
  @Build_World table_server table []
    (new_connection 1)
    {| Cursor_open := true; Cursor_handle := 2; arraysize := 1;
       description := Some [(None, 0)]; prepared_operation := None;
       input_sizes := []; rowcount := -1 |}.

(** The world [Cursor.close] leaves behind when called in [fresh []]. *)
Definition after_close : @World scripted :=
  @Build_World scripted []
    [(odbDropQry 2, Reply 1 None); (odbFree 2, Reply 1 None)]
    (new_connection 1)
    {| Cursor_open := false; Cursor_handle := 2; arraysize := 1;
       description := None; prepared_operation := None;
       input_sizes := []; rowcount := -1 |}.

(** The names the three modules use from [ctypes] and from
    [odbtp.constants]. *)
Definition ctypes_used : list string :=
  ["cdll"; "c_char_p"; "c_longlong"; "c_double"; "c_float"; "c_byte";
   "c_short"; "c_int"; "c_long"; "c_ubyte"; "c_ushort"; "c_uint"; "c_ulong";
   "c_ulonglong"; "sizeof"; "string_at"; "wstring_at"].

Definition constants_used : list string :=
  ["ODBTPERR_NONE"; "ODBTPERR_MEMORY"; "ODBTPERR_HANDLE"; "ODBTPERR_CONNECT";
   "ODBTPERR_READ"; "ODBTPERR_SEND"; "ODBTPERR_TIMEOUTCONN";
   "ODBTPERR_TIMEOUTREAD"; "ODBTPERR_TIMEOUTSEND"; "ODBTPERR_CONNECTED";
   "ODBTPERR_PROTOCOL"; "ODBTPERR_RESPONSE"; "ODBTPERR_MAXQUERYS";
   "ODBTPERR_COLNUMBER"; "ODBTPERR_COLNAME"; "ODBTPERR_FETCHROW";
   "ODBTPERR_NOTPREPPROC"; "ODBTPERR_NOPARAMINFO"; "ODBTPERR_PARAMNUMBER";
   "ODBTPERR_PARAMNAME"; "ODBTPERR_PARAMBIND"; "ODBTPERR_PARAMGET";
   "ODBTPERR_ATTRTYPE"; "ODBTPERR_GETQUERY"; "ODBTPERR_INTERFFILE";
   "ODBTPERR_INTERFSYN"; "ODBTPERR_INTERFTYPE"; "ODBTPERR_CONNSTRLEN";
   "ODBTPERR_NOSEEKCURSOR"; "ODBTPERR_SEEKROWPOS"; "ODBTPERR_DETACHED";
   "ODBTPERR_GETTYPEINFO"; "ODBTPERR_LOADTYPES"; "ODBTPERR_NOREQUEST";
   "ODBTPERR_FETCHEDROWS"; "ODBTPERR_DISCONNECTED"; "ODBTPERR_HOSTRESOLVE";
   "ODBTPERR_SERVER"; "ODB_LOGIN_SINGLE"; "ODB_ATTR_DRIVERNAME";
   "ODB_ATTR_DESCRIBEPARAMS"; "ODB_ATTR_FULLCOLINFO"; "ODB_ATTR_TRANSACTIONS";
   "ODB_TXN_SERIALIZABLE"; "ODB_DRIVER_FOXPRO"; "ODB_DRIVER_JET";
   "ODB_PARAM_INOUT"; "ODB_BINARY"; "ODB_BIGINT"; "ODB_UBIGINT"; "ODB_BIT";
   "ODB_CHAR"; "ODB_DATE"; "ODB_DATETIME"; "ODB_DOUBLE"; "ODB_FLOAT";
   "ODB_GUID"; "ODB_INT"; "ODB_UINT"; "ODB_NUMERIC"; "ODB_REAL";
   "ODB_SMALLINT"; "ODB_USMALLINT"; "ODB_TIME"; "ODB_TINYINT"; "ODB_UTINYINT";
   "ODB_WCHAR"; "SQL_CHAR"; "SQL_BINARY"; "SQL_BIGINT"; "SQL_DOUBLE"].

(** A script on which a commit succeeds, a statement is prepared, its
    execution fails, the rollback succeeds, and the error recorded is a
    connect timeout. *)
Definition commit_then_failed_execute : list reply :=
  [int_reply 1; int_reply 1; int_reply 0; int_reply 1; int_reply 6].

(** * More of the driver: vocabulary *)

(** A fetch call, or a query for the error recorded. *)
Definition is_fetch (e : event) : bool :=
  match e.1 with
  | odbFetchRow _ | odbNoData _ | odbFetchNextResult _ | odbColTruncated _ _
  | odbColActualLen _ _ | odbColData _ _ | odbColDataLen _ _
  | odbGetError _ | odbGetErrorText _ => true
  | _ => false
  end.

Definition is_prepare (e : event) : bool :=
  match e.1 with odbPrepare _ _ => true | _ => false end.

Definition is_not_prepare (e : event) : bool := negb (is_prepare e).

(** A call that reads the shape of the result: column count, names and
    types, and the row count. *)
Definition is_describe (e : event) : bool :=
  match e.1 with
  | odbGetTotalCols _ | odbColName _ _ | odbColSqlType _ _ | odbColDataType _ _
  | odbGetRowCount _ => true
  | _ => false
  end.

(** The calls that ask the server to prepare, bind, set or execute. *)
Definition is_request (c : odb_call) : bool :=
  match c with
  | odbPrepare _ _ | odbBindParamEx _ _ _ _ _ _ _ _ _ | odbSetParamNull _ _ _
  | odbSetParam _ _ _ _ _ | odbExecute _ => true
  | _ => false
  end.

(** The classes of the DB API: [Warning], [Error] and its subclasses. *)
Definition is_dbapi_class (c : exc_class) : bool :=
  match c with
  | NameError | TypeError | AttributeError | StopIteration => false
  | _ => true
  end.

(** The number of input sizes, a view of the cursor. *)
Definition hints (_ : Connection) (c : Cursor) : nat := length (input_sizes c).

(** [p] lets the queries for the recorded error through. *)
Definition lets_error_queries (p : event → bool) : Prop :=
  ∀ e, is_error_query e = true → p e = true.

(** ** types.py: the size tables *)

(** The [ctypes] types the size tables are built from. *)
Module ctypes.
Inductive data_type :=
  | c_byte | c_short | c_int | c_long | c_longlong
  | c_ubyte | c_ushort | c_uint | c_ulong | c_ulonglong
  | c_float | c_double.
End ctypes.

Section Sizes.
Context (sizeof : ctypes.data_type → Z).

(** [_get_sizes]: the loop keeps the entry a size already has. *)
Definition get_sizes (data_types : list ctypes.data_type) : gmap Z ctypes.data_type :=
  foldl (λ size_dict data_type,
           let size := sizeof data_type in
           if bool_decide (is_Some (size_dict !! size)) then size_dict
           else <[size := data_type]> size_dict)
        ∅ data_types.

Definition INT_SIZES : gmap Z ctypes.data_type :=
  get_sizes [ctypes.c_byte; ctypes.c_short; ctypes.c_int; ctypes.c_long;
             ctypes.c_longlong].

Definition UINT_SIZES : gmap Z ctypes.data_type :=
  get_sizes [ctypes.c_ubyte; ctypes.c_ushort; ctypes.c_uint; ctypes.c_ulong;
             ctypes.c_ulonglong].

Definition FLOAT_SIZES : gmap Z ctypes.data_type :=
  get_sizes [ctypes.c_float; ctypes.c_double].

End Sizes.

Section Frames.
Context `{consts : Constants} `{lib : Transport}.

Notation "'let*' x ':=' m 'in' k" := (bind m (λ x, k))
  (at level 10, x pattern, m at level 200, k at level 200).

(** Every call [m] makes satisfies [p]. *)
Definition emits (p : event → bool) {A} (m : M A) : Prop :=
  ∀ w r w', m w = Some (r, w') →
            ∃ seg, trace w' = trace w ++ seg ∧ Forall (λ e, p e = true) seg.

(** [m] leaves the view [f] of the connection and the cursor as it was,
    whether it returns or raises. *)
Definition preserves {X} (f : Connection → Cursor → X) {A} (m : M A) : Prop :=
  ∀ w r w', m w = Some (r, w') →
            f (connection w') (self w') = f (connection w) (self w).

(** [m] leaves a cursor that has no input sizes without any. *)
Definition keeps_unhinted {A} (m : M A) : Prop :=
  ∀ w r w', input_sizes (self w) = [] → m w = Some (r, w') →
            input_sizes (self w') = [].

(** The refusal of a method called on a closed connection. *)
Definition connection_refused {A} (w : World) : option (outcome A * World) :=
  Some (Raise (Exc InterfaceError (Msg "The connection has been closed.")), w).

(** What [Connection.close] does once past the implicit rollback: mark the
    connection closed, log out, free the handle and delete the attribute. *)
Definition Connection_close_logout : M unit :=
  let* c := get_connection in
  let* _ := set_connection {| Connection_open := false;
                              Connection_handle := Connection_handle c;
                              committed := committed c |} in
  let* h := get_connection_handle in
  let* r := call (odbLogout h true) in
  if (as_int r =? 0)%Z then raise_get_exception h
  else
    let* _ := call (odbFree h) in
    let* c := get_connection in
    set_connection {| Connection_open := Connection_open c;
                      Connection_handle := None;
                      committed := committed c |}.

(** The three calls that describe column [column], with their answers,
    and the description entry read off the answers. *)
Definition column_calls (h column : Z) (answers : reply * reply * reply) : list event :=
  [(odbColName h column, answers.1.1); (odbColSqlType h column, answers.1.2);
   (odbColDataType h column, answers.2)].

Definition column_entry (answers : reply * reply * reply) : column_description :=
  (as_text answers.1.1, resolve_odb_type (as_int answers.1.2) (as_int answers.2)).

(** A library that, from the states [I] holds of, never refuses a request. *)
Definition grants (I : tstate → Prop) : Prop :=
  ∀ s c, I s → I (odb s c).2 ∧ (is_request c = true → as_int (odb s c).1 ≠ 0).

(** How a Python value goes on the wire: ODB type, SQL type, size (also
    the maximum size) and precision.  A [Decimal] and a value of any other
    type have no format. *)
Definition wire_format (value : pyvalue) : option (Z * Z * Z * Z) :=
  match value with
  | PyNone => Some (0, 0, 0, 0)
  | PyBinary s => Some (ODB_CHAR, SQL_BINARY, len s, 0)
  | PyStr s => Some (ODB_CHAR, SQL_CHAR, len s, 0)
  | PyDatetime _ => Some (ODB_CHAR, SQL_CHAR, 22, 0)
  | PyDate _ => Some (ODB_CHAR, SQL_CHAR, 10, 0)
  | PyTime _ => Some (ODB_CHAR, SQL_CHAR, 11, 0)
  | PyInt _ => Some (ODB_BIGINT, SQL_BIGINT, 0, 8)
  | PyFloat _ => Some (ODB_DOUBLE, SQL_DOUBLE, 0, 8)
  | PyDecimal _ | PyOther _ => None
  end.

(** The request that binds the value at position [index] of a row, of
    [total] columns by the first row's count. *)
Definition binding (h total : Z) (index : nat) (value : pyvalue) : option odb_call :=
  let col_number := Z.of_nat index + 1 in
  match wire_format value with
  | Some (odb_type, sql_type, size, precision) =>
      Some (odbBindParamEx h col_number ODB_PARAM_INOUT odb_type size sql_type size
              precision (bool_decide (col_number = total)))
  | None => None
  end.

(** The request that sets it. *)
Definition setting (h total : Z) (index : nat) (value : pyvalue) : option odb_call :=
  let col_number := Z.of_nat index + 1 in
  let final := bool_decide (col_number = total) in
  match value with
  | PyNone => Some (odbSetParamNull h col_number final)
  | PyStr s => Some (odbSetParam odbSetParamText h col_number (c_char_p s) final)
  | PyBinary _ | PyDatetime _ | PyDate _ | PyTime _ =>
      Some (odbSetParam odbSetParamText h col_number (c_char_p_str value) final)
  | PyInt n => Some (odbSetParam odbSetParamLongLong h col_number (c_longlong n) final)
  | PyFloat _ => Some (odbSetParam odbSetParamDouble h col_number (c_double value) final)
  | PyDecimal _ | PyOther _ => None
  end.

(** The requests for one row: every value bound, then every value set,
    then one execution. *)
Definition row_requests (h total : Z) (parameters : row) : list (option odb_call) :=
  imap (binding h total) parameters ++ imap (setting h total) parameters
  ++ [Some (odbExecute h)].

(** The request [set_parameter] makes for a bound type object. *)
Definition set_request (h : Z) (t : TypeObject) (value : pyvalue) : option odb_call :=
  if (bound t =? 0)%Z then None
  else if negb (cursor t) then None
  else match value with
       | PyNone => Some (odbSetParamNull h (col_number t) (final t))
       | _ =>
           match convert_to_c t, odb_set_func t with
           | Some f, Some set =>
               match convert f value with
               | Return v => Some (odbSetParam set h (col_number t) v (final t))
               | Raise _ => None
               end
           | _, _ => None
           end
       end.

Definition set_requests (h : Z) (l : list (option TypeObject * pyvalue))
    : list (option odb_call) :=
  (λ p, match p.1 with Some t => set_request h t p.2 | None => None end) <$> l.

End Frames.

(** ** More concrete instances *)

(** The world [Connection.close] leaves behind when called in [fresh []]. *)
Definition after_logout : @World scripted :=
  @Build_World scripted []
    [(odbRollback 1, Reply 1 None); (odbLogout 1 true, Reply 1 None);
     (odbFree 1, Reply 1 None)]
    {| Connection_open := false; Connection_handle := None; committed := false |}
    (new_cursor 2).

(** The scripted library once its script is over: it answers [1] to every
    call from then on. *)
Definition script_over (t : list reply) : Prop := t = [].

(** A script on which the implicit rollback of [close] succeeds, the logout
    fails, and the error recorded is a connect timeout. *)
Definition failed_logout : list reply := [int_reply 1; int_reply 0; int_reply 6].

(** A script on which a request is refused, the rollback succeeds, and the
    error recorded is a connect timeout. *)
Definition refused_request : list reply := [int_reply 0; int_reply 1; int_reply 6].

(** A [STRING(25)] bound by cursor 2 to the only column of an operation. *)
Definition bound_string : TypeObject := {|
  class_of := STRING_; sub_type := None;
  odb_type := 1; sql_type := 1; size := 25; max_size := 25; precision := 0;
  cursor := true; col_number := 1; final := true; bound := 1;
  odb_set_func := Some odbSetParamText; convert_to_c := Some convert_text
|}.

(** * Properties *)

Section Properties.
Context `{consts : Constants} `{lib : Transport}.

(** ** Dict literals *)

Lemma dict_lookup_Some `{Countable K} {V} (entries : list (K * V)) k v :
  Py.dict entries !! k = Some v → (k, v) ∈ entries.
Proof.
  unfold Py.dict. intros Hl.
  apply elem_of_list_to_map_2 in Hl. by apply elem_of_reverse.
Qed.



Lemma ODBTP_ERRORS_values code e :
  ODBTP_ERRORS !! code = Some e →
  code ∈ drop 2 protocol_codes ∧ exc_type e = InterfaceError.
Proof.
  intros Hl. apply dict_lookup_Some in Hl.
  repeat (apply elem_of_cons in Hl as [Hl | Hl];
          [ injection Hl as -> ->; split; [ set_solver | done ] | ]).
  by apply elem_of_nil in Hl.
Qed.

Lemma run_call c w :
  call c w =
  Some (Return (odb (transport w) c).1,
        {| transport := (odb (transport w) c).2;
           trace := trace w ++ [(c, (odb (transport w) c).1)];
           connection := connection w; self := self w |}).
Proof. unfold call. by destruct (odb (transport w) c). Qed.





(** ** The branches of [server_exception] *)



Lemma server_exception_parsed code text :
  parses text →
  server_exception code text =
  match (if bool_decide (error_code (odbc_text text) = "HY")
         then HY_ERROR_CODES !! error_subcode (odbc_text text) else None),
        ODBC_ERROR_CODES !! error_code (odbc_text text) with
  | Some cls, _ => Exc cls (Msg (odbc_text text))
  | None, Some cls => Exc cls (Msg (odbc_text text))
  | None, None => Exc Error (Msg (odbc_text text))
  end.
Proof.
  intros [Hs Hlen]. unfold server_exception. rewrite bool_decide_eq_false_2 by done.
  fold (odbc_text text).
  by destruct (Nat.ltb_spec (length (error_parts (odbc_text text))) 2); [ lia | ].
Qed.

(** A text has fewer than two [']']-delimited segments exactly when it
    holds no [']']. *)
Lemma split_length sep s :
  length (Py.split sep s)
  = S (length (filter (λ c, c = sep) (list_ascii_of_string s))).
Proof.
  induction s as [ | c s IH ]; [ done | ]. cbn [Py.split list_ascii_of_string].
  rewrite filter_cons. case_bool_decide as Hc.
  - rewrite decide_True by done. cbn. by rewrite IH.
  - rewrite decide_False by done.
    destruct (Py.split sep s) eqn:Hsp; [ done | ]. cbn in *. done.
Qed.

Lemma replace_from_cons old_c old_s new c s :
  c ≠ old_c →
  Py.replace_from (String old_c old_s) new 0 (String c s)
  = String c (Py.replace_from (String old_c old_s) new 0 s).
Proof.
  intros Hc. cbn [Py.replace_from String.prefix].
  destruct (ascii_dec old_c c); [ congruence | done ].
Qed.

Lemma normalize_cons c s : c ≠ Py.CR → normalize (String c s) = String c (normalize s).
Proof.
  intros Hc. unfold normalize, Py.replace. by rewrite !replace_from_cons.
Qed.

Lemma split_cons sep c s :
  c ≠ sep →
  Py.split sep (String c s)
  = String c (default "" (head (Py.split sep s))) :: tail (Py.split sep s).
Proof.
  intros Hc. cbn [Py.split]. rewrite bool_decide_eq_false_2 by done.
  pose proof (split_length sep s) as Hlen. by destruct (Py.split sep s).
Qed.

Lemma split_sep sep s : Py.split sep (String sep s) = "" :: Py.split sep s.
Proof. cbn [Py.split]. by rewrite bool_decide_eq_true_2. Qed.







(** The SQLSTATE of a text that starts with one character, five
    characters and a [']']. *)
Lemma sqlstate_position (text rest : string) (c0 a b x y z : ascii) :
  Py.strip text
  = String c0 (String a (String b (String x (String y (String z (String "]" rest)))))) →
  Forall (λ c, c ∉ [Py.CR; Py.LF; "]"%char]) [c0; a; b; x; y; z] →
  parses text
  ∧ error_code (odbc_text text) = Py.upper (String a (String b ""))
  ∧ error_subcode (odbc_text text) = Py.upper (String x (String y (String z ""))).
Proof.
  intros Hstrip Hchars.
  assert (∀ c, c ∈ [c0; a; b; x; y; z] → c ≠ Py.CR ∧ c ≠ Py.LF ∧ c ≠ "]"%char) as Hc.
  { intros c Hin. rewrite Forall_forall in Hchars. specialize (Hchars c Hin).
    split_and!; intros ->; apply Hchars; repeat constructor. }
  destruct (Hc c0) as (? & ? & ?); [ repeat constructor | ].
  destruct (Hc a) as (? & ? & ?); [ repeat constructor | ].
  destruct (Hc b) as (? & ? & ?); [ repeat constructor | ].
  destruct (Hc x) as (? & ? & ?); [ repeat constructor | ].
  destruct (Hc y) as (? & ? & ?); [ repeat constructor | ].
  destruct (Hc z) as (? & ? & ?); [ repeat constructor | ].
  assert (odbc_text text
          = String c0 (String a (String b (String x (String y (String z
              (String "]" (normalize rest)))))))) as Htext.
  { unfold odbc_text. rewrite Hstrip. by rewrite !normalize_cons. }
  assert (∃ parts, error_parts (odbc_text text)
                   = String c0 (String a (String b (String x (String y (String z ""))))) :: parts
                   ∧ (1 ≤ length parts)%nat) as (parts & Hparts & Hlen).
  { unfold error_parts. rewrite Htext. rewrite !split_cons by done.
    cbn [head default from_option id].
    rewrite !split_cons by done. rewrite split_sep. cbn [head default from_option id tail].
    eexists. split; [ done | ]. rewrite split_length. lia. }
  split_and!.
  - split.
    + rewrite Hstrip. intros Hin. repeat (apply elem_of_cons in Hin as [ Hin | Hin ]; [ done | ]).
      by apply elem_of_nil in Hin.
    + rewrite Hparts. cbn. lia.
  - unfold error_code. by rewrite Hparts.
  - unfold error_subcode. by rewrite Hparts.
Qed.


(** ** Type reconciliation *)

(** C2. [get_odb_type] reads the two type signals of a column and resolves
    them by the ordered rules: equal signals give the wire type; SQL code 91
    over a character wire type gives the date type, 92 the time type; SQL
    code -9 over a wide-character wire type gives narrow character; SQL
    code 2 over wire value 1 gives the numeric type; any other pair gives
    the wire type. *)
Theorem get_odb_type_rules (handle column : Z) (w : World) :
  let sql := sql_type_of handle column w in
  let wire := wire_type_of handle column w in
  ∃ resolved,
    result_of (get_odb_type handle column) w = Some (Return resolved)
    ∧ (sql = wire → resolved = wire)
    ∧ (sql ≠ wire → sql = 91 → wire = ODB_CHAR → resolved = ODB_DATE)
    ∧ (sql ≠ wire → sql = 92 → wire = ODB_CHAR → resolved = ODB_TIME)
    ∧ (sql ≠ wire → sql = -9 → wire = ODB_WCHAR → resolved = ODB_CHAR)
    ∧ (sql = 2 → wire = 1 → resolved = ODB_NUMERIC)
    ∧ (sql ≠ wire →
       ¬ (sql = 91 ∧ wire = ODB_CHAR) → ¬ (sql = 92 ∧ wire = ODB_CHAR) →
       ¬ (sql = -9 ∧ wire = ODB_WCHAR) → ¬ (sql = 2 ∧ wire = 1) →
       resolved = wire).
Proof.
  intros sql wire. exists (resolve_odb_type sql wire). split.
  { unfold result_of, get_odb_type, bind. rewrite !run_call. done. }
  unfold resolve_odb_type.
  split_and!; intros; repeat case_bool_decide; simpl; try done; try lia; naive_solver.
Qed.

(** ** Type objects *)

(** C3, on the code: the default [sub_type] of [NUMBER] is ['numeric'], which
    [__init__] refuses with a [ProgrammingError], and so does type inference
    on a [Decimal]; ['decimal'] gives a descriptor sent as text, ['int'] a
    64-bit integer one, ['float'] a double one, and any other subtype is
    refused. *)
Theorem NUMBER_default_sub_type_refused :
  NUMBER NUMBER_default_sub_type
  = Raise (Exc ProgrammingError (Msg "Illegal sub_type for NUMBER."))
  ∧ (∀ digits, get_db_api_type (PyDecimal digits)
               = Raise (Exc ProgrammingError (Msg "Illegal sub_type for NUMBER.")))
  ∧ (∃ t, NUMBER "decimal" = Return t ∧ odb_type t = ODB_CHAR
          ∧ odb_set_func t = Some odbSetParamText
          ∧ convert_to_c t = Some convert_str)
  ∧ (∃ t, NUMBER "int" = Return t ∧ odb_type t = ODB_BIGINT
          ∧ odb_set_func t = Some odbSetParamLongLong)
  ∧ (∃ t, NUMBER "float" = Return t ∧ odb_type t = ODB_DOUBLE
          ∧ odb_set_func t = Some odbSetParamDouble)
  ∧ (∀ s, Py.lower s ∉ ["int"; "float"; "decimal"] →
          NUMBER s = Raise (Exc ProgrammingError (Msg "Illegal sub_type for NUMBER."))).
Proof.
  split_and!; try done; try (eexists; split_and!; done).
  intros s Hs. unfold NUMBER.
  rewrite !bool_decide_eq_false_2; [ done | set_solver.. ].
Qed.

(** ** Usage errors *)

(** C5. [executemany] with no parameter row raises an [InterfaceError] and
    leaves the world as it was: no call reaches the library. *)
Theorem executemany_requires_parameters (operation : string) (w : World) :
  ∃ msg,
    Cursor_executemany operation [] w = Some (Raise (Exc InterfaceError (Msg msg)), w)
    ∧ (is_open w → msg = "Parameters are required for .executemany()").
Proof.
  unfold Cursor_executemany, Cursor_assert_cursor_is_open, bind, get_self,
    get_connection, is_open.
  destruct (Cursor_open (self w)), (Connection_open (connection w)); cbn;
    eexists; (split; [ reflexivity | ]); by intros [? ?].
Qed.

(** ** Calls and rollbacks *)

Lemma calm_nil : calm [].
Proof. constructor. Qed.

Lemma calm_app seg1 seg2 : calm seg1 → calm seg2 → calm (seg1 ++ seg2).
Proof. unfold calm. intros. by apply Forall_app. Qed.

Lemma calm_one c r :
  is_rollback (c, r) = false → is_failed_run (c, r) = false → calm [(c, r)].
Proof. intros. by repeat constructor. Qed.

Lemma rolled_after seg1 seg2 ch : calm seg1 → rolled ch seg2 → rolled ch (seg1 ++ seg2).
Proof.
  intros H1 (pre & c & r & post & -> & Hpre & Hpost & Hc & Hz).
  exists (seg1 ++ pre), c, r, post. rewrite <- app_assoc.
  split_and!; try done. by apply calm_app.
Qed.

Create HintDb tidy.

Lemma tidy_ret ch {A} (a : A) : tidy ch (ret a).
Proof.
  intros w r w' _ _ [= <- <-]. split; [ done | ].
  exists []. rewrite app_nil_r. split; [ done | apply calm_nil ].
Qed.

Lemma tidy_raise ch {A} e : tidy ch (raise (A := A) e).
Proof.
  intros w r w' _ _ [= <- <-]. split; [ done | ].
  exists []. rewrite app_nil_r. split; [ done | left; apply calm_nil ].
Qed.

Lemma tidy_lift ch {A} (o : outcome A) : tidy ch (lift o).
Proof. destruct o; [ apply tidy_ret | apply tidy_raise ]. Qed.

Lemma tidy_bind ch {A B} (m : M A) (k : A → M B) :
  tidy ch m → (∀ a, tidy ch (k a)) → tidy ch (bind m k).
Proof.
  intros Hm Hk w r w' Ho Hh Hrun. unfold bind in Hrun.
  destruct (m w) as [ [ [ a | e ] w1 ] | ] eqn:Hmw; [ | | done ].
  - destruct (Hm _ _ _ Ho Hh Hmw) as (Hc1 & seg1 & Ht1 & Hs1).
    rewrite <- Hc1 in Ho, Hh.
    destruct (Hk a _ _ _ Ho Hh Hrun) as (Hc2 & seg2 & Ht2 & Hs2).
    split; [ congruence | ]. exists (seg1 ++ seg2).
    split; [ rewrite Ht2, Ht1; by rewrite app_assoc | ].
    destruct r; [ by apply calm_app | ].
    destruct Hs2; [ left; by apply calm_app | right; by apply rolled_after ].
  - injection Hrun as <- <-. exact (Hm _ _ _ Ho Hh Hmw).
Qed.

Lemma tidy_get_self ch : tidy ch get_self.
Proof. intros w. apply (tidy_ret ch (self w)). Qed.

Lemma tidy_get_connection ch : tidy ch get_connection.
Proof. intros w. apply (tidy_ret ch (connection w)). Qed.

Lemma tidy_set_self ch c : tidy ch (set_self c).
Proof.
  intros w r w' _ _ [= <- <-]. split; [ done | ].
  exists []. cbn. rewrite app_nil_r. split; [ done | apply calm_nil ].
Qed.

Lemma tidy_update_self ch f : tidy ch (update_self f).
Proof.
  unfold update_self. apply tidy_bind; [ apply tidy_get_self | ].
  intros c. apply tidy_set_self.
Qed.

Lemma tidy_get_connection_handle ch : tidy ch get_connection_handle.
Proof.
  unfold get_connection_handle. apply tidy_bind; [ apply tidy_get_connection | ].
  intros c. destruct (Connection_handle c); [ apply tidy_ret | apply tidy_raise ].
Qed.

(** A call that is no rollback and does not report a failed prepare or
    execute. *)
Lemma tidy_call ch c :
  (∀ r, is_rollback (c, r) = false ∧ is_failed_run (c, r) = false) →
  tidy ch (call c).
Proof.
  intros Hc w r w' _ _ Hrun. rewrite run_call in Hrun. injection Hrun as <- <-.
  split; [ done | ]. eexists. split; [ done | ].
  destruct (Hc (odb (transport w) c).1). by apply calm_one.
Qed.

Lemma tidy_get_exception ch handle : tidy ch (get_exception handle).
Proof.
  unfold get_exception. apply tidy_bind; [ by apply tidy_call | ].
  intros r. case_bool_decide; [ apply tidy_ret | ].
  destruct (ODBTP_ERRORS !! as_int r); [ apply tidy_ret | ].
  case_bool_decide; [ | apply tidy_ret ].
  apply tidy_bind; [ by apply tidy_call | ].
  intros r'. destruct (as_text r'); [ apply tidy_ret | apply tidy_raise ].
Qed.

Lemma tidy_raise_get_exception ch {A} handle :
  tidy ch (raise_get_exception (A := A) handle).
Proof.
  unfold raise_get_exception. apply tidy_bind; [ apply tidy_get_exception | ].
  intros e. apply tidy_raise.
Qed.

Hint Resolve tidy_ret tidy_raise tidy_lift tidy_get_self tidy_get_connection
  tidy_set_self tidy_update_self tidy_get_connection_handle tidy_get_exception
  tidy_raise_get_exception : tidy.

Lemma error_queries_calm seg :
  Forall (λ e, is_error_query e = true) seg → calm seg.
Proof.
  intros Hq. eapply Forall_impl; [ exact Hq | ]. intros [ c r ] He.
  destruct c; try discriminate He; done.
Qed.

(** [get_exception] always ends, after asking the library for the error
    and nothing else. *)
Lemma get_exception_runs handle w :
  ∃ res w' seg,
    get_exception handle w = Some (res, w')
    ∧ connection w' = connection w ∧ self w' = self w
    ∧ trace w' = trace w ++ seg
    ∧ Forall (λ e, is_error_query e = true) seg.
Proof.
  unfold get_exception, bind. rewrite run_call. cbn [as_int].
  case_bool_decide; [ by repeat eexists; repeat constructor | ].
  destruct (ODBTP_ERRORS !! _); [ by repeat eexists; repeat constructor | ].
  case_bool_decide; [ | by repeat eexists; repeat constructor ].
  rewrite run_call. cbn [as_text transport trace connection self].
  destruct (as_text _);
    (do 3 eexists; split; [ reflexivity | ]; cbn; rewrite <- app_assoc;
     split_and!; try done; by repeat constructor).
Qed.

Lemma raise_get_exception_runs {A} handle w :
  ∃ e w' seg,
    raise_get_exception (A := A) handle w = Some (Raise e, w')
    ∧ connection w' = connection w ∧ self w' = self w
    ∧ trace w' = trace w ++ seg
    ∧ Forall (λ e, is_error_query e = true) seg.
Proof.
  destruct (get_exception_runs handle w) as (res & w' & seg & Hrun & Hrest).
  unfold raise_get_exception, bind. rewrite Hrun.
  destruct res as [ e | e ]; by exists e, w', seg.
Qed.

Lemma fails_calmly_raise_get_exception {A} handle :
  fails_calmly (raise_get_exception (A := A) handle).
Proof.
  intros w r w' Hrun.
  destruct (raise_get_exception_runs (A := A) handle w)
    as (e & w1 & seg & Hrun' & Hc & _ & Ht & Hq).
  rewrite Hrun' in Hrun. injection Hrun as <- <-.
  split_and!; [ done | by eexists | ].
  exists seg. split; [ done | by apply error_queries_calm ].
Qed.

Lemma fails_calmly_with_connection_handle {A} :
  fails_calmly (bind get_connection_handle (raise_get_exception (A := A))).
Proof.
  intros w r w'. unfold bind, get_connection_handle, get_connection. cbn.
  destruct (Connection_handle (connection w)) as [ h | ]; cbn; intros Hrun.
  - by apply (fails_calmly_raise_get_exception h) in Hrun.
  - injection Hrun as <- <-. split_and!; [ done | by eexists | ].
    exists []. rewrite app_nil_r. split; [ done | apply calm_nil ].
Qed.

(** [Connection.rollback] on an open connection: one rollback call, then
    at most the error queries. *)
Lemma Connection_rollback_runs ch w :
  Connection_open (connection w) = true →
  Connection_handle (connection w) = Some ch →
  ∃ res w' r0 seg,
    Connection_rollback w = Some (res, w')
    ∧ connection w' = connection w ∧ self w' = self w
    ∧ trace w' = trace w ++ (odbRollback ch, r0) :: seg
    ∧ calm seg.
Proof.
  intros Ho Hh.
  unfold Connection_rollback, Connection_assert_connection_is_open,
    get_connection_handle, bind, get_connection.
  cbn. rewrite Ho. cbn. rewrite Hh. cbn. rewrite run_call. cbn [as_int].
  destruct (_ =? 0)%Z.
  - match goal with |- context [ raise_get_exception ch ?w1 ] =>
      destruct (raise_get_exception_runs (A := unit) ch w1)
        as (e & w' & seg & -> & Hc & Hs & Ht & Hq)
    end.
    do 4 eexists. split; [ done | ]. cbn in *.
    split_and!; [ done | done | by rewrite Ht, <- app_assoc | by apply error_queries_calm ].
  - do 4 eexists. split; [ done | ]. cbn.
    split_and!; [ done | done | done | apply calm_nil ].
Qed.

Lemma rolls_back_failing ch {A} (f : M A) :
  fails_calmly f → rolls_back ch (bind Connection_rollback (λ _, f)).
Proof.
  intros Hf w r w' Ho Hh Hrun.
  destruct (Connection_rollback_runs ch w Ho Hh)
    as (res & w1 & r0 & seg & Hrb & Hc & _ & Ht & Hq).
  unfold bind in Hrun. rewrite Hrb in Hrun. destruct res as [ [] | e ].
  - destruct (Hf _ _ _ Hrun) as (Hc' & He & seg' & Ht' & Hq').
    split_and!; [ congruence | done | ].
    exists r0, (seg ++ seg'). split; [ | by apply calm_app ].
    by rewrite Ht', Ht, <- app_assoc.
  - injection Hrun as <- <-. split_and!; [ done | by eexists | by exists r0, seg ].
Qed.

Lemma rolls_back_after_silent ch {A B} (g : M A) (k : A → M B) :
  silent g → (∀ a, rolls_back ch (k a)) → rolls_back ch (bind g k).
Proof.
  intros Hg Hk w r w' Ho Hh Hrun. unfold bind in Hrun.
  destruct (Hg w) as (a & w1 & Hgw & Hc & Ht). rewrite Hgw in Hrun.
  rewrite <- Hc in Ho, Hh.
  destruct (Hk a _ _ _ Ho Hh Hrun) as (Hc' & He & r0 & seg & Ht' & Hq).
  split_and!; [ congruence | done | ]. exists r0, seg. by rewrite Ht', Ht.
Qed.

(** A call whose failure is answered by a rollback. *)
Lemma tidy_guarded ch {A} (m : M reply) (k : reply → M A) :
  one_call m →
  (∀ r, as_int r ≠ 0 → tidy ch (k r)) →
  (∀ r, as_int r = 0 → rolls_back ch (k r)) →
  tidy ch (bind m k).
Proof.
  intros Hm Hok Hfail w r w' Ho Hh Hrun. unfold bind in Hrun.
  destruct (m w) as [ [ [ r1 | e ] w1 ] | ] eqn:Hmw; [ | | done ].
  - destruct (Hm _ _ _ Hmw) as (Hc1 & c & Ht1 & Hnr).
    rewrite <- Hc1 in Ho, Hh.
    destruct (decide (as_int r1 = 0)) as [ Hz | Hnz ].
    + destruct (Hfail r1 Hz _ _ _ Ho Hh Hrun) as (Hc2 & [ e -> ] & r0 & seg & Ht2 & Hq).
      split; [ congruence | ].
      exists ((c, r1) :: (odbRollback ch, r0) :: seg).
      split; [ by rewrite Ht2, Ht1, <- app_assoc | ].
      right. exists [], (c, r1), r0, seg.
      split_and!; [ done | apply calm_nil | done | done | done ].
    + destruct (Hok r1 Hnz _ _ _ Ho Hh Hrun) as (Hc2 & seg & Ht2 & Hs).
      split; [ congruence | ].
      assert (calm [(c, r1)]) as Hcalm.
      { apply calm_one; [ done | ].
        unfold is_failed_run. cbn. destruct c; try done;
          by apply Z.eqb_neq. }
      exists ((c, r1) :: seg).
      split; [ by rewrite Ht2, Ht1, <- app_assoc | ].
      destruct r; [ by apply (calm_app [_]) | ].
      destruct Hs; [ left; by apply (calm_app [_]) | right; by apply (rolled_after [_]) ].
  - injection Hrun as <- <-. destruct (Hm _ _ _ Hmw) as (Hc1 & Ht1).
    split; [ done | ]. exists []. rewrite app_nil_r.
    split; [ done | left; apply calm_nil ].
Qed.

Lemma one_call_call c : (∀ r, is_rollback (c, r) = false) → one_call (call c).
Proof.
  intros Hc w res w' Hrun. rewrite run_call in Hrun. injection Hrun as <- <-.
  split; [ done | ]. by exists c.
Qed.

Lemma one_call_raise e : one_call (raise e).
Proof. by intros w res w' [= <- <-]. Qed.

Lemma one_call_after_lift {A} (o : outcome A) (k : A → M reply) :
  (∀ a, one_call (k a)) → one_call (bind (lift o) k).
Proof.
  intros Hk. destruct o as [ a | e ]; [ exact (Hk a) | apply one_call_raise ].
Qed.

Lemma silent_store slot t : silent (store slot t).
Proof. intros w. destruct slot; by repeat eexists. Qed.

Lemma tidy_store ch slot t : tidy ch (store slot t).
Proof. destruct slot; [ apply tidy_update_self | apply tidy_ret ]. Qed.

Hint Resolve tidy_store : tidy.

(** Chains of binds over steps known to be tidy; a call that may report a
    failed prepare or execute stops the chain. *)
Ltac tidy_chain :=
  repeat first
    [ solve [ eauto with tidy ]
    | apply tidy_call; solve [ intros; split; reflexivity ]
    | apply tidy_bind;
      [ first [ solve [ eauto with tidy ]
              | apply tidy_call; solve [ intros; split; reflexivity ] ]
      | intros ? ]
    | match goal with
      | |- tidy _ (if ?b then _ else _) => destruct b
      | |- tidy _ (match ?x with _ => _ end) => destruct x
      end ].

Lemma tidy_bind_to_column ch slot t col_number total_cols :
  tidy ch (bind_to_column slot t col_number total_cols).
Proof.
  unfold bind_to_column. apply tidy_bind; [ apply tidy_get_self | ]. intros c.
  apply tidy_guarded; [ by apply one_call_call | | ]; intros r Hr; cbv zeta.
  - apply Z.eqb_neq in Hr. rewrite Hr. tidy_chain.
  - apply Z.eqb_eq in Hr. rewrite Hr.
    apply rolls_back_after_silent; [ apply silent_store | ]. intros _.
    apply rolls_back_failing, fails_calmly_with_connection_handle.
Qed.

Lemma tidy_set_parameter ch t value : tidy ch (set_parameter t value).
Proof.
  unfold set_parameter. destruct (bound t =? 0)%Z; [ apply tidy_raise | ].
  apply tidy_bind; [ apply tidy_get_self | ]. intros c.
  apply tidy_bind; [ tidy_chain | ]. intros h.
  apply tidy_guarded.
  - destruct value; try by apply one_call_call.
    all: destruct (convert_to_c t); [ | apply one_call_raise ].
    all: apply one_call_after_lift; intros v.
    all: destruct (odb_set_func t); [ by apply one_call_call | apply one_call_raise ].
  - intros r Hr. apply Z.eqb_neq in Hr. rewrite Hr. apply tidy_ret.
  - intros r Hr. apply Z.eqb_eq in Hr. rewrite Hr.
    apply rolls_back_failing, fails_calmly_with_connection_handle.
Qed.

Hint Resolve tidy_bind_to_column tidy_set_parameter : tidy.

Lemma tidy_bind_input_sizes ch items : ∀ index total_cols,
  tidy ch (bind_input_sizes index items total_cols).
Proof.
  induction items as [ | t items IH ]; intros index total_cols; cbn [bind_input_sizes].
  - apply tidy_ret.
  - apply tidy_bind; [ apply tidy_bind_to_column | ]. intros _. apply IH.
Qed.

Lemma tidy_Cursor_prepare_operation ch operation total_cols :
  tidy ch (Cursor_prepare_operation operation total_cols).
Proof.
  unfold Cursor_prepare_operation. apply tidy_bind; [ apply tidy_get_self | ].
  intros c. apply tidy_guarded; [ by apply one_call_call | | ]; intros r Hr.
  - apply Z.eqb_neq in Hr. rewrite Hr.
    apply tidy_bind; [ tidy_chain | ]. intros _.
    apply tidy_bind; [ tidy_chain | ]. intros _.
    apply tidy_bind; [ tidy_chain | ]. intros c'. apply tidy_bind_input_sizes.
  - apply Z.eqb_eq in Hr. rewrite Hr.
    apply rolls_back_failing, fails_calmly_raise_get_exception.
Qed.

Lemma tidy_bind_parameters ch parameters : ∀ index total_cols,
  tidy ch (bind_parameters index parameters total_cols).
Proof.
  induction parameters as [ | v vs IH ]; intros index total_cols; cbn [bind_parameters].
  - apply tidy_ret.
  - apply tidy_bind; [ apply tidy_lift | ]. intros t.
    apply tidy_bind; [ apply tidy_bind_to_column | ]. intros t'.
    apply tidy_bind; [ apply IH | ]. intros rest. apply tidy_ret.
Qed.

Lemma tidy_set_parameters ch bound_parameters : tidy ch (set_parameters bound_parameters).
Proof.
  induction bound_parameters as [ | [ [ t | ] v ] rest IH ]; cbn [set_parameters].
  - apply tidy_ret.
  - apply tidy_bind; [ apply tidy_set_parameter | ]. intros _. apply IH.
  - apply tidy_raise.
Qed.

Hint Resolve tidy_bind_input_sizes tidy_Cursor_prepare_operation
  tidy_bind_parameters tidy_set_parameters : tidy.

Lemma tidy_execute_rows ch seq_of_parameters total_cols :
  tidy ch (execute_rows seq_of_parameters total_cols).
Proof.
  induction seq_of_parameters as [ | parameters rest IH ]; cbn [execute_rows].
  - apply tidy_ret.
  - apply tidy_bind; [ apply tidy_get_self | ]. intros c.
    apply tidy_bind; [ destruct (input_sizes c); tidy_chain | ]. intros bound_parameters.
    apply tidy_bind; [ apply tidy_set_parameters | ]. intros _.
    apply tidy_bind; [ apply tidy_get_self | ]. intros c'.
    apply tidy_guarded; [ by apply one_call_call | | ]; intros r Hr.
    + apply Z.eqb_neq in Hr. by rewrite Hr.
    + apply Z.eqb_eq in Hr. rewrite Hr.
      apply rolls_back_failing, fails_calmly_raise_get_exception.
Qed.

Lemma tidy_get_odb_type ch handle column : tidy ch (get_odb_type handle column).
Proof. unfold get_odb_type. tidy_chain. Qed.

Hint Resolve tidy_execute_rows tidy_get_odb_type : tidy.

Lemma tidy_describe_columns ch handle n : ∀ column,
  tidy ch (describe_columns handle column n).
Proof.
  induction n as [ | n IH ]; intros column; cbn [describe_columns].
  - apply tidy_ret.
  - apply tidy_bind; [ tidy_chain | ]. intros name.
    apply tidy_bind; [ tidy_chain | ]. intros type_code.
    apply tidy_bind; [ apply IH | ]. intros rest. apply tidy_ret.
Qed.

Hint Resolve tidy_describe_columns : tidy.

Lemma tidy_Cursor_update_description ch : tidy ch Cursor_update_description.
Proof. unfold Cursor_update_description. tidy_chain. Qed.

Lemma tidy_Cursor_assert_cursor_is_open ch : tidy ch Cursor_assert_cursor_is_open.
Proof. unfold Cursor_assert_cursor_is_open. tidy_chain. Qed.

Hint Resolve tidy_Cursor_update_description tidy_Cursor_assert_cursor_is_open : tidy.

Lemma tidy_set_proc_parameters ch parameters : tidy ch (set_proc_parameters parameters).
Proof.
  induction parameters as [ | v vs IH ]; cbn [set_proc_parameters].
  - apply tidy_ret.
  - apply tidy_bind; [ apply tidy_lift | ]. intros t.
    apply tidy_bind; [ apply tidy_set_parameter | ]. intros _. apply IH.
Qed.

(** ** Methods that end by resetting [committed] *)

Lemma tidy_run_bind ch {A B} (m : M A) (k : A → M B) :
  tidy ch m → (∀ a, tidy_run ch (k a)) → tidy_run ch (bind m k).
Proof.
  intros Hm Hk w r w' Ho Hh Hrun. unfold bind in Hrun.
  destruct (m w) as [ [ [ a | e ] w1 ] | ] eqn:Hmw; [ | | done ].
  - destruct (Hm _ _ _ Ho Hh Hmw) as (Hc1 & seg1 & Ht1 & Hs1).
    rewrite <- Hc1 in Ho, Hh.
    destruct (Hk a _ _ _ Ho Hh Hrun) as (seg2 & Ht2 & Hs2).
    exists (seg1 ++ seg2).
    split; [ rewrite Ht2, Ht1; by rewrite app_assoc | ].
    destruct r; [ by apply calm_app | ].
    destruct Hs2 as [ Hc2 Hs2 ]. split; [ congruence | ].
    destruct Hs2; [ left; by apply calm_app | right; by apply rolled_after ].
  - injection Hrun as <- <-. destruct (Hm _ _ _ Ho Hh Hmw) as (Hc1 & seg1 & Ht1 & Hs1).
    by exists seg1.
Qed.

Lemma tidy_run_set_committed ch b : tidy_run ch (set_committed b).
Proof.
  intros w r w' _ _ [= <- <-]. exists []. cbn. rewrite app_nil_r.
  split; [ done | apply calm_nil ].
Qed.

Lemma tidy_run_guarded ch {A} (m : M reply) (k : reply → M A) :
  one_call m →
  (∀ r, as_int r ≠ 0 → tidy_run ch (k r)) →
  (∀ r, as_int r = 0 → rolls_back ch (k r)) →
  tidy_run ch (bind m k).
Proof.
  intros Hm Hok Hfail w r w' Ho Hh Hrun. unfold bind in Hrun.
  destruct (m w) as [ [ [ r1 | e ] w1 ] | ] eqn:Hmw; [ | | done ].
  - destruct (Hm _ _ _ Hmw) as (Hc1 & c & Ht1 & Hnr).
    rewrite <- Hc1 in Ho, Hh.
    destruct (decide (as_int r1 = 0)) as [ Hz | Hnz ].
    + destruct (Hfail r1 Hz _ _ _ Ho Hh Hrun) as (Hc2 & [ e -> ] & r0 & seg & Ht2 & Hq).
      exists ((c, r1) :: (odbRollback ch, r0) :: seg).
      split; [ by rewrite Ht2, Ht1, <- app_assoc | ].
      split; [ congruence | ].
      right. exists [], (c, r1), r0, seg.
      split_and!; [ done | apply calm_nil | done | done | done ].
    + destruct (Hok r1 Hnz _ _ _ Ho Hh Hrun) as (seg & Ht2 & Hs).
      assert (calm [(c, r1)]) as Hcalm.
      { apply calm_one; [ done | ].
        unfold is_failed_run. cbn. destruct c; try done;
          by apply Z.eqb_neq. }
      exists ((c, r1) :: seg).
      split; [ by rewrite Ht2, Ht1, <- app_assoc | ].
      destruct r; [ by apply (calm_app [_]) | ].
      destruct Hs as [ Hc2 Hs ]. split; [ congruence | ].
      destruct Hs; [ left; by apply (calm_app [_]) | right; by apply (rolled_after [_]) ].
  - injection Hrun as <- <-. destruct (Hm _ _ _ Hmw) as (Hc1 & Ht1).
    exists []. rewrite app_nil_r.
    split; [ done | split; [ done | left; apply calm_nil ] ].
Qed.

Lemma tidy_run_Cursor_executemany ch operation seq_of_parameters :
  tidy_run ch (Cursor_executemany operation seq_of_parameters).
Proof.
  unfold Cursor_executemany.
  apply tidy_run_bind; [ tidy_chain | ]. intros _.
  apply tidy_run_bind; [ tidy_chain | ]. intros total_cols.
  apply tidy_run_bind; [ tidy_chain | ]. intros c.
  apply tidy_run_bind; [ tidy_chain | ]. intros _.
  apply tidy_run_bind; [ tidy_chain | ]. intros _.
  apply tidy_run_bind; [ tidy_chain | ]. intros _.
  apply tidy_run_bind; [ tidy_chain | ]. intros c'.
  apply tidy_run_bind; [ tidy_chain | ]. intros n.
  apply tidy_run_bind; [ tidy_chain | ]. intros _.
  apply tidy_run_set_committed.
Qed.

Lemma tidy_run_Cursor_callproc ch procname parameters :
  tidy_run ch (Cursor_callproc procname parameters).
Proof.
  unfold Cursor_callproc.
  apply tidy_run_bind; [ tidy_chain | ]. intros _.
  apply tidy_run_bind; [ tidy_chain | ]. intros _.
  apply tidy_run_bind; [ tidy_chain | ]. intros c.
  apply tidy_run_guarded; [ by apply one_call_call | | ]; intros r Hr.
  2: { apply Z.eqb_eq in Hr. rewrite Hr.
       apply rolls_back_failing, fails_calmly_raise_get_exception. }
  apply Z.eqb_neq in Hr. rewrite Hr.
  apply tidy_run_bind; [ apply tidy_set_proc_parameters | ]. intros _.
  apply tidy_run_guarded; [ by apply one_call_call | | ]; intros r' Hr'.
  2: { apply Z.eqb_eq in Hr'. rewrite Hr'.
       apply rolls_back_failing, fails_calmly_raise_get_exception. }
  apply Z.eqb_neq in Hr'. rewrite Hr'.
  apply tidy_run_bind; [ tidy_chain | ]. intros _.
  apply tidy_run_bind; [ tidy_chain | ]. intros n.
  apply tidy_run_bind; [ tidy_chain | ]. intros _.
  apply tidy_run_set_committed.
Qed.

(** ** Methods without loops of their own *)

Create HintDb ends.

Lemma ends_ret {A} (a : A) : ends (ret a).
Proof. by intros w. Qed.

Lemma ends_raise {A} e : ends (raise (A := A) e).
Proof. by intros w. Qed.

Lemma ends_lift {A} (o : outcome A) : ends (lift o).
Proof. destruct o; [ apply ends_ret | apply ends_raise ]. Qed.

Lemma ends_bind {A B} (m : M A) (k : A → M B) :
  ends m → (∀ a, ends (k a)) → ends (bind m k).
Proof.
  intros Hm Hk w. unfold bind. destruct (Hm w) as [ [ [ a | e ] w1 ] -> ]; [ apply Hk | done ].
Qed.

Lemma ends_call c : ends (call c).
Proof. intros w. by rewrite run_call. Qed.

Lemma ends_get_self : ends get_self.
Proof. by intros w. Qed.

Lemma ends_get_connection : ends get_connection.
Proof. by intros w. Qed.

Lemma ends_set_self c : ends (set_self c).
Proof. by intros w. Qed.

Lemma ends_set_connection c : ends (set_connection c).
Proof. by intros w. Qed.

Hint Resolve ends_ret ends_raise ends_lift ends_call ends_get_self
  ends_get_connection ends_set_self ends_set_connection : ends.

(** Chains of binds, branches taken apart. *)
Ltac ends_chain :=
  repeat first
    [ solve [ eauto with ends ]
    | apply ends_bind; [ | intros ? ]
    | match goal with
      | |- ends (if ?b then _ else _) => destruct b
      | |- ends (match ?x with _ => _ end) => destruct x
      end ].

Lemma ends_update_self f : ends (update_self f).
Proof. unfold update_self. ends_chain. Qed.

Lemma ends_set_committed b : ends (set_committed b).
Proof. unfold set_committed. ends_chain. Qed.

Lemma ends_get_connection_handle : ends get_connection_handle.
Proof. unfold get_connection_handle. ends_chain. Qed.

Lemma ends_raise_get_exception {A} handle : ends (raise_get_exception (A := A) handle).
Proof.
  intros w. by destruct (raise_get_exception_runs (A := A) handle w) as (e & w' & seg & -> & _).
Qed.

Hint Resolve ends_update_self ends_set_committed ends_get_connection_handle
  ends_raise_get_exception : ends.

Lemma ends_Connection_rollback : ends Connection_rollback.
Proof.
  unfold Connection_rollback, Connection_assert_connection_is_open. ends_chain.
Qed.

Lemma ends_store slot t : ends (store slot t).
Proof. unfold store. ends_chain. Qed.

Hint Resolve ends_Connection_rollback ends_store : ends.

Lemma ends_bind_to_column slot t col_number total_cols :
  ends (bind_to_column slot t col_number total_cols).
Proof. unfold bind_to_column. ends_chain. Qed.

Lemma ends_set_parameter t value : ends (set_parameter t value).
Proof. unfold set_parameter. ends_chain. Qed.

Hint Resolve ends_bind_to_column ends_set_parameter : ends.

Lemma ends_bind_input_sizes items : ∀ index total_cols,
  ends (bind_input_sizes index items total_cols).
Proof.
  induction items as [ | t items IH ]; intros index total_cols;
    cbn [bind_input_sizes]; ends_chain.
Qed.

Lemma ends_bind_parameters parameters : ∀ index total_cols,
  ends (bind_parameters index parameters total_cols).
Proof.
  induction parameters as [ | v vs IH ]; intros index total_cols;
    cbn [bind_parameters]; ends_chain.
Qed.

Lemma ends_set_parameters bound_parameters : ends (set_parameters bound_parameters).
Proof.
  induction bound_parameters as [ | [ [ t | ] v ] rest IH ];
    cbn [set_parameters]; ends_chain.
Qed.

Lemma ends_set_proc_parameters parameters : ends (set_proc_parameters parameters).
Proof.
  induction parameters as [ | v vs IH ]; cbn [set_proc_parameters]; ends_chain.
Qed.

Lemma ends_describe_columns handle n : ∀ column, ends (describe_columns handle column n).
Proof.
  induction n as [ | n IH ]; intros column; cbn [describe_columns];
    unfold get_odb_type; ends_chain.
Qed.

Hint Resolve ends_bind_input_sizes ends_bind_parameters ends_set_parameters
  ends_set_proc_parameters ends_describe_columns : ends.

Lemma ends_execute_rows seq_of_parameters total_cols :
  ends (execute_rows seq_of_parameters total_cols).
Proof.
  induction seq_of_parameters as [ | parameters rest IH ];
    cbn [execute_rows]; ends_chain.
Qed.

Hint Resolve ends_execute_rows : ends.

Lemma ends_runs m : runs m → ends m.
Proof.
  destruct 1; unfold Cursor_execute, Cursor_executemany, Cursor_callproc,
    Cursor_assert_cursor_is_open, Cursor_prepare_operation,
    Cursor_update_description; ends_chain.
Qed.

(** C7, as the code has it: [executemany], [execute] and [callproc] always
    return or raise; when a prepare or execute call reports failure inside
    one of them on an open connection, the method raises, a rollback on the
    connection is the very next call and the only one, and the connection's
    [committed] flag is what it was before the method was called. *)
Theorem failed_run_rolls_back_once (ch : Z) (w : World) (m : M unit) :
  Connection_open (connection w) = true →
  Connection_handle (connection w) = Some ch →
  runs m →
  ∃ r w' seg,
    m w = Some (r, w')
    ∧ calls_between w w' seg
    ∧ (Exists (λ e, is_failed_run e = true) seg →
       (∃ e, r = Raise e)
       ∧ committed (connection w') = committed (connection w)
       ∧ rolled_back_once ch seg).
Proof.
  intros Ho Hh Hm.
  destruct (ends_runs m Hm w) as [ [ r w' ] Hrun ].
  assert (tidy_run ch m) as Htidy.
  { destruct Hm; [ apply tidy_run_Cursor_executemany
                 | apply tidy_run_Cursor_executemany
                 | apply tidy_run_Cursor_callproc ]. }
  destruct (Htidy _ _ _ Ho Hh Hrun) as (seg & Ht & Hs).
  exists r, w', seg. split_and!; [ done | done | ]. intros Hfailed.
  assert (∀ s, calm s → ¬ Exists (λ e, is_failed_run e = true) s) as Hcalm.
  { intros s Hc Hex. apply Exists_exists in Hex as (e & Hin & He).
    unfold calm in Hc. rewrite Forall_forall in Hc.
    destruct (Hc e Hin). congruence. }
  destruct r as [ [] | e ]; [ by destruct (Hcalm _ Hs) | ].
  destruct Hs as [ Hc [ Hs | Hs ] ]; [ by destruct (Hcalm _ Hs) | ].
  split_and!; [ by eexists | by rewrite Hc | ].
  destruct Hs as (pre & c & r0 & post & -> & Hpre & Hpost & Hnr & Hz).
  exists pre, c, r0, post. split; [ done | ].
  apply Exists_app in Hfailed as [ Hf | Hf ]; [ by destruct (Hcalm _ Hpre) | ].
  apply Exists_cons in Hf as [ Hf | Hf ]; [ | apply Exists_cons in Hf as [ Hf | Hf ] ].
  - split; [ done | ].
    apply Forall_app. split; [ | constructor; [ done | ] ].
    + eapply Forall_impl; [ exact Hpre | ]. by intros ? [? ?].
    + eapply Forall_impl; [ exact Hpost | ]. by intros ? [? ?].
  - done.
  - by destruct (Hcalm _ Hpost).
Qed.

(** ** Closed cursors *)

(** C6, as the code has it: on a closed cursor, or a cursor of a closed
    connection, [executemany], [execute], [fetchmany], [fetchone],
    [fetchall], [next] and [nextset] raise an [InterfaceError] and make no
    call; [setoutputsize] does nothing at all in every state, closed or
    open: it returns and never raises. *)
Theorem closed_cursor_refuses (w : World) :
  (¬ is_open w →
   (∀ operation seq_of_parameters,
       Cursor_executemany operation seq_of_parameters w = refused w)
   ∧ (∀ operation parameters, Cursor_execute operation parameters w = refused w)
   ∧ (∀ size, Cursor_fetchmany size w = refused w)
   ∧ Cursor_fetchone w = refused w
   ∧ (∀ fuel, Cursor_fetchall (S fuel) w = refused w)
   ∧ Cursor_next w = refused w
   ∧ Cursor_nextset w = refused w)
  ∧ (∀ size column, Cursor_setoutputsize size column w = Some (Return (), w)).
Proof.
  split; [ | done ]. intros Hclosed.
  assert (Cursor_assert_cursor_is_open w = refused w) as Hassert.
  { unfold Cursor_assert_cursor_is_open, bind, get_self, get_connection, is_open in *.
    cbn. destruct (Cursor_open (self w)), (Connection_open (connection w));
      try done. by destruct Hclosed. }
  assert (∀ size, Cursor_fetchmany size w = refused w) as Hfetch.
  { intros size. unfold Cursor_fetchmany, bind. by rewrite Hassert. }
  split_and!; try done.
  - intros. unfold Cursor_executemany, bind. by rewrite Hassert.
  - intros. unfold Cursor_execute, Cursor_executemany, bind. by rewrite Hassert.
  - unfold Cursor_fetchone, bind. by rewrite Hfetch.
  - intros fuel. unfold Cursor_fetchall, bind, get_self. cbn [fetchall_loop].
    unfold bind. by rewrite Hfetch.
  - unfold Cursor_next, bind. by rewrite Hfetch.
  - unfold Cursor_nextset, bind. by rewrite Hassert.
Qed.

(** ** Stored procedures *)

Lemma get_db_api_type_unbound value t : get_db_api_type value = Return t → bound t = 0.
Proof.
  destruct value; cbn; unfold NUMBER, DATETIME; cbn;
    repeat case_bool_decide; intros [= <-]; done.
Qed.

(** C9, on the code: once the procedure is prepared, [callproc] with at
    least one parameter raises before any value reaches the library and
    before anything is executed: the type object inferred for the first
    parameter was never bound, which [set_parameter] refuses with an
    [InterfaceError]. *)
Theorem callproc_refuses_its_parameters
    (procname : string) (value : pyvalue) (parameters : row) (w : World) :
  let prepared := (odb (transport w) (odbPrepareProc procname)).1 in
  as_int prepared ≠ 0 →
  ∃ e w',
    Cursor_callproc procname (value :: parameters) w = Some (Raise e, w')
    ∧ calls_between w w' [(odbPrepareProc procname, prepared)]
    ∧ (∀ t, get_db_api_type value = Return t →
            e = Exc InterfaceError (Msg "You must bind a parameter before setting.")).
Proof.
  intros prepared Hp. apply Z.eqb_neq in Hp. subst prepared.
  unfold Cursor_callproc, calls_between, bind, update_self, get_self, set_self.
  cbn. rewrite run_call. cbn [transport trace connection self fst snd].
  rewrite Hp. cbn.
  unfold bind. destruct (get_db_api_type value) as [ t | e ] eqn:Ht; cbn.
  - unfold set_parameter. rewrite (get_db_api_type_unbound _ _ Ht). cbn.
    do 2 eexists. split_and!; [ done | done | ]. by intros t' [= <-].
  - do 2 eexists. split_and!; [ done | done | ]. by intros t'.
Qed.

(** ** Size hints *)

Lemma star_public l : "DbApiTypeObject" ∈ star l ↔ "DbApiTypeObject" ∈ l.
Proof. unfold star. rewrite list_elem_of_filter. by split; [ intros [_ ?] | ]. Qed.

(** [connection.py] binds no name [DbApiTypeObject] of its own, and takes
    none from [errors.py] or [types.py], whose class is [_DbApiTypeObject]. *)
Lemma DbApiTypeObject_unbound ctypes_names constants_names :
  "DbApiTypeObject" ∉ star ctypes_names →
  "DbApiTypeObject" ∉ star constants_names →
  "DbApiTypeObject" ∉ connection_py ctypes_names constants_names.
Proof.
  rewrite !star_public. intros Hct Hcn.
  unfold connection_py, types_py, errors_py.
  repeat rewrite ?elem_of_app, ?star_public.
  intros Hin.
  repeat match type of Hin with _ ∨ _ => destruct Hin as [ Hin | Hin ] end;
    try done.
  all: apply (bool_decide_pack _) in Hin; by vm_compute in Hin.
Qed.

(** C4, on the code: [setinputsizes] with at least one item raises a
    [NameError] at its type check, whether the items are type objects or
    not, and leaves the cached hints and the prepared operation as they
    were. *)
Theorem setinputsizes_raises_NameError
    (ctypes_names constants_names : list string)
    (item : size_item) (items : list size_item) (w : World) :
  "DbApiTypeObject" ∉ star ctypes_names →
  "DbApiTypeObject" ∉ star constants_names →
  let unbound := Exc NameError (Msg "global name 'DbApiTypeObject' is not defined") in
  Cursor_setinputsizes ctypes_names constants_names (Items (item :: items)) w
  = Some (Raise unbound, w)
  ∧ Cursor_setinputsizes ctypes_names constants_names (OneTuple (item :: items)) w
    = Some (Raise unbound, w).
Proof.
  intros Hct Hcn unbound.
  pose proof (DbApiTypeObject_unbound _ _ Hct Hcn) as Hname.
  unfold Cursor_setinputsizes, bind. cbn [check_sizes]. unfold bind, global_name.
  by rewrite bool_decide_eq_false_2.
Qed.

(** ** Cursor creation *)

(** C10. [Connection.cursor] on an open connection allocates a handle under
    the session and, when that succeeds, allocates a second one in
    [Cursor.__init__]: the cursor returned holds the second, the first is
    neither freed nor kept anywhere in the connection or the cursor, and no
    [odbFree] is issued whatever the second allocation answers. *)
Theorem Connection_cursor_allocates_twice (h : Z) (w : World) :
  let first := odb (transport w) (odbAllocate (Some h)) in
  let second := odb first.2 (odbAllocate (Some h)) in
  Connection_open (connection w) = true →
  Connection_handle (connection w) = Some h →
  as_int first.1 ≠ 0 →
  (as_int second.1 ≠ 0 →
   Connection_cursor w
   = Some (Return {| Cursor_open := true; Cursor_handle := as_int second.1;
                     arraysize := 1; description := None;
                     prepared_operation := None; input_sizes := [];
                     rowcount := -1 |},
           {| transport := second.2;
              trace := trace w ++ [(odbAllocate (Some h), first.1);
                                   (odbAllocate (Some h), second.1)];
              connection := connection w; self := self w |}))
  ∧ ∃ res w' seg,
      Connection_cursor w = Some (res, w')
      ∧ calls_between w w' ((odbAllocate (Some h), first.1)
                            :: (odbAllocate (Some h), second.1) :: seg)
      ∧ Forall (λ e, is_free e = false) seg
      ∧ connection w' = connection w ∧ self w' = self w.
Proof.
  intros first second Ho Hh Hfirst. apply Z.eqb_neq in Hfirst.
  unfold Connection_cursor, Cursor_init, Connection_assert_connection_is_open,
    get_connection_handle, bind, get_connection, calls_between.
  cbn. rewrite Ho. cbn. rewrite Hh. cbn. rewrite run_call. fold first.
  rewrite Hfirst. cbn. rewrite Hh. cbn. rewrite run_call.
  cbn [transport trace connection self fst snd]. fold second.
  destruct (as_int second.1 =? 0)%Z eqn:Hsecond.
  - split; [ intros Hne; by apply Z.eqb_eq in Hsecond | ].
    match goal with |- context [ raise_get_exception h ?w1 ] =>
      destruct (raise_get_exception_runs (A := Cursor) h w1)
        as (e & w' & seg & -> & Hc & Hs & Ht & Hq)
    end.
    exists (Raise e), w', seg. cbn in *.
    split_and!; [ done | by rewrite Ht, <- !app_assoc | | done | done ].
    eapply Forall_impl; [ exact Hq | ]. intros [ c r ] He. by destruct c.
  - split; [ intros _; by rewrite <- app_assoc | ].
    do 2 eexists. exists []. cbn.
    split_and!; [ done | by rewrite <- app_assoc | done | done | done ].
Qed.

(** ** Fetching *)

Lemma get_data_runs address data_type size w :
  ∃ res, get_data address data_type size w = Some (res, w).
Proof.
  unfold get_data. case_bool_decide; [ by eexists | ].
  destruct (ODB_TO_PYTHON _ _ _ _) as [ [ v | e ] | ]; by eexists.
Qed.

Lemma fetch_columns_runs handle description : ∀ column w,
  ∃ res w', fetch_columns handle column description w = Some (res, w').
Proof.
  induction description as [ | [ name data_type ] description IH ];
    intros column w; cbn [fetch_columns].
  - by do 2 eexists.
  - unfold bind. rewrite run_call. cbn [as_int fst snd].
    destruct (negb _).
    + rewrite run_call. by do 2 eexists.
    + rewrite !run_call. cbn [transport trace connection self fst snd].
      match goal with |- context [ get_data ?a ?ty ?n ?w1 ] =>
        destruct (get_data_runs a ty n w1) as ( [ v | e ] & -> )
      end; [ | by do 2 eexists ].
      match goal with |- context [ fetch_columns handle ?c description ?w1 ] =>
        destruct (IH c w1) as ( [ vs | e ] & w' & -> )
      end; by do 2 eexists.
Qed.

(** The loop of [fetchmany] never runs out of the turns it is given, and
    returns at most [size] rows. *)
Lemma fetchmany_loop_bound fuel : ∀ size rows w,
  (Z.to_nat (size - Z.of_nat (length rows)) ≤ fuel)%nat →
  ∃ res w',
    fetchmany_loop fuel size rows w = Some (res, w')
    ∧ ∀ fetched, res = Return fetched →
        (Z.of_nat (length fetched) ≤ Z.max (Z.of_nat (length rows)) size)%Z.
Proof.
  induction fuel as [ | fuel IH ]; intros size rows w Hfuel.
  - cbn [fetchmany_loop]. destruct (Z.ltb_spec (Z.of_nat (length rows)) size); [ lia | ].
    do 2 eexists. split; [ done | ]. intros ? [= <-]. lia.
  - cbn [fetchmany_loop]. destruct (Z.ltb_spec (Z.of_nat (length rows)) size) as [ Hlt | Hge ].
    2: { do 2 eexists. split; [ done | ]. intros ? [= <-]. lia. }
    unfold bind, get_self. rewrite run_call. cbn [as_int fst snd].
    destruct (_ =? 0)%Z.
    { match goal with |- context [ raise_get_exception ?h ?w1 ] =>
        destruct (raise_get_exception_runs (A := list row) h w1)
          as (e & w' & seg & -> & _)
      end. do 2 eexists. split; [ done | ]. by intros. }
    rewrite run_call. cbn [transport trace connection self as_int fst snd].
    destruct (negb _).
    { do 2 eexists. split; [ done | ]. intros ? [= <-]. lia. }
    destruct (description (self w)) as [ d | ].
    2: { do 2 eexists. split; [ done | ]. by intros. }
    match goal with |- context [ fetch_columns ?h 1 d ?w1 ] =>
      destruct (fetch_columns_runs h d 1 w1) as ( [ r | e ] & w' & -> )
    end.
    2: { do 2 eexists. split; [ done | ]. by intros. }
    destruct (IH size (rows ++ [r]) w') as (res & w'' & -> & Hbound).
    { rewrite length_app. cbn. lia. }
    do 2 eexists. split; [ done | ]. intros fetched ->.
    specialize (Hbound fetched eq_refl). rewrite length_app in Hbound. cbn in Hbound. lia.
Qed.

Lemma same_objects_refl w : same_objects w w.
Proof. by split. Qed.

Lemma same_objects_trans w1 w2 w3 :
  same_objects w1 w2 → same_objects w2 w3 → same_objects w1 w3.
Proof. intros [? ?] [? ?]. split; congruence. Qed.

Lemma fetch_columns_serves handle column d t r t' :
  serves_columns handle column d t r t' →
  ∀ w, transport w = t →
       ∃ w', fetch_columns handle column d w = Some (Return r, w')
             ∧ transport w' = t' ∧ same_objects w w'.
Proof.
  induction 1 as [ column t | column name data_type d t value values t'
                                truncated data size Htr Hval _ IH ];
    intros w <-; cbn [fetch_columns].
  - eexists. split_and!; [ done | done | apply same_objects_refl ].
  - unfold bind. rewrite run_call. cbn [as_int fst snd]. fold truncated.
    rewrite Htr. cbn [negb Z.eqb]. rewrite !run_call.
    cbn [transport trace connection self fst snd]. fold data. fold size.
    unfold get_data. cbn [transport]. destruct (bool_decide (as_int data.1 = 0)).
    + subst value. cbn [ret].
      match goal with |- context [ fetch_columns handle ?c d ?w1 ] =>
        destruct (IH w1 eq_refl) as (w' & -> & Ht & Hs)
      end.
      eexists. split_and!; [ done | done | ]. by destruct Hs.
    + cbn [transport]. rewrite Hval. cbn [lift ret].
      match goal with |- context [ fetch_columns handle ?c d ?w1 ] =>
        destruct (IH w1 eq_refl) as (w' & -> & Ht & Hs)
      end.
      eexists. split_and!; [ done | done | ]. by destruct Hs.
Qed.

(** The loop of [fetchmany] over a library that serves [rs]: it appends the
    rows it is short of, or all of [rs] when there are fewer. *)
Lemma fetchmany_loop_serves handle d holds :
  serves_rows handle d holds →
  ∀ fuel size rows w rs,
    Cursor_handle (self w) = handle →
    description (self w) = Some d →
    holds (transport w) rs →
    let k := Z.to_nat (size - Z.of_nat (length rows)) in
    (k ≤ fuel)%nat →
    ∃ w', fetchmany_loop fuel size rows w = Some (Return (rows ++ take k rs), w')
          ∧ holds (transport w') (drop k rs) ∧ same_objects w w'.
Proof.
  intros [ Hend Hrow ]. induction fuel as [ | fuel IH ];
    intros size rows w rs Hh Hd Hholds k Hfuel; cbn [fetchmany_loop].
  - destruct (Z.ltb_spec (Z.of_nat (length rows)) size); [ lia | ].
    replace k with 0%nat by lia. rewrite take_0, drop_0, app_nil_r.
    eexists. split_and!; [ done | done | apply same_objects_refl ].
  - destruct (Z.ltb_spec (Z.of_nat (length rows)) size) as [ Hlt | Hge ].
    2: { replace k with 0%nat by lia. rewrite take_0, drop_0, app_nil_r.
         eexists. split_and!; [ done | done | apply same_objects_refl ]. }
    unfold bind, get_self. rewrite Hh, run_call. cbn [as_int fst snd].
    destruct rs as [ | r rs ].
    + destruct (Hend _ Hholds) as (Hf & Hn & Hholds').
      apply Z.eqb_neq in Hf, Hn. rewrite Hf. rewrite run_call.
      cbn [transport trace connection self as_int fst snd]. rewrite Hn. cbn [negb].
      rewrite take_nil, drop_nil, app_nil_r.
      eexists. split_and!; [ done | done | done ].
    + destruct (Hrow _ _ _ Hholds) as (Hf & Hn & t' & Hcols & Hholds').
      apply Z.eqb_neq in Hf. rewrite Hf. rewrite run_call.
      cbn [transport trace connection self as_int fst snd]. rewrite Hn. cbn [negb Z.eqb].
      rewrite Hd.
      match goal with |- context [ fetch_columns handle 1 d ?w1 ] =>
        destruct (fetch_columns_serves _ _ _ _ _ _ Hcols w1 eq_refl)
          as (w' & -> & Ht & Hs)
      end.
      destruct Hs as [ Hc Hs ]. cbn in Hc, Hs.
      destruct (IH size (rows ++ [r]) w' rs) as (w'' & -> & Hholds'' & Hs'').
      { by rewrite Hs. } { by rewrite Hs. } { by rewrite Ht. }
      { rewrite length_app. cbn. lia. }
      rewrite length_app in *. cbn [length] in *.
      replace k with (S (Z.to_nat (size - Z.of_nat (length rows + 1)))) by lia.
      cbn [take drop]. rewrite <- app_assoc. cbn.
      eexists. split_and!; [ done | done | ].
      eapply same_objects_trans; [ | exact Hs'' ]. by split.
Qed.

Lemma ready_same handle d w w' : same_objects w w' → ready handle d w → ready handle d w'.
Proof. intros [ Hc Hs ]. unfold ready. by rewrite Hc, Hs. Qed.

Lemma Cursor_fetchmany_serves handle d holds :
  serves_rows handle d holds →
  ∀ w rs n,
    ready handle d w →
    holds (transport w) rs →
    ∃ w', Cursor_fetchmany (Some n) w = Some (Return (take (Z.to_nat n) rs), w')
          ∧ holds (transport w') (drop (Z.to_nat n) rs) ∧ same_objects w w'.
Proof.
  intros Hserves w rs n ((Ho1 & Ho2) & Hh & Hd) Hholds.
  unfold Cursor_fetchmany, Cursor_assert_cursor_is_open, bind, get_self, get_connection.
  cbn. rewrite Ho1, Ho2. cbn.
  destruct (fetchmany_loop_serves _ _ _ Hserves (Z.to_nat n) n [] w rs Hh Hd Hholds)
    as (w' & Hrun & Hrest); [ cbn; lia | ].
  cbn in Hrun, Hrest. rewrite Z.sub_0_r in Hrun, Hrest. by exists w'.
Qed.

(** [fetchall] over a library that serves [rs]: given more turns than [rs]
    has full batches, it returns [rs]. *)
Lemma fetchall_loop_serves handle d holds :
  serves_rows handle d holds →
  ∀ fuel size rows w rs,
    (0 < size)%Z →
    ready handle d w →
    holds (transport w) rs →
    (length rs < fuel * Z.to_nat size)%nat →
    ∃ w', fetchall_loop fuel size rows w = Some (Return (rows ++ rs), w')
          ∧ holds (transport w') [] ∧ same_objects w w'.
Proof.
  intros Hserves. induction fuel as [ | fuel IH ];
    intros size rows w rs Hsize Hready Hholds Hfuel; [ lia | ].
  cbn [fetchall_loop]. unfold bind.
  destruct (Cursor_fetchmany_serves _ _ _ Hserves w rs size Hready Hholds)
    as (w1 & -> & Hholds1 & Hsame1).
  rewrite length_take.
  destruct (Z.ltb_spec (Z.of_nat (Z.to_nat size `min` length rs)) size) as [ Hlt | Hge ].
  - rewrite take_ge in * by lia. rewrite drop_ge in Hholds1 by lia.
    by exists w1.
  - destruct (IH size (rows ++ take (Z.to_nat size) rs) w1 (drop (Z.to_nat size) rs))
      as (w2 & -> & Hholds2 & Hsame2); try done.
    + by eapply ready_same.
    + rewrite length_drop. lia.
    + rewrite <- app_assoc, take_drop. exists w2.
      split_and!; [ done | done | by eapply same_objects_trans ].
Qed.

(** With no more turns than [rs] has full batches, [fetchall] is still
    fetching when the turns are spent. *)
Lemma fetchall_loop_short handle d holds :
  serves_rows handle d holds →
  ∀ fuel size rows w rs,
    (0 < size)%Z →
    ready handle d w →
    holds (transport w) rs →
    (fuel * Z.to_nat size ≤ length rs)%nat →
    fetchall_loop fuel size rows w = None.
Proof.
  intros Hserves. induction fuel as [ | fuel IH ];
    intros size rows w rs Hsize Hready Hholds Hfuel; [ done | ].
  cbn [fetchall_loop]. unfold bind.
  destruct (Cursor_fetchmany_serves _ _ _ Hserves w rs size Hready Hholds)
    as (w1 & -> & Hholds1 & Hsame1).
  rewrite length_take.
  destruct (Z.ltb_spec (Z.of_nat (Z.to_nat size `min` length rs)) size) as [ Hlt | Hge ];
    [ lia | ].
  eapply IH; [ done | by eapply ready_same | exact Hholds1 | ].
  rewrite length_drop. lia.
Qed.

(** After the last row, any fetch calls made in a row return no row. *)
Lemma run_fetches_exhausted handle d holds :
  serves_rows handle d holds →
  ∀ calls w,
    ready handle d w →
    holds (transport w) [] →
    ∃ w', run_fetches calls w = Some (Return (replicate (length calls) []), w')
          ∧ holds (transport w') [] ∧ same_objects w w'.
Proof.
  intros Hserves. induction calls as [ | c calls IH ]; intros w Hready Hholds;
    cbn [run_fetches].
  - exists w. split_and!; [ done | done | apply same_objects_refl ].
  - assert (∃ w1, run_fetch c w = Some (Return [], w1)
                  ∧ holds (transport w1) [] ∧ same_objects w w1)
      as (w1 & Hrun & Hholds1 & Hsame1).
    { destruct c as [ n | fuel | ]; cbn [run_fetch].
      - destruct (Cursor_fetchmany_serves _ _ _ Hserves w [] n Hready Hholds)
          as (w1 & Hrun & Hholds1 & Hsame1).
        rewrite take_nil in Hrun. rewrite drop_nil in Hholds1. by exists w1.
      - unfold Cursor_fetchall, bind, get_self.
        eapply (fetchall_loop_serves _ _ _ Hserves (S fuel) _ [] w []);
          [ lia | done | done | cbn; lia ].
      - unfold bind, Cursor_fetchone, bind.
        destruct (Cursor_fetchmany_serves _ _ _ Hserves w [] 1 Hready Hholds)
          as (w1 & -> & Hholds1 & Hsame1).
        rewrite drop_nil in Hholds1. by exists w1. }
    unfold bind. rewrite Hrun.
    destruct (IH w1) as (w2 & -> & Hholds2 & Hsame2);
      [ by eapply ready_same | done | ].
    exists w2. split_and!; [ done | done | by eapply same_objects_trans ].
Qed.

(** C8. [fetchmany] always returns or raises, and returns at most the
    requested number of rows.  Over a library that serves the rows [rs] of a
    result set and reports no data after them: [fetchmany(n)] returns the
    next [n] rows of [rs], or all that are left; [fetchall] fetches batches
    of [max(20, arraysize)] rows, returns [rs] in order, and is done with
    the first batch that comes short, one batch after the full ones, no
    sooner and no later; [fetchone] returns the next row, or [None] when
    none is left; and after the last row any fetch calls made one after
    the other all return an empty result. *)
Theorem fetch_in_batches (w : World) :
  (∀ size, ∃ res w',
      Cursor_fetchmany size w = Some (res, w')
      ∧ ∀ rows, res = Return rows →
          (Z.of_nat (length rows) ≤ Z.max 0 (default (arraysize (self w)) size))%Z)
  ∧ (∀ handle d holds rs,
       serves_rows handle d holds →
       ready handle d w →
       holds (transport w) rs →
       let batch := Z.to_nat (Z.max 20 (arraysize (self w))) in
       (∀ n, ∃ w',
           Cursor_fetchmany (Some n) w = Some (Return (take (Z.to_nat n) rs), w')
           ∧ holds (transport w') (drop (Z.to_nat n) rs) ∧ same_objects w w')
       ∧ (∀ fuel, (length rs < fuel * batch)%nat →
            ∃ w', Cursor_fetchall fuel w = Some (Return rs, w')
                  ∧ holds (transport w') [] ∧ same_objects w w')
       ∧ (∀ fuel, (fuel * batch ≤ length rs)%nat → Cursor_fetchall fuel w = None)
       ∧ (∃ w', Cursor_fetchone w = Some (Return (head rs), w')
                ∧ holds (transport w') (drop 1 rs) ∧ same_objects w w')
       ∧ (rs = [] → ∀ calls, ∃ w',
            run_fetches calls w = Some (Return (replicate (length calls) []), w')
            ∧ holds (transport w') [] ∧ same_objects w w')).
Proof.
  split.
  - intros size. unfold Cursor_fetchmany, Cursor_assert_cursor_is_open, bind,
      get_self, get_connection. cbn.
    destruct (negb _ || negb _).
    { do 2 eexists. split; [ done | ]. by intros. }
    cbn.
    destruct (fetchmany_loop_bound (Z.to_nat (default (arraysize (self w)) size))
                (default (arraysize (self w)) size) [] w)
      as (res & w' & -> & Hbound); [ cbn; lia | ].
    by exists res, w'.
  - intros handle d holds rs Hserves Hready Hholds batch. split_and!.
    + intros n. by eapply Cursor_fetchmany_serves.
    + intros fuel Hfuel. unfold Cursor_fetchall, bind, get_self.
      by eapply (fetchall_loop_serves _ _ _ Hserves fuel _ [] w rs); [ lia | .. ].
    + intros fuel Hfuel. unfold Cursor_fetchall, bind, get_self.
      by eapply (fetchall_loop_short _ _ _ Hserves fuel _ [] w rs); [ lia | .. ].
    + unfold Cursor_fetchone, bind.
      destruct (Cursor_fetchmany_serves _ _ _ Hserves w rs 1 Hready Hholds)
        as (w' & -> & Hholds' & Hsame).
      exists w'. split; [ | done ]. by destruct rs.
    + intros -> calls. by eapply run_fetches_exhausted.
Qed.

(** * More of the driver *)

(** ** Which calls a method makes *)

Create HintDb emits.

Lemma emits_ret p {A} (a : A) : emits p (ret a).
Proof. intros w r w' [= <- <-]. exists []. by rewrite app_nil_r. Qed.

Lemma emits_raise p {A} e : emits p (raise (A := A) e).
Proof. intros w r w' [= <- <-]. exists []. by rewrite app_nil_r. Qed.

Lemma emits_lift p {A} (o : outcome A) : emits p (lift o).
Proof. destruct o; [ apply emits_ret | apply emits_raise ]. Qed.

Lemma emits_bind p {A B} (m : M A) (k : A → M B) :
  emits p m → (∀ a, emits p (k a)) → emits p (bind m k).
Proof.
  intros Hm Hk w r w' Hrun. unfold bind in Hrun.
  destruct (m w) as [ [ [ a | e ] w1 ] | ] eqn:Hmw; [ | | done ].
  - destruct (Hm _ _ _ Hmw) as (seg1 & Ht1 & Hs1).
    destruct (Hk a _ _ _ Hrun) as (seg2 & Ht2 & Hs2).
    exists (seg1 ++ seg2). split; [ by rewrite Ht2, Ht1, app_assoc | by apply Forall_app ].
  - injection Hrun as <- <-. exact (Hm _ _ _ Hmw).
Qed.

Lemma emits_call p c : (∀ r, p (c, r) = true) → emits p (call c).
Proof.
  intros Hc w r w' Hrun. rewrite run_call in Hrun. injection Hrun as <- <-.
  eexists. split; [ done | ]. by repeat constructor.
Qed.

Lemma emits_get_self p : emits p get_self.
Proof. intros w. apply (emits_ret p (self w)). Qed.

Lemma emits_get_connection p : emits p get_connection.
Proof. intros w. apply (emits_ret p (connection w)). Qed.

Lemma emits_set_self p c : emits p (set_self c).
Proof. intros w r w' [= <- <-]. exists []. cbn. by rewrite app_nil_r. Qed.

Lemma emits_set_connection p c : emits p (set_connection c).
Proof. intros w r w' [= <- <-]. exists []. cbn. by rewrite app_nil_r. Qed.

Hint Resolve emits_ret emits_raise emits_lift emits_get_self emits_get_connection
  emits_set_self emits_set_connection : emits.

(** Chains of binds; a call is let through when [p] computes to [true] on
    it whatever the answer. *)
Ltac emits_chain :=
  repeat first
    [ solve [ eauto with emits ]
    | apply emits_call; solve [ intros; reflexivity ]
    | apply emits_bind; [ | intros ? ]
    | match goal with
      | |- emits _ (if ?b then _ else _) => destruct b
      | |- emits _ (match ?x with _ => _ end) => destruct x
      end ].

Lemma emits_update_self p f : emits p (update_self f).
Proof. unfold update_self. emits_chain. Qed.

Lemma emits_set_committed p b : emits p (set_committed b).
Proof. unfold set_committed. emits_chain. Qed.

Lemma emits_get_connection_handle p : emits p get_connection_handle.
Proof. unfold get_connection_handle. emits_chain. Qed.

Lemma emits_store p slot t : emits p (store slot t).
Proof. unfold store. destruct slot; [ apply emits_update_self | apply emits_ret ]. Qed.

Lemma emits_Cursor_assert_cursor_is_open p : emits p Cursor_assert_cursor_is_open.
Proof. unfold Cursor_assert_cursor_is_open. emits_chain. Qed.

Lemma emits_Connection_assert_connection_is_open p :
  emits p Connection_assert_connection_is_open.
Proof. unfold Connection_assert_connection_is_open. emits_chain. Qed.

Lemma emits_raise_get_exception p {A} handle :
  lets_error_queries p → emits p (raise_get_exception (A := A) handle).
Proof.
  intros Hp w r w' Hrun.
  destruct (raise_get_exception_runs (A := A) handle w)
    as (e & w1 & seg & Hrun' & _ & _ & Ht & Hq).
  rewrite Hrun' in Hrun. injection Hrun as <- <-. exists seg. split; [ done | ].
  eapply Forall_impl; [ exact Hq | ]. intros ev Hev. by apply Hp.
Qed.

Lemma emits_get_data p address data_type size : emits p (get_data address data_type size).
Proof.
  intros w r w' Hrun.
  destruct (get_data_runs address data_type size w) as (res & Hrun').
  rewrite Hrun' in Hrun. injection Hrun as <- <-. exists []. by rewrite app_nil_r.
Qed.

Hint Resolve emits_update_self emits_set_committed emits_get_connection_handle
  emits_store emits_Cursor_assert_cursor_is_open
  emits_Connection_assert_connection_is_open emits_raise_get_exception
  emits_get_data : emits.

(** ** What a method leaves alone *)

Create HintDb preserves.

Section Preserves.
Context {X : Type} (f : Connection → Cursor → X).

Lemma preserves_ret {A} (a : A) : preserves f (ret a).
Proof. by intros w r w' [= <- <-]. Qed.

Lemma preserves_raise {A} e : preserves f (raise (A := A) e).
Proof. by intros w r w' [= <- <-]. Qed.

Lemma preserves_lift {A} (o : outcome A) : preserves f (lift o).
Proof. destruct o; [ apply preserves_ret | apply preserves_raise ]. Qed.

Lemma preserves_bind {A B} (m : M A) (k : A → M B) :
  preserves f m → (∀ a, preserves f (k a)) → preserves f (bind m k).
Proof.
  intros Hm Hk w r w' Hrun. unfold bind in Hrun.
  destruct (m w) as [ [ [ a | e ] w1 ] | ] eqn:Hmw; [ | | done ].
  - rewrite (Hk a _ _ _ Hrun). exact (Hm _ _ _ Hmw).
  - injection Hrun as <- <-. exact (Hm _ _ _ Hmw).
Qed.

Lemma preserves_call c : preserves f (call c).
Proof. intros w r w' Hrun. rewrite run_call in Hrun. by injection Hrun as <- <-. Qed.

Lemma preserves_get_self : preserves f get_self.
Proof. by intros w r w' [= <- <-]. Qed.

Lemma preserves_get_connection : preserves f get_connection.
Proof. by intros w r w' [= <- <-]. Qed.

Lemma preserves_update_self g :
  (∀ conn c, f conn (g c) = f conn c) → preserves f (update_self g).
Proof. intros Hg w r w' [= <- <-]. cbn. apply Hg. Qed.

Lemma preserves_get_connection_handle : preserves f get_connection_handle.
Proof.
  unfold get_connection_handle. apply preserves_bind; [ apply preserves_get_connection | ].
  intros c. destruct (Connection_handle c); [ apply preserves_ret | apply preserves_raise ].
Qed.

Lemma preserves_raise_get_exception {A} handle :
  preserves f (raise_get_exception (A := A) handle).
Proof.
  intros w r w' Hrun.
  destruct (raise_get_exception_runs (A := A) handle w)
    as (e & w1 & seg & Hrun' & Hc & Hs & _).
  rewrite Hrun' in Hrun. injection Hrun as <- <-. by rewrite Hc, Hs.
Qed.

Lemma preserves_get_data address data_type size :
  preserves f (get_data address data_type size).
Proof.
  intros w r w' Hrun.
  destruct (get_data_runs address data_type size w) as (res & Hrun').
  rewrite Hrun' in Hrun. by injection Hrun as <- <-.
Qed.

Lemma preserves_Cursor_assert_cursor_is_open : preserves f Cursor_assert_cursor_is_open.
Proof.
  unfold Cursor_assert_cursor_is_open.
  apply preserves_bind; [ apply preserves_get_self | ]. intros c.
  apply preserves_bind; [ apply preserves_get_connection | ]. intros conn.
  destruct (_ || _); [ apply preserves_raise | apply preserves_ret ].
Qed.

Lemma preserves_Connection_assert_connection_is_open :
  preserves f Connection_assert_connection_is_open.
Proof.
  unfold Connection_assert_connection_is_open.
  apply preserves_bind; [ apply preserves_get_connection | ]. intros conn.
  destruct (negb _); [ apply preserves_raise | apply preserves_ret ].
Qed.

End Preserves.

Hint Resolve preserves_ret preserves_raise preserves_lift preserves_call
  preserves_get_self preserves_get_connection preserves_get_connection_handle
  preserves_raise_get_exception preserves_get_data
  preserves_Cursor_assert_cursor_is_open
  preserves_Connection_assert_connection_is_open : preserves.

Ltac preserves_chain :=
  repeat first
    [ solve [ eauto with preserves ]
    | apply preserves_update_self; solve [ intros; reflexivity ]
    | apply preserves_bind; [ | intros ? ]
    | match goal with
      | |- preserves _ (if ?b then _ else _) => destruct b
      | |- preserves _ (match ?x with _ => _ end) => destruct x
      end ].

(** ** Fetching only reads *)

Lemma lets_error_queries_is_fetch : lets_error_queries is_fetch.
Proof. intros [ c r ]. by destruct c. Qed.

Hint Resolve lets_error_queries_is_fetch : emits.

Lemma emits_fetch_columns handle d : ∀ column, emits is_fetch (fetch_columns handle column d).
Proof.
  induction d as [ | [ name data_type ] d IH ]; intros column; cbn [fetch_columns];
    emits_chain.
Qed.

Lemma preserves_fetch_columns {X} (f : Connection → Cursor → X) handle d :
  ∀ column, preserves f (fetch_columns handle column d).
Proof.
  induction d as [ | [ name data_type ] d IH ]; intros column; cbn [fetch_columns];
    preserves_chain.
Qed.

Hint Resolve emits_fetch_columns : emits.
Hint Resolve preserves_fetch_columns : preserves.

Lemma emits_fetchmany_loop fuel : ∀ size rows, emits is_fetch (fetchmany_loop fuel size rows).
Proof.
  induction fuel as [ | fuel IH ]; intros size rows; cbn [fetchmany_loop].
  - destruct (_ <? _)%Z; [ by intros w r w' | apply emits_ret ].
  - emits_chain.
Qed.

Lemma preserves_fetchmany_loop {X} (f : Connection → Cursor → X) fuel :
  ∀ size rows, preserves f (fetchmany_loop fuel size rows).
Proof.
  induction fuel as [ | fuel IH ]; intros size rows; cbn [fetchmany_loop].
  - destruct (_ <? _)%Z; [ by intros w r w' | apply preserves_ret ].
  - preserves_chain.
Qed.

Hint Resolve emits_fetchmany_loop : emits.
Hint Resolve preserves_fetchmany_loop : preserves.

Lemma emits_Cursor_fetchmany size : emits is_fetch (Cursor_fetchmany size).
Proof. unfold Cursor_fetchmany. emits_chain. Qed.

Lemma preserves_Cursor_fetchmany {X} (f : Connection → Cursor → X) size :
  preserves f (Cursor_fetchmany size).
Proof. unfold Cursor_fetchmany. preserves_chain. Qed.

Hint Resolve emits_Cursor_fetchmany : emits.
Hint Resolve preserves_Cursor_fetchmany : preserves.

Lemma emits_fetchall_loop fuel : ∀ size rows, emits is_fetch (fetchall_loop fuel size rows).
Proof.
  induction fuel as [ | fuel IH ]; intros size rows; cbn [fetchall_loop];
    [ by intros w r w' | emits_chain ].
Qed.

Lemma preserves_fetchall_loop {X} (f : Connection → Cursor → X) fuel :
  ∀ size rows, preserves f (fetchall_loop fuel size rows).
Proof.
  induction fuel as [ | fuel IH ]; intros size rows; cbn [fetchall_loop];
    [ by intros w r w' | preserves_chain ].
Qed.

Hint Resolve emits_fetchall_loop : emits.
Hint Resolve preserves_fetchall_loop : preserves.

(** X1. The fetch methods and [nextset] only read: whatever the library
    answers, and whether they return or raise, every call they make is a
    fetch call or a query for the recorded error (so a failed fetch is not
    followed by a rollback), and the connection and the cursor objects are
    left exactly as they were. *)
Theorem fetching_only_reads :
  (∀ size, emits is_fetch (Cursor_fetchmany size)
           ∧ preserves pair (Cursor_fetchmany size))
  ∧ (emits is_fetch Cursor_fetchone ∧ preserves pair Cursor_fetchone)
  ∧ (∀ fuel, emits is_fetch (Cursor_fetchall fuel)
             ∧ preserves pair (Cursor_fetchall fuel))
  ∧ (emits is_fetch Cursor_next ∧ preserves pair Cursor_next)
  ∧ (emits is_fetch Cursor_nextset ∧ preserves pair Cursor_nextset).
Proof.
  unfold Cursor_fetchone, Cursor_fetchall, Cursor_next, Cursor_nextset.
  split; [ intros size; split; [ emits_chain | preserves_chain ] | ].
  split; [ split; [ emits_chain | preserves_chain ] | ].
  split; [ intros fuel; split; [ emits_chain | preserves_chain ] | ].
  split; (split; [ emits_chain | preserves_chain ]).
Qed.

(** ** The connection *)

Lemma Connection_assert_refuses (w : World) :
  Connection_open (connection w) = false →
  Connection_assert_connection_is_open w = connection_refused w.
Proof.
  intros Hclosed.
  unfold Connection_assert_connection_is_open, bind, get_connection. cbn.
  by rewrite Hclosed.
Qed.

(** X2. Once a connection is closed, [commit], [rollback], [close] and
    [cursor] all raise an [InterfaceError] and make no call. *)
Theorem closed_connection_refuses (w : World) :
  Connection_open (connection w) = false →
  Connection_commit w = connection_refused w
  ∧ Connection_rollback w = connection_refused w
  ∧ Connection_close w = connection_refused w
  ∧ Connection_cursor w = connection_refused w.
Proof.
  intros Hclosed. pose proof (Connection_assert_refuses w Hclosed) as Hassert.
  unfold Connection_commit, Connection_rollback, Connection_close, Connection_cursor, bind.
  by rewrite Hassert.
Qed.

Lemma Connection_close_unfold :
  Connection_close
  = bind Connection_assert_connection_is_open (λ _,
      bind get_connection (λ c,
        bind (if negb (committed c) then Connection_rollback else ret ()) (λ _,
          Connection_close_logout))).
Proof. reflexivity. Qed.

Lemma Connection_rollback_queries h w :
  Connection_open (connection w) = true →
  Connection_handle (connection w) = Some h →
  ∃ res w' r0 seg,
    Connection_rollback w = Some (res, w')
    ∧ connection w' = connection w ∧ self w' = self w
    ∧ trace w' = trace w ++ (odbRollback h, r0) :: seg
    ∧ Forall (λ e, is_error_query e = true) seg.
Proof.
  intros Ho Hh.
  unfold Connection_rollback, Connection_assert_connection_is_open,
    get_connection_handle, bind, get_connection.
  cbn. rewrite Ho. cbn. rewrite Hh. cbn. rewrite run_call. cbn [as_int].
  destruct (_ =? 0)%Z.
  - match goal with |- context [ raise_get_exception h ?w1 ] =>
      destruct (raise_get_exception_runs (A := unit) h w1)
        as (e & w' & seg & -> & Hc & Hs & Ht & Hq)
    end.
    do 4 eexists. split; [ done | ]. cbn in *.
    split_and!; [ done | done | by rewrite Ht, <- app_assoc | done ].
  - do 4 eexists. split; [ done | ]. cbn.
    split_and!; [ done | done | done | constructor ].
Qed.

(** The logout part of [close] on a connection that still has its handle. *)
Lemma Connection_close_logout_runs h w :
  Connection_handle (connection w) = Some h →
  ∃ r w' seg,
    Connection_close_logout w = Some (r, w')
    ∧ trace w' = trace w ++ seg
    ∧ self w' = self w
    ∧ committed (connection w') = committed (connection w)
    ∧ Connection_open (connection w') = false
    ∧ Forall (λ e, is_rollback e = false) seg
    ∧ (r = Return () →
       Connection_handle (connection w') = None
       ∧ ∃ r1 r2, seg = [(odbLogout h true, r1); (odbFree h, r2)] ∧ as_int r1 ≠ 0)
    ∧ (∀ e, r = Raise e →
       Connection_handle (connection w') = Some h
       ∧ Forall (λ e, is_free e = false) seg
       ∧ ∃ r1 rest, seg = (odbLogout h true, r1) :: rest ∧ as_int r1 = 0).
Proof.
  intros Hh.
  unfold Connection_close_logout, get_connection_handle, bind, get_connection,
    set_connection.
  cbn. rewrite Hh. cbn. rewrite run_call. cbn [as_int transport trace connection self fst snd].
  destruct (_ =? 0)%Z eqn:Hr.
  - match goal with |- context [ raise_get_exception h ?w1 ] =>
      destruct (raise_get_exception_runs (A := unit) h w1)
        as (e & w' & seg & -> & Hc & Hs & Ht & Hq)
    end.
    cbn in Hc, Hs, Ht. do 3 eexists. split; [ done | ].
    rewrite Ht, <- app_assoc, Hc, Hs. cbn.
    assert (Forall (λ e, is_rollback e = false ∧ is_free e = false) seg) as Hseg.
    { eapply Forall_impl; [ exact Hq | ]. intros [ c r ] He. by destruct c. }
    split_and!; try done.
    + constructor; [ done | ].
      eapply Forall_impl; [ exact Hseg | ]. by intros ? [? ?].
    + intros e0 _. split_and!; [ done | | ].
      * constructor; [ done | ].
        eapply Forall_impl; [ exact Hseg | ]. by intros ? [? ?].
      * do 2 eexists. split; [ done | ]. by apply Z.eqb_eq.
  - rewrite run_call. cbn. do 3 eexists. split; [ done | ].
    rewrite <- app_assoc. cbn.
    split_and!; try done.
    + by repeat constructor.
    + intros _. split; [ done | ]. do 2 eexists. split; [ done | ]. by apply Z.eqb_neq.
Qed.

(** Everything [close] does on an open connection, case by case. *)
Lemma Connection_close_cases (h : Z) (w : World) :
  Connection_open (connection w) = true →
  Connection_handle (connection w) = Some h →
  ∃ r w' seg,
    Connection_close w = Some (r, w')
    ∧ calls_between w w' seg
    ∧ committed (connection w') = committed (connection w)
    ∧ (committed (connection w) = true →
       Forall (λ e, is_rollback e = false) seg
       ∧ (r = Return () →
          ∃ r1 r2, seg = [(odbLogout h true, r1); (odbFree h, r2)]))
    ∧ (committed (connection w) = false →
       ∃ r0 rest, seg = (odbRollback h, r0) :: rest
                  ∧ Forall (λ e, is_rollback e = false) rest)
    ∧ (r = Return () →
       Connection_open (connection w') = false
       ∧ Connection_handle (connection w') = None
       ∧ ∃ pre r1 r2, seg = pre ++ [(odbLogout h true, r1); (odbFree h, r2)]
                      ∧ as_int r1 ≠ 0)
    ∧ (∀ e, r = Raise e →
       Connection_handle (connection w') = Some h
       ∧ Forall (λ e, is_free e = false) seg
       ∧ (connection w' = connection w ∨ Connection_open (connection w') = false)).
Proof.
  intros Ho Hh. rewrite Connection_close_unfold. unfold calls_between.
  unfold bind, Connection_assert_connection_is_open, get_connection.
  cbn -[Connection_close_logout Connection_rollback]. rewrite Ho.
  cbn -[Connection_close_logout Connection_rollback].
  destruct (committed (connection w)) eqn:Hcommitted;
    cbn -[Connection_close_logout Connection_rollback].
  - destruct (Connection_close_logout_runs h w Hh)
      as (r & w' & seg & -> & Ht & Hs & Hcm & Hclosed & Hnr & Hret & Hraise).
    exists r, w', seg. split_and!; try done.
    + congruence.
    + intros _. split; [ done | ]. intros Hr.
      destruct (Hret Hr) as (_ & r1 & r2 & -> & _). by exists r1, r2.
    + intros Hr. destruct (Hret Hr) as (Hnone & r1 & r2 & -> & Hr1).
      split_and!; [ done | done | ]. by exists [], r1, r2.
    + intros e Hr. destruct (Hraise e Hr) as (? & ? & _). split_and!; [ done | done | by right ].
  - destruct (Connection_rollback_queries h w Ho Hh)
      as (res & w1 & r0 & seg1 & -> & Hc1 & Hs1 & Ht1 & Hq1).
    assert (Forall (λ e, is_rollback e = false) seg1) as Hnr1.
    { eapply Forall_impl; [ exact Hq1 | ]. intros [ c r ] He. by destruct c. }
    assert (Forall (λ e, is_free e = false) seg1) as Hnf1.
    { eapply Forall_impl; [ exact Hq1 | ]. intros [ c r ] He. by destruct c. }
    destruct res as [ [] | e ].
    + destruct (Connection_close_logout_runs h w1)
        as (r & w' & seg & -> & Ht & Hs & Hcm & Hclosed & Hnr & Hret & Hraise);
        [ by rewrite Hc1 | ].
      exists r, w', ((odbRollback h, r0) :: seg1 ++ seg).
      split_and!; try done.
      * rewrite Ht, Ht1, <- app_assoc. done.
      * by rewrite Hcm, Hc1.
      * intros _. exists r0, (seg1 ++ seg). split; [ done | by apply Forall_app ].
      * intros Hr. destruct (Hret Hr) as (Hnone & r1 & r2 & -> & Hr1).
        split_and!; [ done | done | ].
        exists ((odbRollback h, r0) :: seg1), r1, r2. by split.
      * intros e Hr. destruct (Hraise e Hr) as (Hsome & Hnf & _).
        split_and!; [ done | | by right ]. constructor; [ done | by apply Forall_app ].
    + exists (Raise e), w1, ((odbRollback h, r0) :: seg1).
      split_and!; try done.
      * by rewrite Hc1.
      * intros _. by exists r0, seg1.
      * intros e' _. split_and!; [ by rewrite Hc1 | by constructor | by left ].
Qed.

(** X3. [Connection.close] on an open connection: when [committed] is set
    it makes no rollback; otherwise a rollback is its first call and its
    only one.  When it returns, the connection is closed, its handle
    attribute is gone, and the last two calls were the logout, which
    succeeded, and the release of the handle.  When it raises, the handle
    was not released.  The [committed] flag is never changed. *)
Theorem Connection_close_order (h : Z) (w : World) :
  Connection_open (connection w) = true →
  Connection_handle (connection w) = Some h →
  ∃ r w' seg,
    Connection_close w = Some (r, w')
    ∧ calls_between w w' seg
    ∧ committed (connection w') = committed (connection w)
    ∧ (committed (connection w) = true → Forall (λ e, is_rollback e = false) seg)
    ∧ (committed (connection w) = false →
       ∃ r0 rest, seg = (odbRollback h, r0) :: rest
                  ∧ Forall (λ e, is_rollback e = false) rest)
    ∧ (r = Return () →
       Connection_open (connection w') = false
       ∧ Connection_handle (connection w') = None
       ∧ ∃ pre r1 r2, seg = pre ++ [(odbLogout h true, r1); (odbFree h, r2)]
                      ∧ as_int r1 ≠ 0)
    ∧ (∀ e, r = Raise e →
       Connection_handle (connection w') = Some h
       ∧ Forall (λ e, is_free e = false) seg).
Proof.
  intros Ho Hh.
  destruct (Connection_close_cases h w Ho Hh)
    as (r & w' & seg & Hrun & Hseg & Hcm & Hyes & Hno & Hret & Hraise).
  exists r, w', seg. split_and!; try done.
  - intros Hc. by destruct (Hyes Hc).
  - intros e Hr. by destruct (Hraise e Hr) as (? & ? & _).
Qed.

(** X4. When [Connection.close] raises, the handle has not been released,
    and either the connection object is untouched (the implicit rollback
    failed, and [close] can be called again), or the connection is already
    marked closed (the logout failed): then [close] and every other method
    refuse from there on, so the handle is never released. *)
Theorem failed_close_keeps_handle (h : Z) (w : World) (e : exception) (w' : World) :
  Connection_open (connection w) = true →
  Connection_handle (connection w) = Some h →
  Connection_close w = Some (Raise e, w') →
  Connection_handle (connection w') = Some h
  ∧ (∃ seg, calls_between w w' seg ∧ Forall (λ e, is_free e = false) seg)
  ∧ (connection w' = connection w
     ∨ (Connection_open (connection w') = false
        ∧ Connection_close w' = connection_refused w'
        ∧ Connection_rollback w' = connection_refused w'
        ∧ Connection_cursor w' = connection_refused w')).
Proof.
  intros Ho Hh Hrun.
  destruct (Connection_close_cases h w Ho Hh)
    as (r & w1 & seg & Hrun' & Hseg & _ & _ & _ & _ & Hraise).
  rewrite Hrun in Hrun'. injection Hrun' as <- <-.
  destruct (Hraise e eq_refl) as (Hsome & Hnf & Hcases).
  split_and!; [ done | by exists seg | ].
  destruct Hcases as [ Hsame | Hclosed ]; [ by left | right ].
  pose proof (Connection_assert_refuses w' Hclosed) as Hassert.
  unfold Connection_close, Connection_rollback, Connection_cursor, bind.
  by rewrite Hassert.
Qed.


Lemma Connection_commit_runs h w :
  Connection_open (connection w) = true →
  Connection_handle (connection w) = Some h →
  let c := odb (transport w) (odbCommit h) in
  (as_int c.1 ≠ 0 →
   Connection_commit w
   = Some (Return (),
           {| transport := c.2; trace := trace w ++ [(odbCommit h, c.1)];
              connection := {| Connection_open := Connection_open (connection w);
                               Connection_handle := Connection_handle (connection w);
                               committed := true |};
              self := self w |}))
  ∧ (as_int c.1 = 0 →
     ∃ e w' seg,
       Connection_commit w = Some (Raise e, w')
       ∧ connection w' = connection w ∧ self w' = self w
       ∧ trace w' = trace w ++ (odbCommit h, c.1) :: seg
       ∧ Forall (λ e, is_error_query e = true) seg).
Proof.
  intros Ho Hh c.
  unfold Connection_commit, Connection_assert_connection_is_open,
    get_connection_handle, bind, get_connection, set_connection.
  cbn. rewrite Ho. cbn. rewrite Hh. cbn. rewrite run_call. fold c. cbn [as_int].
  split; intros Hc.
  - apply Z.eqb_neq in Hc. rewrite Hc. cbn. by rewrite ?Ho, ?Hh.
  - apply Z.eqb_eq in Hc. rewrite Hc.
    match goal with |- context [ raise_get_exception h ?w1 ] =>
      destruct (raise_get_exception_runs (A := unit) h w1)
        as (e & w' & seg & -> & Hcn & Hs & Ht & Hq)
    end.
    exists e, w', seg. cbn in *. split_and!; try done. by rewrite Ht, <- app_assoc.
Qed.

(** X5. [commit] followed by [close] on an open connection never rolls
    back.  When both succeed the calls are exactly the commit, the logout
    and the release of the handle, and the connection ends closed with
    [committed] set; when the commit fails, [close] is not reached and the
    connection object is left as it was, still open. *)
Theorem commit_then_close_never_rolls_back (h : Z) (w : World) :
  Connection_open (connection w) = true →
  Connection_handle (connection w) = Some h →
  ∃ r w' seg,
    bind Connection_commit (λ _, Connection_close) w = Some (r, w')
    ∧ calls_between w w' seg
    ∧ Forall (λ e, is_rollback e = false) seg
    ∧ (r = Return () →
       committed (connection w') = true
       ∧ Connection_open (connection w') = false
       ∧ ∃ r1 r2 r3, seg = [(odbCommit h, r1); (odbLogout h true, r2); (odbFree h, r3)])
    ∧ (as_int (odb (transport w) (odbCommit h)).1 = 0 →
       (∃ e, r = Raise e) ∧ connection w' = connection w).
Proof.
  intros Ho Hh. unfold calls_between.
  destruct (Connection_commit_runs h w Ho Hh) as [ Hok Hfail ].
  destruct (decide (as_int (odb (transport w) (odbCommit h)).1 = 0)) as [ Hz | Hnz ].
  - destruct (Hfail Hz) as (e & w' & seg & Hrun & Hc & Hs & Ht & Hq).
    exists (Raise e), w'. eexists. unfold bind. rewrite Hrun.
    split_and!; [ done | exact Ht | | done | by intros _; split; [ eexists | ] ].
    constructor; [ done | ].
    eapply Forall_impl; [ exact Hq | ]. intros [ c r ] He. by destruct c.
  - unfold bind. rewrite (Hok Hnz).
    match goal with |- context [ Connection_close ?w1 ] =>
      destruct (Connection_close_cases h w1)
        as (r & w' & seg & -> & Hseg & Hcm & Hyes & _ & Hret & _); [ done | done | ]
    end.
    unfold calls_between in Hseg. cbn in Hseg, Hcm, Hyes.
    exists r, w'. eexists. split; [ done | ].
    split_and!; [ by rewrite Hseg, <- app_assoc | | | done ].
    + constructor; [ done | by apply Hyes ].
    + intros Hr. destruct (Hret Hr) as (Hclosed & _).
      destruct (Hyes eq_refl) as [ _ Hexact ]. destruct (Hexact Hr) as (r2 & r3 & ->).
      split_and!; [ done | done | by do 3 eexists ].
Qed.

(** ** The cursor's life cycle *)

(** X6. [Cursor.close] checks no state: open or already closed, it asks the
    library to drop the query.  If that succeeds it releases the handle and
    marks the cursor closed, changing nothing else; if it fails it raises,
    the handle is not released and the cursor is left as it was.  The
    connection object is never touched. *)
Theorem Cursor_close_releases (w : World) :
  let h := Cursor_handle (self w) in
  let dropped := odb (transport w) (odbDropQry h) in
  let freed := odb dropped.2 (odbFree h) in
  (as_int dropped.1 ≠ 0 →
   Cursor_close w
   = Some (Return (),
           {| transport := freed.2;
              trace := trace w ++ [(odbDropQry h, dropped.1); (odbFree h, freed.1)];
              connection := connection w;
              self := with_open false (self w) |}))
  ∧ (as_int dropped.1 = 0 →
     ∃ e w' seg,
       Cursor_close w = Some (Raise e, w')
       ∧ same_objects w w'
       ∧ trace w' = trace w ++ (odbDropQry h, dropped.1) :: seg
       ∧ Forall (λ e, is_error_query e = true) seg).
Proof.
  intros h dropped freed.
  unfold Cursor_close, bind, get_self, update_self, set_self. cbn.
  rewrite run_call. fold h. fold dropped. cbn [as_int].
  split; intros Hd.
  - apply Z.eqb_neq in Hd. rewrite Hd. rewrite run_call. cbn. fold freed.
    by rewrite <- app_assoc.
  - apply Z.eqb_eq in Hd. rewrite Hd.
    match goal with |- context [ raise_get_exception h ?w1 ] =>
      destruct (raise_get_exception_runs (A := unit) h w1)
        as (e & w' & seg & -> & Hc & Hs & Ht & Hq)
    end.
    exists e, w', seg. cbn in *. split_and!; try done. by rewrite Ht, <- app_assoc.
Qed.

(** X7. Iterating: over a library that serves the rows [rs], [next] returns
    the first row and leaves the others to be served; with no row left it
    raises [StopIteration], and goes on doing so. *)
Theorem Cursor_next_iterates
    (handle : Z) (d : list column_description) (holds : tstate → list row → Prop)
    (rs : list row) (w : World) :
  serves_rows handle d holds →
  ready handle d w →
  holds (transport w) rs →
  ∃ w',
    Cursor_next w
    = Some (match rs with
            | [] => Raise (Exc StopIteration NoArgs)
            | r :: _ => Return r
            end, w')
    ∧ holds (transport w') (tail rs)
    ∧ ready handle d w'.
Proof.
  intros Hserves Hready Hholds. unfold Cursor_next, bind.
  destruct (Cursor_fetchmany_serves _ _ _ Hserves w rs 1 Hready Hholds)
    as (w' & -> & Hholds' & Hsame).
  exists w'. destruct rs as [ | r rs ]; cbn in *.
  - split_and!; [ done | done | by eapply ready_same ].
  - split_and!; [ done | done | by eapply ready_same ].
Qed.

(** ** Executing over a library that grants every request *)

(** The type object inferred for a value carries the value's wire format,
    and once bound it sets the value by the request [setting] names. *)
Lemma inferred_format value fmt :
  wire_format value = Some fmt →
  ∃ t, get_db_api_type value = Return t
       ∧ fmt = (odb_type t, sql_type t, size t, precision t)
       ∧ max_size t = size t
       ∧ ∀ h total index t',
           bound t' ≠ 0 → cursor t' = true →
           col_number t' = Z.of_nat index + 1 →
           final t' = bool_decide (Z.of_nat index + 1 = total) →
           odb_set_func t' = odb_set_func t → convert_to_c t' = convert_to_c t →
           set_request h t' value = setting h total index value.
Proof.
  destruct value; intros [= <-];
    (eexists; split; [ vm_compute; reflexivity | ]; split; [ reflexivity | ];
     split; [ reflexivity | ];
     intros h total index t' Hb Hc Hn Hf Hs Hv; unfold set_request, setting;
     apply Z.eqb_neq in Hb; rewrite Hb, Hc, Hn, Hf, ?Hs, ?Hv; reflexivity).
Qed.

Section Granted.
Context (I : tstate → Prop) (Hgrants : grants I).

Lemma call_granted c w :
  I (transport w) →
  is_request c = true →
  ∃ r w',
    call c w = Some (Return r, w')
    ∧ as_int r ≠ 0 ∧ I (transport w') ∧ same_objects w w'
    ∧ trace w' = trace w ++ [(c, r)].
Proof.
  intros HI Hc. destruct (Hgrants _ c HI) as [ HI' Hok ].
  rewrite run_call. eexists _, _. split; [ done | ]. cbn.
  split_and!; [ by apply Hok | done | by split | done ].
Qed.

Lemma bind_to_column_granted t col total w :
  I (transport w) →
  ∃ t' w' r,
    bind_to_column None t col total w = Some (Return t', w')
    ∧ I (transport w') ∧ same_objects w w'
    ∧ trace w' = trace w
        ++ [(odbBindParamEx (Cursor_handle (self w)) col ODB_PARAM_INOUT (odb_type t)
               (size t) (sql_type t) (max_size t) (precision t)
               (bool_decide (col = total)), r)]
    ∧ bound t' ≠ 0 ∧ cursor t' = true ∧ col_number t' = col
    ∧ final t' = bool_decide (col = total)
    ∧ odb_set_func t' = odb_set_func t ∧ convert_to_c t' = convert_to_c t.
Proof.
  intros HI. unfold bind_to_column, bind, get_self, store. cbn.
  match goal with |- context [ call ?c w ] =>
    destruct (call_granted c w HI eq_refl) as (r & w' & -> & Hr & HI' & Hs & Ht)
  end.
  cbn. apply Z.eqb_neq in Hr as Hr'. rewrite Hr'.
  eexists _, w', r. split; [ done | ]. by cbn.
Qed.

Lemma set_parameter_granted t value c w :
  I (transport w) →
  set_request (Cursor_handle (self w)) t value = Some c →
  ∃ w' r,
    set_parameter t value w = Some (Return (), w')
    ∧ I (transport w') ∧ same_objects w w'
    ∧ trace w' = trace w ++ [(c, r)].
Proof.
  intros HI. unfold set_request, set_parameter.
  destruct (bound t =? 0)%Z; [ done | ]. destruct (cursor t); [ | done ]. cbn [negb].
  unfold bind at 1 2 3. unfold get_self, ret. cbn -[call].
  assert (∀ c', is_request c' = true → Some c' = Some c →
          ∃ w' r, bind (call c') (λ ret_val,
                    if (as_int ret_val =? 0)%Z
                    then bind Connection_rollback (λ _,
                           bind get_connection_handle (λ h, raise_get_exception h))
                    else ret ()) w = Some (Return (), w')
                  ∧ I (transport w') ∧ same_objects w w'
                  ∧ trace w' = trace w ++ [(c, r)]) as Hsend.
  { intros c' Hc' [= <-]. unfold bind at 1.
    destruct (call_granted c' w HI Hc') as (r & w' & -> & Hr & HI' & Hs & Ht).
    apply Z.eqb_neq in Hr. rewrite Hr. by exists w', r. }
  destruct value; try (intros Hc; by apply Hsend);
    (destruct (convert_to_c t) as [ f | ]; [ | done ];
     destruct (odb_set_func t) as [ set | ]; [ | done ];
     match goal with |- context [ convert f ?v ] => destruct (convert f v) eqn:Hv end;
     [ | done ]; intros Hc; unfold bind at 2; cbn [lift ret]; by apply Hsend).
Qed.

Lemma bind_parameters_granted total : ∀ ps index w,
  I (transport w) →
  Forall (λ v, is_Some (wire_format v)) ps →
  ∃ l w' seg,
    bind_parameters index ps total w = Some (Return l, w')
    ∧ I (transport w') ∧ same_objects w w'
    ∧ trace w' = trace w ++ seg
    ∧ Some <$> seg.*1
      = imap (λ j, binding (Cursor_handle (self w)) total (index + j)) ps
    ∧ set_requests (Cursor_handle (self w)) l
      = imap (λ j, setting (Cursor_handle (self w)) total (index + j)) ps.
Proof.
  induction ps as [ | v ps IH ]; intros index w HI Hps; cbn [bind_parameters].
  - exists [], w, []. rewrite app_nil_r. by split_and!.
  - apply Forall_cons in Hps as [ [ fmt Hfmt ] Hps ].
    destruct (inferred_format v fmt Hfmt) as (t & Ht & -> & Hmax & Hset).
    unfold bind at 1. rewrite Ht. cbn [lift ret]. unfold bind at 1.
    destruct (bind_to_column_granted t (Z.of_nat index + 1) total w HI)
      as (t' & w1 & r & -> & HI1 & [ Hc1 Hs1 ] & Ht1 & Hb & Hc & Hn & Hf & Hsf & Hcv).
    unfold bind at 1.
    destruct (IH (S index) w1 HI1 Hps)
      as (l & w' & seg & -> & HI' & [ Hc' Hs' ] & Ht' & Hbinds & Hsets).
    cbn [ret]. eexists _, w', (_ :: seg). split; [ done | ].
    rewrite Hs1 in Hbinds, Hsets.
    split_and!.
    + done.
    + split; congruence.
    + by rewrite Ht', Ht1, <- app_assoc.
    + cbn [fmap list_fmap imap fst]. rewrite Hbinds. f_equal.
      * unfold binding. rewrite Nat.add_0_r, Hfmt, Hmax. done.
      * apply imap_ext. intros j x _. cbn. by rewrite Nat.add_succ_r.
    + unfold set_requests. cbn [fmap list_fmap imap fst snd]. f_equal.
      * rewrite Nat.add_0_r. by apply Hset.
      * etrans; [ exact Hsets | ]. apply imap_ext. intros j x _. cbn.
        by rewrite Nat.add_succ_r.
Qed.

Lemma set_parameters_granted : ∀ l w,
  I (transport w) →
  Forall is_Some (set_requests (Cursor_handle (self w)) l) →
  ∃ w' seg,
    set_parameters l w = Some (Return (), w')
    ∧ I (transport w') ∧ same_objects w w'
    ∧ trace w' = trace w ++ seg
    ∧ Some <$> seg.*1 = set_requests (Cursor_handle (self w)) l.
Proof.
  induction l as [ | [ [ t | ] v ] l IH ]; intros w HI Hl; cbn [set_parameters].
  - exists w, []. rewrite app_nil_r. by split_and!.
  - apply Forall_cons in Hl as [ [ c Hc ] Hl ]. cbn in Hc. unfold bind.
    destruct (set_parameter_granted t v c w HI Hc)
      as (w1 & r & -> & HI1 & [ Hc1 Hs1 ] & Ht1).
    rewrite <- Hs1 in Hl.
    destruct (IH w1 HI1 Hl) as (w' & seg & -> & HI' & [ Hc' Hs' ] & Ht' & Hsets).
    exists w', ((c, r) :: seg). split_and!.
    + done.
    + done.
    + split; congruence.
    + by rewrite Ht', Ht1, <- app_assoc.
    + cbn [fmap list_fmap fst]. rewrite Hsets, Hs1. unfold set_requests.
      cbn [fmap list_fmap fst snd]. by rewrite Hc.
  - apply Forall_cons in Hl as [ [ c Hc ] _ ]. done.
Qed.

Lemma settings_exist h total : ∀ ps index,
  Forall (λ v, is_Some (wire_format v)) ps →
  Forall is_Some (imap (λ j, setting h total (index + j)) ps).
Proof.
  induction ps as [ | v ps IH ]; intros index Hps; [ constructor | ].
  apply Forall_cons in Hps as [ Hv Hps ]. cbn [imap]. constructor.
  - destruct v; try done; by destruct Hv.
  - erewrite imap_ext; [ apply (IH (S index) Hps) | ].
    intros j x _. cbn. by rewrite Nat.add_succ_r.
Qed.

Lemma execute_row_granted total ps w :
  I (transport w) →
  input_sizes (self w) = [] →
  Forall (λ v, is_Some (wire_format v)) ps →
  ∃ w' seg,
    (∀ rows, execute_rows (ps :: rows) total w = execute_rows rows total w')
    ∧ I (transport w') ∧ same_objects w w'
    ∧ trace w' = trace w ++ seg
    ∧ Some <$> seg.*1 = row_requests (Cursor_handle (self w)) total ps.
Proof.
  intros HI Hsizes Hps.
  destruct (bind_parameters_granted total ps 0 w HI Hps)
    as (l & w1 & seg1 & Hrun1 & HI1 & [ Hc1 Hs1 ] & Ht1 & Hbinds & Hsets).
  destruct (set_parameters_granted l w1 HI1)
    as (w2 & seg2 & Hrun2 & HI2 & [ Hc2 Hs2 ] & Ht2 & Hsets2).
  { rewrite Hs1, Hsets. by apply settings_exist. }
  destruct (call_granted (odbExecute (Cursor_handle (self w2))) w2 HI2 eq_refl)
    as (r & w3 & Hrun3 & Hr & HI3 & [ Hc3 Hs3 ] & Ht3).
  exists w3, (seg1 ++ seg2 ++ [(odbExecute (Cursor_handle (self w2)), r)]).
  split_and!.
  - intros rows. cbn [execute_rows].
    unfold bind at 1. unfold get_self at 1. cbn [ret]. rewrite Hsizes. unfold bind at 1.
    rewrite Hrun1. unfold bind at 1. rewrite Hrun2.
    unfold bind at 1. unfold get_self at 1. cbn [ret]. unfold bind at 1.
    rewrite Hrun3. apply Z.eqb_neq in Hr. by rewrite Hr.
  - done.
  - split; congruence.
  - rewrite Ht3, Ht2, Ht1, <- !app_assoc. done.
  - rewrite !fmap_app, !fmap_cons. cbn [fst].
    rewrite Hbinds, Hsets2, Hs1, Hsets, Hs2, Hs1. done.
Qed.

Lemma execute_rows_granted total : ∀ rows w,
  I (transport w) →
  input_sizes (self w) = [] →
  Forall (Forall (λ v, is_Some (wire_format v))) rows →
  ∃ w' seg,
    execute_rows rows total w = Some (Return (), w')
    ∧ I (transport w') ∧ same_objects w w'
    ∧ trace w' = trace w ++ seg
    ∧ Some <$> seg.*1 = concat (row_requests (Cursor_handle (self w)) total <$> rows).
Proof.
  induction rows as [ | ps rows IH ]; intros w HI Hsizes Hrows.
  - exists w, []. rewrite app_nil_r. by split_and!.
  - apply Forall_cons in Hrows as [ Hps Hrows ].
    destruct (execute_row_granted total ps w HI Hsizes Hps)
      as (w1 & seg1 & -> & HI1 & [ Hc1 Hs1 ] & Ht1 & Hseg1).
    destruct (IH w1 HI1) as (w' & seg & -> & HI' & [ Hc' Hs' ] & Ht' & Hrest);
      [ congruence | done | ].
    exists w', (seg1 ++ seg). split_and!.
    + done.
    + done.
    + split; congruence.
    + by rewrite Ht', Ht1, <- app_assoc.
    + rewrite !fmap_app, fmap_cons. cbn [concat]. by rewrite Hseg1, Hrest, Hs1.
Qed.

(** A value with no wire format stops the binding of its row: the values
    before it are bound, and the error of [get_db_api_type] is raised. *)
Lemma bind_parameters_unsupported total pre value post e : ∀ index w,
  I (transport w) →
  Forall (λ v, is_Some (wire_format v)) pre →
  get_db_api_type value = Raise e →
  ∃ w' seg,
    bind_parameters index (pre ++ value :: post) total w = Some (Raise e, w')
    ∧ same_objects w w'
    ∧ trace w' = trace w ++ seg
    ∧ Some <$> seg.*1
      = imap (λ j, binding (Cursor_handle (self w)) total (index + j)) pre.
Proof.
  induction pre as [ | v pre IH ]; intros index w HI Hpre He; cbn [app bind_parameters].
  - unfold bind at 1. rewrite He. cbn [lift raise]. exists w, [].
    rewrite app_nil_r. by split_and!.
  - apply Forall_cons in Hpre as [ [ fmt Hfmt ] Hpre ].
    destruct (inferred_format v fmt Hfmt) as (t & Ht & -> & Hmax & Hset).
    unfold bind at 1. rewrite Ht. cbn [lift ret]. unfold bind at 1.
    destruct (bind_to_column_granted t (Z.of_nat index + 1) total w HI)
      as (t' & w1 & r & -> & HI1 & [ Hc1 Hs1 ] & Ht1 & _).
    unfold bind at 1.
    destruct (IH (S index) w1 HI1 Hpre He) as (w' & seg & -> & [ Hc' Hs' ] & Ht' & Hbinds).
    eexists w', (_ :: seg). split; [ done | ]. rewrite Hs1 in Hbinds. split_and!.
    + split; congruence.
    + by rewrite Ht', Ht1, <- app_assoc.
    + cbn [fmap list_fmap imap fst]. rewrite Hbinds. f_equal.
      * unfold binding. rewrite Nat.add_0_r, Hfmt, Hmax. done.
      * apply imap_ext. intros j x _. cbn. by rewrite Nat.add_succ_r.
Qed.

Lemma execute_rows_unsupported total sent pre value post rest e : ∀ w,
  I (transport w) →
  input_sizes (self w) = [] →
  Forall (Forall (λ v, is_Some (wire_format v))) sent →
  Forall (λ v, is_Some (wire_format v)) pre →
  get_db_api_type value = Raise e →
  ∃ w' seg,
    execute_rows (sent ++ (pre ++ value :: post) :: rest) total w = Some (Raise e, w')
    ∧ same_objects w w'
    ∧ trace w' = trace w ++ seg
    ∧ Some <$> seg.*1
      = concat (row_requests (Cursor_handle (self w)) total <$> sent)
        ++ imap (binding (Cursor_handle (self w)) total) pre.
Proof.
  induction sent as [ | ps sent IH ]; intros w HI Hsizes Hsent Hpre He; cbn [app].
  - cbn [execute_rows]. unfold bind at 1. unfold get_self at 1. cbn [ret].
    rewrite Hsizes. unfold bind at 1.
    destruct (bind_parameters_unsupported total pre value post e 0 w HI Hpre He)
      as (w' & seg & -> & Hs & Ht & Hbinds).
    by exists w', seg.
  - apply Forall_cons in Hsent as [ Hps Hsent ].
    destruct (execute_row_granted total ps w HI Hsizes Hps)
      as (w1 & seg1 & -> & HI1 & [ Hc1 Hs1 ] & Ht1 & Hseg1).
    destruct (IH w1 HI1) as (w' & seg & -> & [ Hc' Hs' ] & Ht' & Hrest);
      [ congruence | done | done | done | ].
    exists w', (seg1 ++ seg). split_and!.
    + done.
    + split; congruence.
    + by rewrite Ht', Ht1, <- app_assoc.
    + rewrite !fmap_app, fmap_cons. cbn [concat].
      by rewrite Hseg1, Hrest, Hs1, <- app_assoc.
Qed.

End Granted.

(** [_update_description] asks for the column count and describes that many
    columns; it never raises. *)
Lemma describe_columns_runs handle : ∀ n column w,
  ∃ d w' seg,
    describe_columns handle column n w = Some (Return d, w')
    ∧ same_objects w w' ∧ length d = n
    ∧ trace w' = trace w ++ seg
    ∧ Forall (λ e, is_describe e = true) seg.
Proof.
  induction n as [ | n IH ]; intros column w; cbn [describe_columns].
  - exists [], w, []. rewrite app_nil_r. by split_and!.
  - unfold bind, get_odb_type. rewrite !run_call. cbn [ret]. unfold bind. rewrite !run_call.
    cbn [transport trace connection self fst snd ret].
    match goal with |- context [ describe_columns handle ?c n ?w1 ] =>
      destruct (IH c w1) as (d & w' & seg & -> & [ Hc Hs ] & Hlen & Ht & Hseg)
    end.
    eexists _, w', _. split; [ done | ]. cbn in *. split_and!.
    + by split.
    + by rewrite Hlen.
    + rewrite Ht, <- !app_assoc. done.
    + by repeat constructor.
Qed.

Lemma Cursor_update_description_runs w :
  ∃ d w' seg,
    Cursor_update_description w = Some (Return (), w')
    ∧ connection w' = connection w
    ∧ self w' = with_description (Some d) (self w)
    ∧ length d
      = Z.to_nat (as_int (odb (transport w) (odbGetTotalCols (Cursor_handle (self w)))).1)
    ∧ trace w' = trace w ++ seg
    ∧ Forall (λ e, is_describe e = true) seg.
Proof.
  unfold Cursor_update_description, bind, get_self. cbn [ret]. rewrite run_call.
  cbn [fst snd].
  match goal with |- context [ describe_columns ?h ?c ?n ?w1 ] =>
    destruct (describe_columns_runs h n c w1)
      as (d & w' & seg & -> & [ Hc Hs ] & Hlen & Ht & Hseg)
  end.
  unfold update_self, bind, get_self, set_self. cbn in *.
  eexists d, _, _. split; [ done | ]. cbn. split_and!.
  - done.
  - by rewrite Hs.
  - done.
  - rewrite Ht, <- app_assoc. done.
  - by repeat constructor.
Qed.

Lemma Cursor_prepare_operation_granted I operation total w :
  grants I →
  I (transport w) →
  input_sizes (self w) = [] →
  ∃ w' r,
    Cursor_prepare_operation operation total w = Some (Return (), w')
    ∧ I (transport w') ∧ connection w' = connection w
    ∧ Cursor_open (self w') = Cursor_open (self w)
    ∧ Cursor_handle (self w') = Cursor_handle (self w)
    ∧ input_sizes (self w') = []
    ∧ prepared_operation (self w') = Some operation
    ∧ trace w' = trace w ++ [(odbPrepare (Cursor_handle (self w)) operation, r)].
Proof.
  intros Hgrants HI Hsizes. unfold Cursor_prepare_operation.
  unfold bind at 1. unfold get_self at 1. cbn [ret]. unfold bind at 1.
  destruct (call_granted I Hgrants (odbPrepare (Cursor_handle (self w)) operation) w HI eq_refl)
    as (r & w1 & -> & Hr & HI1 & [ Hc1 Hs1 ] & Ht1).
  apply Z.eqb_neq in Hr. rewrite Hr.
  unfold update_self, bind, get_self, set_self, ret.
  destruct (bool_decide (prepared_operation (self w) ≠ None));
    cbn; rewrite ?Hs1, ?Hsizes; cbn; eexists _, r; (split; [ done | ]); cbn;
    by rewrite ?Hs1.
Qed.

(** The step of [executemany] that prepares the operation unless it is
    the one already prepared. *)
Lemma prepare_unless_prepared I operation total w :
  grants I →
  I (transport w) →
  input_sizes (self w) = [] →
  ∃ w1 seg1,
    (if bool_decide (Some operation ≠ prepared_operation (self w))
     then Cursor_prepare_operation operation total else ret ()) w
    = Some (Return (), w1)
    ∧ I (transport w1) ∧ connection w1 = connection w
    ∧ Cursor_handle (self w1) = Cursor_handle (self w) ∧ input_sizes (self w1) = []
    ∧ prepared_operation (self w1) = Some operation
    ∧ trace w1 = trace w ++ seg1
    ∧ Some <$> seg1.*1
      = (if bool_decide (Some operation ≠ prepared_operation (self w))
         then [Some (odbPrepare (Cursor_handle (self w)) operation)] else []).
Proof.
  intros Hgrants HI Hsizes.
  destruct (bool_decide (Some operation ≠ prepared_operation (self w))) eqn:Hop.
  - destruct (Cursor_prepare_operation_granted I operation total w Hgrants HI Hsizes)
      as (w1 & r & -> & HI1 & Hc1 & _ & Hh1 & Hsz1 & Hp1 & Ht1).
    by eexists w1, [_].
  - apply bool_decide_eq_false in Hop. exists w, []. rewrite app_nil_r.
    split_and!; try done. destruct (prepared_operation (self w)) as [ o | ] eqn:Ho.
    + destruct (decide (operation = o)) as [ -> | Hneq ]; [ done | ].
      exfalso. apply Hop. congruence.
    + exfalso. by apply Hop.
Qed.

(** X8. With no input sizes set and a library that grants every request,
    [executemany] on an open cursor returns after sending, in this order:
    the prepare request, unless the operation is the one already prepared;
    then for each row a bind request per value, a set request per value and
    one execute request; then only calls that read the shape of the result.
    Value [i] of a row goes to column [i + 1] in the wire format of its
    Python type, flagged final when [i + 1] is the length of the first row.
    The connection is left marked uncommitted and the operation recorded as
    prepared. *)
Theorem executemany_sends_every_row
    (I : tstate → Prop) (operation : string) (rows : list row) (w : World) :
  grants I →
  I (transport w) →
  is_open w →
  input_sizes (self w) = [] →
  rows ≠ [] →
  Forall (Forall (λ v, is_Some (wire_format v))) rows →
  let h := Cursor_handle (self w) in
  let total := Z.of_nat (length (default [] (head rows))) in
  ∃ w' seg tail,
    Cursor_executemany operation rows w = Some (Return (), w')
    ∧ trace w' = trace w ++ seg ++ tail
    ∧ Some <$> seg.*1
      = (if bool_decide (Some operation ≠ prepared_operation (self w))
         then [Some (odbPrepare h operation)] else [])
        ++ concat (row_requests h total <$> rows)
    ∧ Forall (λ e, is_describe e = true) tail
    ∧ committed (connection w') = false
    ∧ prepared_operation (self w') = Some operation.
Proof.
  intros Hgrants HI [ Ho1 Ho2 ] Hsizes Hne Hrows h total.
  destruct rows as [ | ps rows ]; [ done | ]. cbn in total.
  unfold Cursor_executemany.
  assert (Cursor_assert_cursor_is_open w = Some (Return (), w)) as Hassert.
  { unfold Cursor_assert_cursor_is_open, bind, get_self, get_connection. cbn.
    by rewrite Ho1, Ho2. }
  unfold bind at 1. rewrite Hassert. unfold bind at 1. cbn [ret]. unfold bind at 1. unfold get_self at 1.
  cbn [ret]. unfold bind at 1. fold total.
  destruct (prepare_unless_prepared I operation total w Hgrants HI Hsizes)
    as (w1 & seg1 & -> & HI1 & Hc1 & Hh1 & Hsz1 & Hp1 & Ht1 & Hseg1).
  unfold bind at 1.
  destruct (execute_rows_granted I Hgrants total (ps :: rows) w1 HI1 Hsz1 Hrows)
    as (w2 & seg2 & -> & HI2 & [ Hc2 Hs2 ] & Ht2 & Hseg2).
  unfold bind at 1.
  destruct (Cursor_update_description_runs w2)
    as (d & w3 & seg3 & -> & Hc3 & Hs3 & Hlen & Ht3 & Hseg3).
  unfold bind at 1. unfold get_self at 1. cbn [ret]. unfold bind at 1.
  rewrite run_call. unfold update_self, set_committed, bind, get_self, set_self,
    get_connection, set_connection. cbn.
  eexists _, (seg1 ++ seg2), (seg3 ++ [_]). split; [ done | ]. cbn. split_and!.
  - rewrite Ht3, Ht2, Ht1, <- !app_assoc. done.
  - rewrite fmap_app, fmap_app, Hseg1, Hseg2, Hh1. done.
  - apply Forall_app. split; [ done | by repeat constructor ].
  - done.
  - by rewrite Hs3, Hs2.
Qed.

(** ** Views that binding and executing leave alone *)

Section Views.
Context {X : Type} (f : Connection → Cursor → X).

Lemma preserves_Connection_rollback : preserves f Connection_rollback.
Proof. unfold Connection_rollback. preserves_chain. Qed.

Lemma preserves_get_odb_type handle column : preserves f (get_odb_type handle column).
Proof. unfold get_odb_type. preserves_chain. Qed.

Lemma preserves_describe_columns handle n :
  ∀ column, preserves f (describe_columns handle column n).
Proof.
  induction n as [ | n IH ]; intros column; cbn [describe_columns];
    [ apply preserves_ret | ].
  apply preserves_bind; [ apply preserves_call | intros name ].
  apply preserves_bind; [ apply preserves_get_odb_type | intros type_code ].
  apply preserves_bind; [ apply IH | intros rest ]. apply preserves_ret.
Qed.

Lemma preserves_set_parameter t value : preserves f (set_parameter t value).
Proof.
  pose proof preserves_Connection_rollback.
  unfold set_parameter. preserves_chain.
Qed.

Lemma preserves_set_parameters l : preserves f (set_parameters l).
Proof.
  induction l as [ | [ [ t | ] v ] l IH ]; cbn [set_parameters].
  - apply preserves_ret.
  - apply preserves_bind; [ apply preserves_set_parameter | by intros _ ].
  - apply preserves_raise.
Qed.

(** From here on the view does not look at the items of the input sizes. *)
Context (Hins : ∀ conn c i t,
           f conn (with_input_sizes (<[i:=t]> (input_sizes c)) c) = f conn c).

Lemma preserves_store slot t : preserves f (store slot t).
Proof.
  destruct slot as [ i | ]; cbn [store]; [ | apply preserves_ret ].
  apply preserves_update_self. intros conn c. apply Hins.
Qed.

Lemma preserves_bind_to_column slot t col total :
  preserves f (bind_to_column slot t col total).
Proof.
  pose proof preserves_Connection_rollback. pose proof preserves_store.
  unfold bind_to_column. preserves_chain.
Qed.

Lemma preserves_bind_input_sizes total items :
  ∀ index, preserves f (bind_input_sizes index items total).
Proof.
  induction items as [ | t items IH ]; intros index; cbn [bind_input_sizes];
    [ apply preserves_ret | ].
  apply preserves_bind; [ apply preserves_bind_to_column | by intros _ ].
Qed.

Lemma preserves_bind_parameters total ps :
  ∀ index, preserves f (bind_parameters index ps total).
Proof.
  induction ps as [ | v ps IH ]; intros index; cbn [bind_parameters];
    [ apply preserves_ret | ].
  apply preserves_bind; [ apply preserves_lift | intros t ].
  apply preserves_bind; [ apply preserves_bind_to_column | intros t' ].
  apply preserves_bind; [ apply IH | intros rest ]. apply preserves_ret.
Qed.

Lemma preserves_execute_rows total rows : preserves f (execute_rows rows total).
Proof.
  induction rows as [ | ps rows IH ]; cbn [execute_rows]; [ apply preserves_ret | ].
  apply preserves_bind; [ apply preserves_get_self | intros c ].
  apply preserves_bind.
  { destruct (input_sizes c); [ apply preserves_bind_parameters | apply preserves_ret ]. }
  intros l. apply preserves_bind; [ apply preserves_set_parameters | intros _ ].
  apply preserves_bind; [ apply preserves_get_self | intros c' ].
  apply preserves_bind; [ apply preserves_call | intros r ].
  destruct (_ =? _)%Z; [ | exact IH ].
  apply preserves_bind; [ apply preserves_Connection_rollback | intros _ ].
  apply preserves_raise_get_exception.
Qed.

End Views.

Lemma hints_insert conn c i t :
  hints conn (with_input_sizes (<[i:=t]> (input_sizes c)) c) = hints conn c.
Proof. unfold hints. cbn. apply length_insert. Qed.

Lemma keeps_of_preserves {A} (m : M A) : preserves hints m → keeps_unhinted m.
Proof.
  intros Hm w r w' Hw Hrun. specialize (Hm _ _ _ Hrun). unfold hints in Hm.
  rewrite Hw in Hm. by apply nil_length_inv.
Qed.

Lemma keeps_bind {A B} (m : M A) (k : A → M B) :
  keeps_unhinted m → (∀ a, keeps_unhinted (k a)) → keeps_unhinted (bind m k).
Proof.
  intros Hm Hk w r w' Hw Hrun. unfold bind in Hrun.
  destruct (m w) as [ [ [ a | e ] w1 ] | ] eqn:Hmw; [ | | done ].
  - exact (Hk a _ _ _ (Hm _ _ _ Hw Hmw) Hrun).
  - injection Hrun as <- <-. exact (Hm _ _ _ Hw Hmw).
Qed.

Lemma keeps_reset : keeps_unhinted (update_self (with_input_sizes [])).
Proof. by intros w r w' _ [= <- <-]. Qed.

Lemma keeps_Cursor_prepare_operation operation total :
  keeps_unhinted (Cursor_prepare_operation operation total).
Proof.
  unfold Cursor_prepare_operation.
  apply keeps_bind; [ apply keeps_of_preserves, preserves_get_self | intros c ].
  apply keeps_bind; [ apply keeps_of_preserves, preserves_call | intros r ].
  destruct (_ =? _)%Z.
  { apply keeps_of_preserves.
    apply preserves_bind; [ apply preserves_Connection_rollback | intros _ ].
    apply preserves_raise_get_exception. }
  apply keeps_bind.
  { destruct (bool_decide _); [ apply keeps_reset | apply keeps_of_preserves, preserves_ret ]. }
  intros _. apply keeps_of_preserves.
  apply preserves_bind; [ by apply preserves_update_self | intros _ ].
  apply preserves_bind; [ apply preserves_get_self | intros c' ].
  apply preserves_bind_input_sizes, hints_insert.
Qed.

Lemma preserves_hints_Cursor_update_description : preserves hints Cursor_update_description.
Proof.
  unfold Cursor_update_description.
  apply preserves_bind; [ apply preserves_get_self | intros c ].
  apply preserves_bind; [ apply preserves_call | intros n ].
  apply preserves_bind; [ apply preserves_describe_columns | intros d ].
  by apply preserves_update_self.
Qed.

Lemma preserves_hints_set_committed b : preserves hints (set_committed b).
Proof. by intros w r w' [= <- <-]. Qed.

Lemma keeps_Cursor_executemany operation rows :
  keeps_unhinted (Cursor_executemany operation rows).
Proof.
  unfold Cursor_executemany.
  apply keeps_bind;
    [ apply keeps_of_preserves, preserves_Cursor_assert_cursor_is_open | intros _ ].
  apply keeps_bind.
  { apply keeps_of_preserves. destruct rows; [ apply preserves_raise | apply preserves_ret ]. }
  intros total. apply keeps_bind; [ apply keeps_of_preserves, preserves_get_self | intros c ].
  apply keeps_bind.
  { destruct (bool_decide _);
      [ apply keeps_Cursor_prepare_operation | apply keeps_of_preserves, preserves_ret ]. }
  intros _. apply keeps_of_preserves.
  apply preserves_bind; [ apply preserves_execute_rows, hints_insert | intros _ ].
  apply preserves_bind; [ apply preserves_hints_Cursor_update_description | intros _ ].
  apply preserves_bind; [ apply preserves_get_self | intros c' ].
  apply preserves_bind; [ apply preserves_call | intros n ].
  apply preserves_bind; [ by apply preserves_update_self | intros _ ].
  apply preserves_hints_set_committed.
Qed.

Lemma set_proc_parameters_preserves {X} (f : Connection → Cursor → X) ps :
  preserves f (set_proc_parameters ps).
Proof.
  induction ps as [ | v ps IH ]; cbn [set_proc_parameters]; [ apply preserves_ret | ].
  apply preserves_bind; [ apply preserves_lift | intros t ].
  apply preserves_bind; [ apply preserves_set_parameter | by intros _ ].
Qed.

Lemma keeps_Cursor_callproc procname ps : keeps_unhinted (Cursor_callproc procname ps).
Proof.
  unfold Cursor_callproc.
  apply keeps_bind; [ apply keeps_reset | intros _ ].
  apply keeps_of_preserves.
  apply preserves_bind; [ by apply preserves_update_self | intros _ ].
  apply preserves_bind; [ apply preserves_get_self | intros c ].
  apply preserves_bind; [ apply preserves_call | intros r ].
  destruct (_ =? _)%Z.
  { apply preserves_bind; [ apply preserves_Connection_rollback | intros _ ].
    apply preserves_raise_get_exception. }
  apply preserves_bind; [ apply set_proc_parameters_preserves | intros _ ].
  apply preserves_bind; [ apply preserves_call | intros r' ].
  destruct (_ =? _)%Z.
  { apply preserves_bind; [ apply preserves_Connection_rollback | intros _ ].
    apply preserves_raise_get_exception. }
  apply preserves_bind; [ apply preserves_hints_Cursor_update_description | intros _ ].
  apply preserves_bind; [ apply preserves_call | intros n ].
  apply preserves_bind; [ by apply preserves_update_self | intros _ ].
  apply preserves_hints_set_committed.
Qed.

Lemma keeps_Cursor_setinputsizes ctypes_names constants_names sizes :
  "DbApiTypeObject" ∉ star ctypes_names →
  "DbApiTypeObject" ∉ star constants_names →
  keeps_unhinted (Cursor_setinputsizes ctypes_names constants_names sizes).
Proof.
  intros Hct Hcn.
  pose proof (DbApiTypeObject_unbound _ _ Hct Hcn) as Hname.
  assert (∀ items, keeps_unhinted
            (Cursor_setinputsizes ctypes_names constants_names (Items items))) as Hitems.
  { intros [ | item items ]; unfold Cursor_setinputsizes.
    - cbn [check_sizes type_objects omap].
      apply keeps_bind; [ apply keeps_of_preserves, preserves_ret | intros _ ].
      apply keeps_bind; [ apply keeps_reset | intros _ ].
      apply keeps_of_preserves. by apply preserves_update_self.
    - intros w r w' Hw. cbn [check_sizes]. unfold bind, global_name.
      rewrite bool_decide_eq_false_2 by done. by intros [= <- <-]. }
  destruct sizes as [ items | items ]; [ apply Hitems | exact (Hitems items) ].
Qed.

Lemma Cursor_init_fresh w c w' :
  Cursor_init w = Some (Return c, w') → input_sizes c = [].
Proof.
  unfold Cursor_init, bind.
  destruct (get_connection_handle w) as [ [ [ h | e ] w1 ] | ]; [ | done | done ].
  rewrite run_call. destruct (_ =? _)%Z.
  - match goal with |- context [ raise_get_exception h ?w0 ] =>
      destruct (raise_get_exception_runs (A := Cursor) h w0) as (e & w3 & seg & -> & _)
    end. done.
  - by intros [= <- <-].
Qed.

(** X9. Input sizes never appear: a cursor is created with none, and when a
    cursor has none, no method gives it any, whether the method returns or
    raises: [executemany], [execute] and [callproc], [setinputsizes]
    (which either raises at its type check or is called with no item), the
    fetch methods, [nextset], [close] and [setoutputsize]. *)
Theorem input_sizes_stay_empty (ctypes_names constants_names : list string) :
  "DbApiTypeObject" ∉ star ctypes_names →
  "DbApiTypeObject" ∉ star constants_names →
  (∀ w c w', Connection_cursor w = Some (Return c, w') → input_sizes c = [])
  ∧ (∀ operation rows, keeps_unhinted (Cursor_executemany operation rows))
  ∧ (∀ operation parameters, keeps_unhinted (Cursor_execute operation parameters))
  ∧ (∀ procname parameters, keeps_unhinted (Cursor_callproc procname parameters))
  ∧ (∀ sizes, keeps_unhinted (Cursor_setinputsizes ctypes_names constants_names sizes))
  ∧ (∀ size, keeps_unhinted (Cursor_fetchmany size))
  ∧ keeps_unhinted Cursor_fetchone
  ∧ (∀ fuel, keeps_unhinted (Cursor_fetchall fuel))
  ∧ keeps_unhinted Cursor_next
  ∧ keeps_unhinted Cursor_nextset
  ∧ keeps_unhinted Cursor_close
  ∧ (∀ size column, keeps_unhinted (Cursor_setoutputsize size column)).
Proof.
  intros Hct Hcn. split_and!.
  - intros w c w'. unfold Connection_cursor, bind.
    destruct (Connection_assert_connection_is_open w) as [ [ [ [] | e ] w1 ] | ];
      [ | done | done ].
    destruct (get_connection_handle w1) as [ [ [ h | e ] w2 ] | ]; [ | done | done ].
    rewrite run_call. destruct (_ =? _)%Z.
    { intros Hrun. exfalso. revert Hrun.
      match goal with |- context [ raise_get_exception h ?w0 ] =>
        destruct (raise_get_exception_runs (A := Cursor) h w0) as (e & w3 & seg & -> & _)
      end. done. }
    apply Cursor_init_fresh.
  - apply keeps_Cursor_executemany.
  - intros operation parameters. apply keeps_Cursor_executemany.
  - apply keeps_Cursor_callproc.
  - intros sizes. by apply keeps_Cursor_setinputsizes.
  - intros size. apply keeps_of_preserves, preserves_Cursor_fetchmany.
  - apply keeps_of_preserves. unfold Cursor_fetchone. preserves_chain.
  - intros fuel. apply keeps_of_preserves. unfold Cursor_fetchall. preserves_chain.
  - apply keeps_of_preserves. unfold Cursor_next. preserves_chain.
  - apply keeps_of_preserves. unfold Cursor_nextset. preserves_chain.
  - apply keeps_of_preserves. unfold Cursor_close. preserves_chain.
  - intros size column. apply keeps_of_preserves, preserves_ret.
Qed.

(** X10. A value with no wire format (a [Decimal], or a value of an
    unsupported type) makes [executemany] raise the error of
    [get_db_api_type] part-way: over a library that grants every request,
    the operation has been prepared and is recorded as such, the rows
    before the offending one have been executed, the values before the
    offending one have been bound, and nothing else is sent: no value of
    that row is set and no rollback is issued.  The connection object, its
    committed flag included, is as it was. *)
Theorem unsupported_value_stops_midway
    (I : tstate → Prop) (operation : string)
    (sent : list row) (pre : row) (value : pyvalue) (post : row) (rest : list row)
    (w : World) :
  grants I →
  I (transport w) →
  is_open w →
  input_sizes (self w) = [] →
  Forall (Forall (λ v, is_Some (wire_format v))) sent →
  Forall (λ v, is_Some (wire_format v)) pre →
  wire_format value = None →
  let rows := sent ++ (pre ++ value :: post) :: rest in
  let h := Cursor_handle (self w) in
  let total := Z.of_nat (length (default [] (head rows))) in
  ∃ e w' seg,
    Cursor_executemany operation rows w = Some (Raise e, w')
    ∧ get_db_api_type value = Raise e
    ∧ exc_type e ∈ [ProgrammingError; DataError]
    ∧ trace w' = trace w ++ seg
    ∧ Some <$> seg.*1
      = (if bool_decide (Some operation ≠ prepared_operation (self w))
         then [Some (odbPrepare h operation)] else [])
        ++ concat (row_requests h total <$> sent)
        ++ imap (binding h total) pre
    ∧ connection w' = connection w
    ∧ prepared_operation (self w') = Some operation.
Proof.
  intros Hgrants HI [ Ho1 Ho2 ] Hsizes Hsent Hpre Hvalue rows h total.
  assert (∃ e, get_db_api_type value = Raise e
               ∧ exc_type e ∈ [ProgrammingError; DataError]) as (e & He & Hcls).
  { destruct value; try done; eexists; (split; [ vm_compute; reflexivity | ]);
      cbn; repeat constructor. }
  assert (Cursor_assert_cursor_is_open w = Some (Return (), w)) as Hassert.
  { unfold Cursor_assert_cursor_is_open, bind, get_self, get_connection. cbn.
    by rewrite Ho1, Ho2. }
  assert (∃ first others, rows = first :: others
                          ∧ total = Z.of_nat (length first)) as (first & others & Hrows & Htotal).
  { subst total rows. destruct sent; cbn; by eexists _, _. }
  unfold Cursor_executemany. unfold bind at 1. rewrite Hassert. unfold bind at 1.
  rewrite Hrows. cbn [ret]. rewrite <- Hrows, <- Htotal.
  unfold bind at 1. unfold get_self at 1. cbn [ret]. unfold bind at 1.
  destruct (prepare_unless_prepared I operation total w Hgrants HI Hsizes)
    as (w1 & seg1 & -> & HI1 & Hc1 & Hh1 & Hsz1 & Hp1 & Ht1 & Hseg1).
  unfold bind at 1. subst rows.
  destruct (execute_rows_unsupported I Hgrants total sent pre value post rest e
              w1 HI1 Hsz1 Hsent Hpre He)
    as (w2 & seg2 & Hrun2 & [ Hc2 Hs2 ] & Ht2 & Hseg2).
  match goal with |- context [ execute_rows ?l total w1 ] =>
    replace (execute_rows l total w1) with (Some (Raise (A := unit) e, w2))
  end.
  exists e, w2, (seg1 ++ seg2). split_and!.
  - done.
  - done.
  - done.
  - by rewrite Ht2, Ht1, <- app_assoc.
  - rewrite !fmap_app, Hseg1, Hseg2, Hh1. done.
  - congruence.
  - congruence.
Qed.

(** ** Reading the SQLSTATE *)

(** X11. The SQLSTATE is read by position.  When the error text, stripped,
    is one character, five characters and a [']'], none of the six being a
    line end or a [']'], the class code is the first two of the five in
    upper case and the subcode the other three in upper case, whatever the
    first character is; the exception is chosen by the two tables from
    these and carries the normalised text. *)
Theorem sqlstate_read_by_position
    (code : Z) (text rest : string) (c0 a b x y z : ascii) :
  Py.strip text
  = String c0 (String a (String b (String x (String y (String z (String "]" rest)))))) →
  Forall (λ c, c ∉ [Py.CR; Py.LF; "]"%char]) [c0; a; b; x; y; z] →
  let class := Py.upper (String a (String b "")) in
  let subclass := Py.upper (String x (String y (String z ""))) in
  error_code (odbc_text text) = class
  ∧ error_subcode (odbc_text text) = subclass
  ∧ server_exception code text
    = Exc (match (if bool_decide (class = "HY")
                  then HY_ERROR_CODES !! subclass else None) with
           | Some cls => cls
           | None => default Error (ODBC_ERROR_CODES !! class)
           end)
          (Msg (odbc_text text)).
Proof.
  intros Hstrip Hchars class subclass.
  destruct (sqlstate_position text rest c0 a b x y z Hstrip Hchars)
    as (Hparses & Hclass & Hsub).
  fold class in Hclass. fold subclass in Hsub.
  split_and!; [ done | done | ].
  rewrite server_exception_parsed by done. rewrite Hclass, Hsub.
  by destruct (if bool_decide (class = "HY") then HY_ERROR_CODES !! subclass else None),
    (ODBC_ERROR_CODES !! class).
Qed.

(** ** What [get_exception] hands back *)

Lemma table_classes (entries : list (string * exc_class)) k cls :
  Forall (λ e, is_dbapi_class e.2 = true) entries →
  Py.dict entries !! k = Some cls → is_dbapi_class cls = true.
Proof.
  intros Hall Hl. apply dict_lookup_Some in Hl.
  rewrite Forall_forall in Hall. exact (Hall _ Hl).
Qed.

Lemma server_exception_class code text :
  is_dbapi_class (exc_type (server_exception code text)) = true.
Proof.
  unfold server_exception. case_bool_decide; [ done | ].
  destruct (_ <? _)%nat; [ done | ].
  destruct (if bool_decide _ then _ else _) as [ cls | ] eqn:Hhy.
  - case_bool_decide; [ | done ]. cbn.
    eapply table_classes; [ | exact Hhy ]. by repeat constructor.
  - destruct (ODBC_ERROR_CODES !! _) as [ cls | ] eqn:Hodbc; [ | done ]. cbn.
    eapply table_classes; [ | exact Hodbc ]. by repeat constructor.
Qed.

Lemma get_exception_calls (handle : Z) (w : World) :
  ∃ res w' seg,
    get_exception handle w = Some (res, w')
    ∧ same_objects w w'
    ∧ trace w' = trace w ++ seg
    ∧ (seg.*1 = [odbGetError handle]
       ∨ seg.*1 = [odbGetError handle; odbGetErrorText handle]).
Proof.
  unfold get_exception, bind. rewrite run_call. cbn [as_int fst snd].
  case_bool_decide; [ eexists _, _, [_]; split; [ done | ]; cbn; by split_and!; try left | ].
  destruct (ODBTP_ERRORS !! _);
    [ eexists _, _, [_]; split; [ done | ]; cbn; by split_and!; try left | ].
  case_bool_decide;
    [ | eexists _, _, [_]; split; [ done | ]; cbn; by split_and!; try left ].
  rewrite run_call. cbn [as_text transport trace connection self fst snd].
  destruct (as_text _);
    (eexists _, _, [_; _]; split; [ done | ]; cbn; rewrite <- app_assoc;
     by split_and!; try right).
Qed.

(** X12. [get_exception] always answers, after asking for the error code
    and at most once for the error text, both through the handle it was
    given, and changes neither object.  What it returns is of a DB API
    class ([Warning], [Error] or a subclass); it raises only when the code
    defers to the data source and the library has no text, and then an
    [AttributeError].  On the code for no error, and on a code that is
    neither in the table nor the deferring one, it returns the generic
    [Error] for an unknown error without asking for the text. *)
Theorem get_exception_always_answers (handle : Z) (w : World) :
  ∃ res w' seg,
    get_exception handle w = Some (res, w')
    ∧ same_objects w w'
    ∧ trace w' = trace w ++ seg
    ∧ (seg.*1 = [odbGetError handle]
       ∨ seg.*1 = [odbGetError handle; odbGetErrorText handle])
    ∧ match res with
      | Return e => is_dbapi_class (exc_type e) = true
      | Raise e =>
          e = Exc AttributeError (Msg "'NoneType' object has no attribute 'strip'")
          ∧ error_code_of handle w = ODBTPERR_SERVER
          ∧ error_text_of handle w = None
      end
    ∧ (error_code_of handle w = ODBTPERR_NONE
       ∨ (ODBTP_ERRORS !! error_code_of handle w = None
          ∧ error_code_of handle w ≠ ODBTPERR_SERVER) →
       res = Return (Exc Error (Msg "Unknown error."))
       ∧ seg.*1 = [odbGetError handle]).
Proof.
  unfold get_exception, bind. rewrite run_call. cbn [as_int fst snd].
  fold (error_code_of handle w).
  case_bool_decide as Hnone.
  { eexists _, _, [_]. split; [ done | ]. cbn. split_and!; try done; by left. }
  destruct (ODBTP_ERRORS !! error_code_of handle w) as [ e | ] eqn:Htable.
  { eexists _, _, [_]. split; [ done | ]. cbn. split_and!; try done.
    - by left.
    - by destruct (ODBTP_ERRORS_values _ _ Htable) as [ _ -> ].
    - by intros [ ? | [ ? _ ] ]. }
  case_bool_decide as Hserver.
  - rewrite run_call. cbn [as_text transport trace connection self fst snd].
    fold (error_text_of handle w).
    destruct (error_text_of handle w) as [ text | ] eqn:Htext.
    + eexists _, _, [_; _]. split; [ done | ]. cbn. rewrite <- app_assoc.
      split_and!; try done.
      * by right.
      * apply server_exception_class.
      * by intros [ ? | [ _ ? ] ].
    + eexists _, _, [_; _]. split; [ done | ]. cbn. rewrite <- app_assoc.
      split_and!; try done.
      * by right.
      * by intros [ ? | [ _ ? ] ].
  - eexists _, _, [_]. split; [ done | ]. cbn. split_and!; try done. by left.
Qed.

(** ** Preparing once *)

Lemma bind_assoc {A B C} (m : M A) (k : A → M B) (k' : B → M C) w :
  bind (bind m k) k' w = bind m (λ a, bind (k a) k') w.
Proof. unfold bind. by destruct (m w) as [ [ [ a | e ] w1 ] | ]. Qed.

Lemma bind_returns {A B} (m : M A) (k : A → M B) w b w' :
  bind m k w = Some (Return b, w') →
  ∃ a w1, m w = Some (Return a, w1) ∧ k a w1 = Some (Return b, w').
Proof.
  unfold bind. destruct (m w) as [ [ [ a | e ] w1 ] | ]; [ | done | done ].
  intros Hk. by exists a, w1.
Qed.

(** The calls of the methods that run an operation, the prepare call left
    aside: every predicate on calls that holds of all calls but prepare
    calls holds of them. *)
Section Runs.
Context (p : event → bool) (Hp : ∀ e, is_prepare e = false → p e = true).

Lemma lets_error_queries_run : lets_error_queries p.
Proof. intros [ c r ] He. apply Hp. by destruct c. Qed.

Ltac run_chain :=
  repeat first
    [ solve [ eauto using lets_error_queries_run with emits ]
    | apply emits_call; solve [ intros; apply Hp; reflexivity ]
    | apply emits_bind; [ | intros ? ]
    | match goal with
      | |- emits _ (if ?b then _ else _) => destruct b
      | |- emits _ (match ?x with _ => _ end) => destruct x
      end ].

Lemma emits_Connection_rollback : emits p Connection_rollback.
Proof. unfold Connection_rollback. run_chain. Qed.

Lemma emits_bind_to_column slot t col total :
  emits p (bind_to_column slot t col total).
Proof. pose proof emits_Connection_rollback. unfold bind_to_column. run_chain. Qed.

Lemma emits_set_parameter t value : emits p (set_parameter t value).
Proof. pose proof emits_Connection_rollback. unfold set_parameter. run_chain. Qed.

Lemma emits_bind_input_sizes total items :
  ∀ index, emits p (bind_input_sizes index items total).
Proof.
  pose proof emits_bind_to_column.
  induction items as [ | t items IH ]; intros index; cbn [bind_input_sizes]; run_chain.
Qed.

Lemma emits_bind_parameters total ps :
  ∀ index, emits p (bind_parameters index ps total).
Proof.
  pose proof emits_bind_to_column.
  induction ps as [ | v ps IH ]; intros index; cbn [bind_parameters]; run_chain.
Qed.

Lemma emits_set_parameters l : emits p (set_parameters l).
Proof.
  pose proof emits_set_parameter.
  induction l as [ | [ [ t | ] v ] l IH ]; cbn [set_parameters]; run_chain.
Qed.

Lemma emits_execute_rows total rows : emits p (execute_rows rows total).
Proof.
  pose proof emits_Connection_rollback. pose proof emits_bind_parameters.
  pose proof emits_set_parameters.
  induction rows as [ | ps rows IH ]; cbn [execute_rows]; run_chain.
Qed.

Lemma emits_describe_columns handle n :
  ∀ column, emits p (describe_columns handle column n).
Proof.
  induction n as [ | n IH ]; intros column; cbn [describe_columns];
    unfold get_odb_type; run_chain.
Qed.

Lemma emits_Cursor_update_description : emits p Cursor_update_description.
Proof.
  pose proof emits_describe_columns. unfold Cursor_update_description. run_chain.
Qed.

(** [executemany] from the loop over the rows on. *)
Lemma emits_after_prepare rows total :
  emits p
    (bind (execute_rows rows total) (λ _,
       bind Cursor_update_description (λ _,
         bind get_self (λ c,
           bind (call (odbGetRowCount (Cursor_handle c))) (λ n,
             bind (update_self (with_rowcount (as_int n))) (λ _,
               set_committed false)))))).
Proof.
  pose proof emits_execute_rows. pose proof emits_Cursor_update_description.
  run_chain.
Qed.

(** [executemany] from the answer to the prepare call on. *)
Lemma emits_after_prepare_call operation total c r rows :
  emits p
    (bind (if (as_int r =? 0)%Z
           then bind Connection_rollback (λ _, raise_get_exception (Cursor_handle c))
           else bind (if bool_decide (prepared_operation c ≠ None)
                      then update_self (with_input_sizes []) else ret ()) (λ _,
                  bind (update_self (with_prepared_operation (Some operation))) (λ _,
                    bind get_self (λ c, bind_input_sizes 0 (input_sizes c) total))))
          (λ _,
             bind (execute_rows rows total) (λ _,
               bind Cursor_update_description (λ _,
                 bind get_self (λ c,
                   bind (call (odbGetRowCount (Cursor_handle c))) (λ n,
                     bind (update_self (with_rowcount (as_int n))) (λ _,
                       set_committed false))))))).
Proof.
  pose proof emits_Connection_rollback. pose proof emits_bind_input_sizes.
  apply emits_bind; [ | intros _; apply emits_after_prepare ].
  run_chain.
Qed.

End Runs.

(** The view [executemany] leaves alone once the operation is prepared. *)
Lemma preserves_operation_after_prepare rows total :
  preserves (λ _ c, prepared_operation c)
    (bind (execute_rows rows total) (λ _,
       bind Cursor_update_description (λ _,
         bind get_self (λ c,
           bind (call (odbGetRowCount (Cursor_handle c))) (λ n,
             bind (update_self (with_rowcount (as_int n))) (λ _,
               set_committed false)))))).
Proof.
  apply preserves_bind; [ by apply preserves_execute_rows | intros _ ].
  apply preserves_bind.
  { unfold Cursor_update_description.
    apply preserves_bind; [ apply preserves_get_self | intros c ].
    apply preserves_bind; [ apply preserves_call | intros n ].
    apply preserves_bind; [ apply preserves_describe_columns | intros d ].
    by apply preserves_update_self. }
  intros _. apply preserves_bind; [ apply preserves_get_self | intros c ].
  apply preserves_bind; [ apply preserves_call | intros n ].
  apply preserves_bind; [ by apply preserves_update_self | intros _ ].
  by intros w r w' [= <- <-].
Qed.

Lemma Cursor_prepare_operation_records operation total w w' :
  Cursor_prepare_operation operation total w = Some (Return (), w') →
  prepared_operation (self w') = Some operation.
Proof.
  unfold Cursor_prepare_operation. intros Hrun.
  apply bind_returns in Hrun as (c & w1 & [= <- <-] & Hrun).
  apply bind_returns in Hrun as (r & w1 & _ & Hrun).
  destruct (_ =? _)%Z.
  { apply bind_returns in Hrun as (? & w2 & _ & Hrun).
    destruct (raise_get_exception_runs (A := unit) (Cursor_handle (self w)) w2)
      as (e & w3 & seg & Hr & _). by rewrite Hr in Hrun. }
  apply bind_returns in Hrun as ([] & w2 & _ & Hrun).
  apply bind_returns in Hrun as ([] & w3 & [= <-] & Hrun).
  apply bind_returns in Hrun as (c & w4 & [= <- <-] & Hrun).
  pose proof (preserves_bind_input_sizes (λ _ c, prepared_operation c)
                (λ _ _ _ _, eq_refl) total _ 0 _ _ _ Hrun) as Hkeep.
  by rewrite Hkeep.
Qed.

Lemma Cursor_executemany_records operation rows w w' :
  Cursor_executemany operation rows w = Some (Return (), w') →
  prepared_operation (self w') = Some operation.
Proof.
  unfold Cursor_executemany. intros Hrun.
  apply bind_returns in Hrun as ([] & w1 & _ & Hrun).
  apply bind_returns in Hrun as (total & w2 & _ & Hrun).
  apply bind_returns in Hrun as (c & w3 & [= <- <-] & Hrun).
  apply bind_returns in Hrun as ([] & w4 & Hprep & Hrun).
  rewrite (preserves_operation_after_prepare rows total _ _ _ Hrun).
  case_bool_decide as Hop.
  - by eapply Cursor_prepare_operation_records.
  - by injection Hprep as <-.
Qed.

(** X13. An operation is prepared once: after an [executemany] (or
    [execute]) that returned, a further [executemany] of the same operation
    text on that cursor makes no prepare call, whatever the rows and whether
    it returns or raises. *)
Theorem same_operation_prepared_once
    (operation : string) (rows rows' : list row) (w w1 w2 : World) (r : outcome unit) :
  Cursor_executemany operation rows w = Some (Return (), w1) →
  Cursor_executemany operation rows' w1 = Some (r, w2) →
  prepared_operation (self w1) = Some operation
  ∧ ∃ seg, trace w2 = trace w1 ++ seg ∧ Forall (λ e, is_prepare e = false) seg.
Proof.
  intros Hfirst Hsecond.
  pose proof (Cursor_executemany_records _ _ _ _ Hfirst) as Hop.
  split; [ done | ].
  assert (∀ e, is_prepare e = false → is_not_prepare e = true) as Hp.
  { intros e He. unfold is_not_prepare. by rewrite He. }
  revert Hsecond. unfold Cursor_executemany. unfold bind at 1.
  destruct (Cursor_assert_cursor_is_open w1) as [ [ [ [] | e ] w3 ] | ] eqn:Hassert;
    [ | | done ].
  2: { intros [= <- <-]. destruct (emits_Cursor_assert_cursor_is_open is_not_prepare
                                    _ _ _ Hassert) as (seg & Ht & Hseg).
       exists seg. split; [ done | ]. eapply Forall_impl; [ exact Hseg | ].
       intros ev Hev. unfold is_not_prepare in Hev. by destruct (is_prepare ev). }
  assert (w3 = w1) as ->.
  { revert Hassert. unfold Cursor_assert_cursor_is_open, bind, get_self, get_connection.
    cbn. destruct (_ || _); by intros [= <-]. }
  unfold bind at 1. destruct rows' as [ | ps rows' ].
  { intros [= <- <-]. exists []. by rewrite app_nil_r. }
  cbn [ret]. unfold bind at 1. unfold get_self at 1. cbn [ret]. rewrite Hop.
  rewrite bool_decide_eq_false_2 by (by intros ?). unfold bind at 1. cbn [ret].
  intros Hsecond.
  destruct (emits_after_prepare is_not_prepare Hp _ _ _ _ _ Hsecond) as (seg & Ht & Hseg).
  exists seg. split; [ done | ]. eapply Forall_impl; [ exact Hseg | ].
  intros ev Hev. unfold is_not_prepare in Hev. by destruct (is_prepare ev).
Qed.

(** ** The size tables *)

Lemma get_sizes_from (sizeof : ctypes.data_type → Z) data_types :
  ∀ (size_dict : gmap Z ctypes.data_type) (size : Z),
    foldl (λ size_dict data_type,
             let size := sizeof data_type in
             if bool_decide (is_Some (size_dict !! size)) then size_dict
             else <[size := data_type]> size_dict)
          size_dict data_types !! size
    = match size_dict !! size with
      | Some t => Some t
      | None => head (filter (λ t, sizeof t = size) data_types)
      end.
Proof.
  induction data_types as [ | t data_types IH ]; intros size_dict size; cbn [foldl].
  - by destruct (size_dict !! size).
  - rewrite IH, filter_cons. case_bool_decide as Hin.
    + destruct (size_dict !! size) as [ t' | ] eqn:Hsize; [ done | ].
      rewrite decide_False; [ done | ]. intros Heq. rewrite Heq, Hsize in Hin.
      by destruct Hin.
    + destruct (decide (sizeof t = size)) as [ <- | Hne ].
      * rewrite lookup_insert_eq. apply eq_None_not_Some in Hin. by rewrite Hin.
      * by rewrite lookup_insert_ne.
Qed.

(** X14. [_get_sizes] maps a size to the first of the given types that has
    it: a lookup by the size of a given type always succeeds and yields a
    type of that size, the type itself unless an earlier one has the same
    size; a size no given type has is no key. *)
Theorem get_sizes_first_wins
    (sizeof : ctypes.data_type → Z) (data_types : list ctypes.data_type) :
  (∀ size, get_sizes sizeof data_types !! size
           = head (filter (λ t, sizeof t = size) data_types))
  ∧ (∀ t, t ∈ data_types →
          ∃ t', get_sizes sizeof data_types !! sizeof t = Some t'
                ∧ sizeof t' = sizeof t ∧ t' ∈ data_types)
  ∧ (∀ size, get_sizes sizeof data_types !! size = None
             ↔ Forall (λ t, sizeof t ≠ size) data_types).
Proof.
  assert (∀ size, get_sizes sizeof data_types !! size
                  = head (filter (λ t, sizeof t = size) data_types)) as Hfirst.
  { intros size. unfold get_sizes. by rewrite get_sizes_from, lookup_empty. }
  split_and!.
  - done.
  - intros t Hin. rewrite Hfirst.
    destruct (filter (λ t', sizeof t' = sizeof t) data_types) as [ | t' l ] eqn:Hf.
    + assert (t ∈ filter (λ t', sizeof t' = sizeof t) data_types) as Hin'
        by by apply list_elem_of_filter.
      rewrite Hf in Hin'. by apply elem_of_nil in Hin'.
    + assert (t' ∈ filter (λ t', sizeof t' = sizeof t) data_types) as Hin'
        by (rewrite Hf; constructor).
      apply list_elem_of_filter in Hin' as [ Hsize Hin' ]. by exists t'.
  - intros size. rewrite Hfirst, Forall_forall. split.
    + intros Hnone t Hin Hsize.
      assert (t ∈ filter (λ t', sizeof t' = size) data_types) as Hin'
        by by apply list_elem_of_filter.
      destruct (filter _ data_types); [ by apply elem_of_nil in Hin' | done ].
    + intros Hall.
      destruct (filter (λ t', sizeof t' = size) data_types) as [ | t l ] eqn:Hf; [ done | ].
      assert (t ∈ filter (λ t', sizeof t' = size) data_types) as Hin'
        by (rewrite Hf; constructor).
      apply list_elem_of_filter in Hin' as [ Hsize Hin' ]. by destruct (Hall t Hin').
Qed.

(** ** After a stored procedure *)

Section CursorViews.
Context {X : Type} (f : Connection → Cursor → X).
Context (Hdescription : ∀ conn c d, f conn (with_description d c) = f conn c).
Context (Hrowcount : ∀ conn c n, f conn (with_rowcount n c) = f conn c).
Context (Hcommitted : ∀ conn c b,
           f {| Connection_open := Connection_open conn;
                Connection_handle := Connection_handle conn;
                committed := b |} c = f conn c).

Lemma preserves_Cursor_update_description : preserves f Cursor_update_description.
Proof.
  unfold Cursor_update_description.
  apply preserves_bind; [ apply preserves_get_self | intros c ].
  apply preserves_bind; [ apply preserves_call | intros n ].
  apply preserves_bind; [ apply preserves_describe_columns | intros d ].
  apply preserves_update_self. intros conn c'. apply Hdescription.
Qed.

Lemma preserves_set_committed b : preserves f (set_committed b).
Proof. intros w r w' [= <- <-]. cbn. apply Hcommitted. Qed.

(** [callproc] once the input sizes and the prepared operation are reset. *)
Lemma preserves_callproc_run procname ps c :
  preserves f
    (bind (call (odbPrepareProc procname)) (λ r,
       if (as_int r =? 0)%Z then
         bind Connection_rollback (λ _, raise_get_exception (Cursor_handle c))
       else
         bind (set_proc_parameters ps) (λ _,
           bind (call (odbExecute (Cursor_handle c))) (λ r,
             if (as_int r =? 0)%Z then
               bind Connection_rollback (λ _, raise_get_exception (Cursor_handle c))
             else
               bind Cursor_update_description (λ _,
                 bind (call (odbGetRowCount (Cursor_handle c))) (λ n,
                   bind (update_self (with_rowcount (as_int n))) (λ _,
                     set_committed false))))))).
Proof.
  apply preserves_bind; [ apply preserves_call | intros r ].
  destruct (_ =? _)%Z.
  { apply preserves_bind; [ apply preserves_Connection_rollback | intros _ ].
    apply preserves_raise_get_exception. }
  apply preserves_bind; [ apply set_proc_parameters_preserves | intros _ ].
  apply preserves_bind; [ apply preserves_call | intros r' ].
  destruct (_ =? _)%Z.
  { apply preserves_bind; [ apply preserves_Connection_rollback | intros _ ].
    apply preserves_raise_get_exception. }
  apply preserves_bind; [ apply preserves_Cursor_update_description | intros _ ].
  apply preserves_bind; [ apply preserves_call | intros n ].
  apply preserves_bind.
  { apply preserves_update_self. intros conn c'. apply Hrowcount. }
  intros _. apply preserves_set_committed.
Qed.

End CursorViews.

Lemma Cursor_callproc_resets procname ps w r w1 :
  Cursor_callproc procname ps w = Some (r, w1) →
  prepared_operation (self w1) = None
  ∧ input_sizes (self w1) = []
  ∧ Cursor_handle (self w1) = Cursor_handle (self w)
  ∧ Cursor_open (self w1) = Cursor_open (self w).
Proof.
  unfold Cursor_callproc. unfold bind at 1. unfold update_self at 1.
  unfold bind at 1. unfold get_self at 1, set_self at 1. cbn [ret].
  unfold bind at 1. unfold update_self at 1.
  unfold bind at 1. unfold get_self at 1, set_self at 1. cbn [ret self].
  unfold bind at 1. unfold get_self at 1. cbn [ret self]. intros Hrun.
  pose proof (preserves_callproc_run
                (λ _ c, (prepared_operation c, input_sizes c, Cursor_handle c, Cursor_open c))
                (λ _ _ _, eq_refl) (λ _ _ _, eq_refl) (λ _ _ _, eq_refl)
                _ _ _ _ _ _ Hrun) as Hkeep.
  cbn in Hkeep. by injection Hkeep as -> -> -> ->.
Qed.

(** X15. [callproc] forgets the prepared operation, whether it returns or
    raises: the cursor is left with no prepared operation and no input
    sizes, so the next [executemany] on the open cursor starts by preparing
    its operation, even the one that was prepared before the procedure was
    called. *)
Theorem callproc_forgets_prepared_operation
    (procname operation : string) (parameters : row) (rows : list row)
    (w w1 w2 : World) (r r' : outcome unit) :
  Cursor_callproc procname parameters w = Some (r, w1) →
  is_open w1 →
  rows ≠ [] →
  Cursor_executemany operation rows w1 = Some (r', w2) →
  prepared_operation (self w1) = None
  ∧ input_sizes (self w1) = []
  ∧ ∃ reply seg,
      trace w2
      = trace w1 ++ (odbPrepare (Cursor_handle (self w)) operation, reply) :: seg.
Proof.
  intros Hproc [ Ho1 Ho2 ] Hrows.
  destruct (Cursor_callproc_resets _ _ _ _ _ Hproc) as (Hop & Hsizes & Hh & _).
  unfold Cursor_executemany. unfold bind at 1.
  assert (Cursor_assert_cursor_is_open w1 = Some (Return (), w1)) as ->.
  { unfold Cursor_assert_cursor_is_open, bind, get_self, get_connection. cbn.
    by rewrite Ho1, Ho2. }
  destruct rows as [ | ps rows ]; [ done | ].
  unfold bind at 1. cbn [ret]. unfold bind at 1. unfold get_self at 1. cbn [ret].
  rewrite Hop. rewrite bool_decide_eq_true_2 by done.
  unfold Cursor_prepare_operation. rewrite bind_assoc.
  unfold bind at 1. unfold get_self at 1. cbn [ret]. rewrite bind_assoc.
  unfold bind at 1. rewrite run_call. intros Hrun.
  split_and!; [ done | done | ].
  destruct (emits_after_prepare_call (λ _, true) (λ _ _, eq_refl) _ _ _ _ _ _ _ _ Hrun)
    as (seg & Ht & _).
  eexists _, seg. rewrite Ht. cbn [trace]. by rewrite <- app_assoc, Hh.
Qed.

(** ** The description after a run *)

Lemma describe_columns_answers handle : ∀ n column w,
  ∃ answers w',
    describe_columns handle column n w = Some (Return (column_entry <$> answers), w')
    ∧ same_objects w w' ∧ length answers = n
    ∧ trace w' = trace w
        ++ concat (imap (λ i, column_calls handle (column + Z.of_nat i)) answers).
Proof.
  induction n as [ | n IH ]; intros column w; cbn [describe_columns].
  - exists [], w. cbn. rewrite app_nil_r. by split_and!.
  - unfold bind, get_odb_type. rewrite !run_call. cbn [ret]. unfold bind. rewrite !run_call.
    cbn [transport trace connection self fst snd ret].
    match goal with |- context [ describe_columns handle ?c n ?w1 ] =>
      destruct (IH c w1) as (answers & w' & -> & [ Hc Hs ] & Hlen & Ht)
    end.
    match goal with |- context [ (as_text ?a, resolve_odb_type (as_int ?b) (as_int ?c)) ] =>
      exists ((a, b, c) :: answers), w'
    end.
    split; [ done | ]. cbn in *. split_and!.
    + by split.
    + by rewrite Hlen.
    + rewrite Ht, <- !app_assoc. cbn. rewrite Z.add_0_r. do 5 f_equal.
      apply imap_ext. intros i x _. cbn. f_equal; lia.
Qed.

Lemma preserves_handle_Cursor_prepare_operation operation total :
  preserves (λ _ c, Cursor_handle c) (Cursor_prepare_operation operation total).
Proof.
  unfold Cursor_prepare_operation.
  apply preserves_bind; [ apply preserves_get_self | intros c ].
  apply preserves_bind; [ apply preserves_call | intros r ].
  destruct (_ =? _)%Z.
  { apply preserves_bind; [ apply preserves_Connection_rollback | intros _ ].
    apply preserves_raise_get_exception. }
  apply preserves_bind.
  { destruct (bool_decide _); [ by apply preserves_update_self | apply preserves_ret ]. }
  intros _. apply preserves_bind; [ by apply preserves_update_self | intros _ ].
  apply preserves_bind; [ apply preserves_get_self | intros c' ].
  by apply preserves_bind_input_sizes.
Qed.

(** X16. When [executemany] (or [execute]) returns, the last calls it made
    are: the column count, then for each column from 1 to the count its
    name, SQL type and data type, then the row count.  The description is
    a list of one entry per column (the empty list, not [None], for a count
    of zero or less), each made of the name answered and the type code
    resolved from the two types answered; [rowcount] is the count answered;
    and the connection is marked uncommitted. *)
Theorem executemany_describes_the_result
    (operation : string) (rows : list row) (w w' : World) :
  Cursor_executemany operation rows w = Some (Return (), w') →
  let h := Cursor_handle (self w) in
  ∃ before columns answers count,
    trace w'
    = before ++ (odbGetTotalCols h, columns)
        :: concat (imap (λ i, column_calls h (1 + Z.of_nat i)) answers)
        ++ [(odbGetRowCount h, count)]
    ∧ length answers = Z.to_nat (as_int columns)
    ∧ description (self w') = Some (column_entry <$> answers)
    ∧ rowcount (self w') = as_int count
    ∧ committed (connection w') = false.
Proof.
  intros Hrun h. unfold Cursor_executemany in Hrun.
  apply bind_returns in Hrun as ([] & w1 & Hassert & Hrun).
  assert (w1 = w) as ->.
  { revert Hassert. unfold Cursor_assert_cursor_is_open, bind, get_self, get_connection.
    cbn. destruct (_ || _); by intros [= <-]. }
  apply bind_returns in Hrun as (total & w1 & Htotal & Hrun).
  assert (w1 = w) as ->.
  { destruct rows; [ done | ]. by injection Htotal. }
  apply bind_returns in Hrun as (c & w1 & [= <- <-] & Hrun).
  apply bind_returns in Hrun as ([] & w1 & Hprepare & Hrun).
  assert (Cursor_handle (self w1) = h) as Hh1.
  { destruct (bool_decide _).
    - exact (preserves_handle_Cursor_prepare_operation _ _ _ _ _ Hprepare).
    - by injection Hprepare as <-. }
  apply bind_returns in Hrun as ([] & w2 & Hexecute & Hrun).
  assert (Cursor_handle (self w2) = h) as Hh2.
  { rewrite <- Hh1.
    exact (preserves_execute_rows (λ _ c, Cursor_handle c) (λ _ _ _ _, eq_refl)
             _ _ _ _ _ Hexecute). }
  revert Hrun. unfold Cursor_update_description. unfold bind at 1 2.
  unfold get_self at 1. cbn [ret]. unfold bind at 1. rewrite run_call.
  cbn [fst snd as_int]. rewrite Hh2. unfold bind at 1.
  match goal with |- context [ describe_columns h 1 ?n ?w3 ] =>
    destruct (describe_columns_answers h n 1 w3)
      as (answers & w4 & -> & [ Hc4 Hs4 ] & Hlen & Ht4)
  end.
  unfold update_self, set_committed, bind, get_self, set_self, get_connection,
    set_connection. cbn [ret]. rewrite run_call. cbn in *. rewrite Hs4, Hh2.
  intros [= <-]. cbn.
  eexists (trace w2), _, answers, _. split_and!; try done.
  rewrite Ht4, <- !app_assoc. done.
Qed.

(** ** A refused parameter *)

Lemma raise_get_exception_calls {A} handle w :
  ∃ e w' seg,
    raise_get_exception (A := A) handle w = Some (Raise e, w')
    ∧ same_objects w w'
    ∧ trace w' = trace w ++ seg
    ∧ (seg.*1 = [odbGetError handle]
       ∨ seg.*1 = [odbGetError handle; odbGetErrorText handle]).
Proof.
  destruct (get_exception_calls handle w)
    as (res & w' & seg & Hrun & Hs & Ht & Hseg).
  unfold raise_get_exception, bind. rewrite Hrun.
  destruct res as [ e | e ]; by exists e, w', seg.
Qed.

(** [self.connection.rollback()] followed by
    [raise get_exception(self.connection.handle)]. *)
Lemma rollback_then_raise {A} ch w :
  Connection_open (connection w) = true →
  Connection_handle (connection w) = Some ch →
  ∃ e w' r0 seg,
    bind Connection_rollback
      (λ _, bind get_connection_handle (λ h, raise_get_exception (A := A) h)) w
    = Some (Raise e, w')
    ∧ same_objects w w'
    ∧ trace w' = trace w ++ (odbRollback ch, r0) :: seg
    ∧ (seg.*1 = [odbGetError ch] ∨ seg.*1 = [odbGetError ch; odbGetErrorText ch]).
Proof.
  intros Ho Hh.
  unfold Connection_rollback, Connection_assert_connection_is_open,
    get_connection_handle, bind, get_connection.
  cbn. rewrite Ho. cbn. rewrite Hh. cbn. rewrite run_call. cbn [as_int].
  destruct (_ =? 0)%Z.
  - match goal with |- context [ raise_get_exception ch ?w1 ] =>
      destruct (raise_get_exception_calls (A := unit) ch w1)
        as (e & w' & seg & -> & [ Hc Hs ] & Ht & Hseg)
    end.
    exists e, w'. eexists _, seg. cbn in *. split_and!; try done.
    by rewrite Ht, <- app_assoc.
  - cbn. rewrite Hh. cbn.
    match goal with |- context [ raise_get_exception ch ?w1 ] =>
      destruct (raise_get_exception_calls (A := A) ch w1)
        as (e & w' & seg & -> & [ Hc Hs ] & Ht & Hseg)
    end.
    exists e, w'. eexists _, seg. cbn in *. split_and!; try done.
    by rewrite Ht, <- app_assoc.
Qed.

(** X17. A refused parameter.  On an open connection, when the library
    refuses the request that binds a parameter, or the request that sets
    the value of a bound one (the null setter for [None]; otherwise the
    object's setter on what its [convert_to_c] returns for the value), the
    method makes exactly one rollback call, right after the refused
    request, then reads the error through the connection's handle (not the
    cursor's) and raises; the connection object, its committed flag
    included, is left as it was. *)
Theorem refused_parameter_rolls_back (ch : Z) (w : World) :
  Connection_open (connection w) = true →
  Connection_handle (connection w) = Some ch →
  let refused (A : Type) (m : M A) (request : odb_call) :=
    ∃ e w' r r0 seg,
      m w = Some (Raise e, w')
      ∧ as_int r = 0
      ∧ trace w' = trace w ++ (request, r) :: (odbRollback ch, r0) :: seg
      ∧ (seg.*1 = [odbGetError ch] ∨ seg.*1 = [odbGetError ch; odbGetErrorText ch])
      ∧ connection w' = connection w in
  (∀ slot t col total,
     let request :=
       odbBindParamEx (Cursor_handle (self w)) col ODB_PARAM_INOUT (odb_type t) (size t)
         (sql_type t) (max_size t) (precision t) (bool_decide (col = total)) in
     as_int (odb (transport w) request).1 = 0 →
     refused TypeObject (bind_to_column slot t col total) request)
  ∧ (∀ t value request,
       bound t ≠ 0 →
       cursor t = true →
       (value = PyNone
        ∧ request = odbSetParamNull (Cursor_handle (self w)) (col_number t) (final t))
       ∨ (value ≠ PyNone
          ∧ ∃ f set v,
              convert_to_c t = Some f
              ∧ odb_set_func t = Some set
              ∧ convert f value = Return v
              ∧ request
                = odbSetParam set (Cursor_handle (self w)) (col_number t) v (final t)) →
       as_int (odb (transport w) request).1 = 0 →
       refused unit (set_parameter t value) request).
Proof.
  intros Ho Hh refused. split.
  - intros slot t col total request Hzero. unfold refused.
    unfold bind_to_column. unfold bind at 1. unfold get_self at 1. cbn [ret].
    unfold bind at 1. rewrite run_call. fold request. cbn [as_int fst snd].
    rewrite Hzero. cbn [Z.eqb]. unfold bind at 1.
    match goal with |- context [ store slot ?t' ?w1 ] =>
      assert (∃ w2, store slot t' w1 = Some (Return (), w2)
                    ∧ connection w2 = connection w ∧ trace w2 = trace w1
                    ∧ transport w2 = transport w1) as (w2 & -> & Hc2 & Ht2 & _)
    end.
    { destruct slot; cbn; by eexists. }
    destruct (rollback_then_raise (A := TypeObject) ch w2)
      as (e & w' & r0 & seg & -> & [ Hc Hs ] & Ht & Hseg); [ congruence | congruence | ].
    exists e, w', (odb (transport w) request).1, r0, seg.
    split_and!; [ done | done | | done | congruence ].
    rewrite Ht, Ht2. cbn. by rewrite <- app_assoc.
  - intros t value request Hb Hcur Hreq Hzero. unfold refused.
    assert (set_request (Cursor_handle (self w)) t value = Some request) as Hrequest.
    { unfold set_request. apply Z.eqb_neq in Hb. rewrite Hb, Hcur. cbn [negb].
      destruct Hreq as [ [ -> -> ] | (Hv & f & set & v & Hf & Hs & Hcv & ->) ]; [ done | ].
      rewrite Hf, Hs, Hcv. by destruct value. }
    revert Hrequest. unfold set_request, set_parameter.
    destruct (bound t =? 0)%Z; [ done | ]. destruct (cursor t); [ | done ]. cbn [negb].
    unfold bind at 1 2 3. unfold get_self, ret. cbn -[call].
    assert (∀ c, Some c = Some request →
            ∃ e w' r r0 seg,
              bind (call c) (λ ret_val,
                if (as_int ret_val =? 0)%Z
                then bind Connection_rollback (λ _,
                       bind get_connection_handle (λ h, raise_get_exception h))
                else ret ()) w = Some (Raise e, w')
              ∧ as_int r = 0
              ∧ trace w' = trace w ++ (request, r) :: (odbRollback ch, r0) :: seg
              ∧ (seg.*1 = [odbGetError ch]
                 ∨ seg.*1 = [odbGetError ch; odbGetErrorText ch])
              ∧ connection w' = connection w) as Hsend.
    { intros c [= ->]. unfold bind at 1. rewrite run_call. cbn [as_int fst snd].
      rewrite Hzero. cbn [Z.eqb].
      match goal with |- context [ bind Connection_rollback _ ?w1 ] =>
        destruct (rollback_then_raise (A := unit) ch w1)
          as (e & w' & r0 & seg & -> & [ Hc Hs ] & Ht & Hseg); [ done | done | ]
      end.
      exists e, w', (odb (transport w) request).1, r0, seg.
      split_and!; [ done | done | | done | done ].
      rewrite Ht. cbn. by rewrite <- app_assoc. }
    destruct value; try (intros Hc; by apply Hsend);
      (destruct (convert_to_c t) as [ f | ]; [ | done ];
       destruct (odb_set_func t) as [ set | ]; [ | done ];
       match goal with |- context [ convert f ?v ] => destruct (convert f v) eqn:Hv end;
       [ | done ]; intros Hc; unfold bind at 2; cbn [lift ret]; by apply Hsend).
Qed.

End Properties.

(** * Instances of the statements *)




(** A statement is prepared, its execution fails, the rollback succeeds. *)
Lemma failed_run_rolls_back_once_witness :
  rolled_back_once 1
    [(odbPrepare 2 "DELETE FROM t", int_reply 1); (odbExecute 2, int_reply 0);
     (odbRollback 1, int_reply 1); (odbGetError 2, int_reply 6)].
Proof.
  destruct (failed_run_rolls_back_once (consts := odbtp_h) (lib := scripted) 1
              (fresh [int_reply 1; int_reply 0; int_reply 1; int_reply 6])
              (Cursor_execute (consts := odbtp_h) "DELETE FROM t" []))
    as (r & w' & seg & Hrun & Hseg & Hrolled).
  - reflexivity.
  - reflexivity.
  - constructor.
  - vm_compute in Hrun. injection Hrun as <- <-.
    unfold calls_between in Hseg. cbn in Hseg. subst seg.
    apply Hrolled. apply Exists_cons_tl, Exists_cons_hd. reflexivity.
Defined.

(** C7 as stated fails: after a successful commit, a failed execute leaves
    [committed] true; the rollback it triggers does not reset the flag. *)
Lemma committed_survives_failed_execute :
  match
    bind (Connection_commit (consts := odbtp_h) (lib := scripted))
      (λ _, Cursor_execute (consts := odbtp_h) "DELETE FROM t" [])
      (fresh commit_then_failed_execute)
  with
  | Some (Raise e, w') =>
      e = Exc InterfaceError (Msg "Connection timed out.")
      ∧ committed (connection w') = true
      ∧ filter (λ e, is_rollback e = true) (trace w') = [(odbRollback 1, int_reply 1)]
  | _ => False
  end.
Proof. vm_compute. done. Qed.

(** A cursor closed by [Cursor.close] refuses [fetchone]. *)
Lemma closed_cursor_refuses_witness :
  Cursor_fetchone (consts := odbtp_h) (lib := scripted) after_close = refused after_close.
Proof.
  destruct (closed_cursor_refuses (consts := odbtp_h) (lib := scripted) after_close)
    as [ Hrefuses _ ].
  destruct Hrefuses as (_ & _ & _ & Hfetchone & _).
  - intros [ Hopen _ ]. discriminate Hopen.
  - exact Hfetchone.
Defined.

(** C6 as stated fails: [setoutputsize] on a closed cursor returns, without
    an error of any kind. *)
Lemma setoutputsize_after_close_returns :
  Cursor_close (consts := odbtp_h) (lib := scripted) (fresh []) = Some (Return (), after_close)
  ∧ Cursor_open (self after_close) = false
  ∧ Cursor_setoutputsize (lib := scripted) (PyInt 4096) PyNone after_close
    = Some (Return (), after_close).
Proof. by vm_compute. Qed.

(** Three rows, the second holding a null, fetched by one batch of
    [fetchall]. *)
Lemma table_server_serves : serves_rows (lib := table_server) 2 [(None, 0)] table_holds.
Proof.
  split.
  - intros t Hholds. unfold table_holds in Hholds.
    symmetry in Hholds. apply fmap_nil_inv in Hholds as ->. by cbn.
  - intros t r rows Hholds. unfold table_holds in Hholds.
    destruct t as [ | address t ]; [ done | ]. injection Hholds as -> ->.
    cbn. split_and!; [ done | done | ].
    exists t. split; [ | done ].
    eapply (serves_column (lib := table_server)); cbn.
    + done.
    + by case_bool_decide.
    + constructor.
Qed.

Lemma fetch_in_batches_witness :
  ∃ w', Cursor_fetchall (consts := odbtp_h) (lib := table_server) 1 (queried [7; 0; 9])
        = Some (Return [[PyInt 7]; [PyNone]; [PyInt 9]], w')
        ∧ table_holds (transport w') []
        ∧ same_objects (queried [7; 0; 9]) w'.
Proof.
  destruct (fetch_in_batches (consts := odbtp_h) (lib := table_server) (queried [7; 0; 9]))
    as [ _ Hserved ].
  destruct (Hserved 2 [(None, 0)] table_holds (table_row <$> [7; 0; 9]) table_server_serves)
    as (_ & Hall & _).
  - repeat split.
  - reflexivity.
  - apply (Hall 1%nat). vm_compute. lia.
Defined.

(** A procedure is prepared and called with one integer. *)
Lemma callproc_refuses_its_parameters_witness :
  ∃ e w',
    Cursor_callproc (consts := odbtp_h) (lib := scripted) "sp_total" [PyInt 5]
      (fresh [int_reply 1])
    = Some (Raise e, w')
    ∧ calls_between (fresh [int_reply 1]) w' [(odbPrepareProc "sp_total", int_reply 1)]
    ∧ (∀ t, get_db_api_type (consts := odbtp_h) (PyInt 5) = Return t →
            e = Exc InterfaceError (Msg "You must bind a parameter before setting.")).
Proof.
  apply (callproc_refuses_its_parameters (consts := odbtp_h) (lib := scripted)
           "sp_total" (PyInt 5) [] (fresh [int_reply 1])).
  vm_compute. discriminate.
Defined.

(** A size hint that is a type object, as the docstring asks for. *)
Lemma setinputsizes_raises_NameError_witness :
  Cursor_setinputsizes (lib := scripted) ctypes_used constants_used
    (Items [SizeType (STRING (consts := odbtp_h) 25)]) (fresh [])
  = Some (Raise (Exc NameError (Msg "global name 'DbApiTypeObject' is not defined")),
          fresh []).
Proof.
  apply (setinputsizes_raises_NameError (lib := scripted) ctypes_used constants_used).
  - apply (bool_decide_unpack _). by vm_compute.
  - apply (bool_decide_unpack _). by vm_compute.
Defined.

(** The library hands out handles 11 and 12. *)
Lemma Connection_cursor_allocates_twice_witness :
  Connection_cursor (consts := odbtp_h) (lib := scripted) (fresh [int_reply 11; int_reply 12])
  = Some (Return (new_cursor 12),
          @Build_World scripted []
            [(odbAllocate (Some 1), int_reply 11); (odbAllocate (Some 1), int_reply 12)]
            (new_connection 1) (new_cursor 2)).
Proof.
  refine (proj1 (Connection_cursor_allocates_twice (consts := odbtp_h) (lib := scripted)
                   1 (fresh [int_reply 11; int_reply 12]) eq_refl eq_refl _) _);
    vm_compute; discriminate.
Defined.

(** A column the data source calls a date (91) and the wire calls
    character data resolves to the date type. *)
Lemma get_odb_type_rules_witness :
  result_of (get_odb_type (consts := odbtp_h) (lib := scripted) 2 1)
    (fresh [int_reply 91; int_reply 1])
  = Some (Return 9).
Proof.
  destruct (get_odb_type_rules (consts := odbtp_h) (lib := scripted) 2 1
              (fresh [int_reply 91; int_reply 1]))
    as (resolved & Hresult & _ & Hdate & _).
  rewrite Hresult, Hdate; [ reflexivity | | reflexivity | reflexivity ].
  vm_compute. discriminate.
Defined.

(** A subtype that is none of the three. *)
Lemma NUMBER_default_sub_type_refused_witness :
  NUMBER (consts := odbtp_h) "BigInt"
  = Raise (Exc ProgrammingError (Msg "Illegal sub_type for NUMBER.")).
Proof.
  destruct (NUMBER_default_sub_type_refused (consts := odbtp_h))
    as (_ & _ & _ & _ & _ & Hother).
  apply Hother. apply (bool_decide_unpack _). by vm_compute.
Defined.

(** An open cursor, and a statement with no parameter row. *)
Lemma executemany_requires_parameters_witness :
  Cursor_executemany (consts := odbtp_h) (lib := scripted)
    "INSERT INTO t VALUES (?)" [] (fresh [])
  = Some (Raise (Exc InterfaceError (Msg "Parameters are required for .executemany()")),
          fresh []).
Proof.
  destruct (executemany_requires_parameters (consts := odbtp_h) (lib := scripted)
              "INSERT INTO t VALUES (?)" (fresh []))
    as (msg & Hrun & Hmsg).
  rewrite Hrun, Hmsg; [ reflexivity | ]. by split.
Defined.

(** * Instances of the further statements *)

(** A connection closed by [Connection.close] refuses to make a cursor. *)
Lemma closed_connection_refuses_witness :
  Connection_cursor (consts := odbtp_h) (lib := scripted) after_logout
  = connection_refused after_logout.
Proof.
  exact (proj2 (proj2 (proj2
           (closed_connection_refuses (consts := odbtp_h) (lib := scripted)
              after_logout eq_refl)))).
Defined.

(** Closing a connection with uncommitted work. *)
Lemma Connection_close_order_witness :
  Connection_close (consts := odbtp_h) (lib := scripted) (fresh [])
  = Some (Return (), after_logout)
  ∧ ∃ r0 rest, trace after_logout = (odbRollback 1, r0) :: rest
               ∧ Forall (λ e, is_rollback e = false) rest.
Proof.
  destruct (Connection_close_order (consts := odbtp_h) (lib := scripted) 1 (fresh [])
              eq_refl eq_refl)
    as (r & w' & seg & Hrun & Hseg & _ & _ & Hfirst & _).
  vm_compute in Hrun. injection Hrun as <- <-.
  split; [ reflexivity | ]. unfold calls_between in Hseg. cbn in Hseg. subst seg.
  apply Hfirst. reflexivity.
Defined.

(** The logout fails: the handle is kept and the connection refuses. *)
Lemma failed_close_keeps_handle_witness :
  ∃ e w',
    Connection_close (consts := odbtp_h) (lib := scripted) (fresh failed_logout)
    = Some (Raise e, w')
    ∧ Connection_handle (connection w') = Some 1
    ∧ Connection_close (consts := odbtp_h) (lib := scripted) w' = connection_refused w'.
Proof.
  destruct (Connection_close (consts := odbtp_h) (lib := scripted) (fresh failed_logout))
    as [ [ [ [] | e ] w' ] | ] eqn:Hrun;
    [ by vm_compute in Hrun | | by vm_compute in Hrun ].
  destruct (failed_close_keeps_handle (consts := odbtp_h) (lib := scripted) 1
              (fresh failed_logout) e w' eq_refl eq_refl Hrun)
    as (Hh & _ & [ Hsame | (_ & Hrefuse & _) ]).
  - exfalso. vm_compute in Hrun. injection Hrun as _ <-. by vm_compute in Hsame.
  - by exists e, w'.
Defined.

(** A commit, then the close. *)
Lemma commit_then_close_never_rolls_back_witness :
  ∃ w',
    bind (Connection_commit (consts := odbtp_h) (lib := scripted))
      (λ _, Connection_close (consts := odbtp_h) (lib := scripted)) (fresh [])
    = Some (Return (), w')
    ∧ committed (connection w') = true
    ∧ Forall (λ e, is_rollback e = false) (trace w').
Proof.
  destruct (commit_then_close_never_rolls_back (consts := odbtp_h) (lib := scripted) 1
              (fresh []) eq_refl eq_refl)
    as (r & w' & seg & Hrun & Hseg & Hnone & Hret & _).
  assert (r = Return ()) as ->.
  { vm_compute in Hrun. by injection Hrun as <- _. }
  exists w'. unfold calls_between in Hseg. cbn in Hseg. rewrite Hseg.
  destruct (Hret eq_refl) as (Hc & _). done.
Defined.

(** Two rows left: [next] hands out the first. *)
Lemma Cursor_next_iterates_witness :
  ∃ w',
    Cursor_next (consts := odbtp_h) (lib := table_server) (queried [7; 9])
    = Some (Return (table_row 7), w')
    ∧ table_holds (transport w') [table_row 9]
    ∧ ready 2 [(None, 0)] w'.
Proof.
  apply (Cursor_next_iterates (consts := odbtp_h) (lib := table_server)
           2 [(None, 0)] table_holds [table_row 7; table_row 9] (queried [7; 9])
           table_server_serves).
  - repeat split.
  - reflexivity.
Defined.

Lemma script_over_grants : grants (lib := scripted) script_over.
Proof. intros s c ->. split; [ reflexivity | ]. intros _. cbn. discriminate. Qed.

(** An integer and a string, inserted by a new cursor. *)
Lemma executemany_sends_every_row_witness :
  ∃ w' seg tail,
    Cursor_executemany (consts := odbtp_h) (lib := scripted)
      "INSERT INTO t VALUES (?, ?)" [[PyInt 5; PyStr "a"]] (fresh [])
    = Some (Return (), w')
    ∧ trace w' = seg ++ tail
    ∧ Some <$> seg.*1
      = [Some (odbPrepare 2 "INSERT INTO t VALUES (?, ?)");
         Some (odbBindParamEx 2 1 4 (-25) 0 (-5) 0 8 false);
         Some (odbBindParamEx 2 2 4 1 1 1 1 0 true);
         Some (odbSetParam odbSetParamLongLong 2 1 (c_longlong 5) false);
         Some (odbSetParam odbSetParamText 2 2 (c_char_p "a") true);
         Some (odbExecute 2)]
    ∧ Forall (λ e, is_describe e = true) tail.
Proof.
  destruct (executemany_sends_every_row (consts := odbtp_h) (lib := scripted)
              script_over "INSERT INTO t VALUES (?, ?)" [[PyInt 5; PyStr "a"]] (fresh [])
              script_over_grants eq_refl)
    as (w' & seg & tail & Hrun & Ht & Hseg & Htail & _).
  - by split.
  - reflexivity.
  - discriminate.
  - repeat constructor; by eexists.
  - exists w', seg, tail. split_and!; [ exact Hrun | exact Ht | | exact Htail ].
    rewrite Hseg. reflexivity.
Defined.

(** With the names the modules really import, a call with an empty tuple. *)
Lemma input_sizes_stay_empty_witness :
  ∃ r w',
    Cursor_setinputsizes (lib := scripted) ctypes_used constants_used (OneTuple [])
      (fresh [])
    = Some (r, w')
    ∧ input_sizes (self w') = [].
Proof.
  destruct (input_sizes_stay_empty (consts := odbtp_h) (lib := scripted)
              ctypes_used constants_used)
    as (_ & _ & _ & _ & Hset & _).
  - apply (bool_decide_unpack _). by vm_compute.
  - apply (bool_decide_unpack _). by vm_compute.
  - destruct (Cursor_setinputsizes (lib := scripted) ctypes_used constants_used
                (OneTuple []) (fresh [])) as [ [ r w' ] | ] eqn:Hrun;
      [ | by vm_compute in Hrun ].
    exists r, w'. split; [ reflexivity | ].
    exact (Hset (OneTuple []) (fresh []) r w' eq_refl Hrun).
Defined.

(** An integer, then a [Decimal]. *)
Lemma unsupported_value_stops_midway_witness :
  ∃ w',
    Cursor_executemany (consts := odbtp_h) (lib := scripted)
      "INSERT INTO t VALUES (?, ?)" [[PyInt 5; PyDecimal "2.5"]] (fresh [])
    = Some (Raise (Exc ProgrammingError (Msg "Illegal sub_type for NUMBER.")), w')
    ∧ Some <$> (trace w').*1
      = [Some (odbPrepare 2 "INSERT INTO t VALUES (?, ?)");
         Some (odbBindParamEx 2 1 4 (-25) 0 (-5) 0 8 false)]
    ∧ prepared_operation (self w') = Some "INSERT INTO t VALUES (?, ?)".
Proof.
  destruct (unsupported_value_stops_midway (consts := odbtp_h) (lib := scripted)
              script_over "INSERT INTO t VALUES (?, ?)"
              [] [PyInt 5] (PyDecimal "2.5") [] [] (fresh [])
              script_over_grants eq_refl)
    as (e & w' & seg & Hrun & He & _ & Ht & Hseg & _ & Hop).
  - by split.
  - reflexivity.
  - constructor.
  - repeat constructor; by eexists.
  - reflexivity.
  - vm_compute in He. injection He as <-.
    exists w'. split_and!; [ exact Hrun | | exact Hop ].
    cbn in Ht. rewrite Ht, Hseg. reflexivity.
Defined.

(** A timeout reported in lower case. *)
Lemma sqlstate_read_by_position_witness :
  server_exception 100 "[hyt00] Timeout expired"
  = Exc OperationalError (Msg "[hyt00] Timeout expired").
Proof.
  destruct (sqlstate_read_by_position 100
              "[hyt00] Timeout expired" " Timeout expired"
              "["%char "h"%char "y"%char "t"%char "0"%char "0"%char)
    as (_ & _ & ->).
  - reflexivity.
  - apply (bool_decide_unpack _). by vm_compute.
  - vm_compute. reflexivity.
Defined.

(** The same statement executed twice. *)
Lemma same_operation_prepared_once_witness :
  ∃ w1 r w2,
    Cursor_executemany (consts := odbtp_h) (lib := scripted)
      "INSERT INTO t VALUES (?)" [[PyInt 1]] (fresh [])
    = Some (Return (), w1)
    ∧ Cursor_executemany (consts := odbtp_h) (lib := scripted)
        "INSERT INTO t VALUES (?)" [[PyInt 2]; [PyInt 3]] w1
      = Some (r, w2)
    ∧ ∃ seg, trace w2 = trace w1 ++ seg ∧ Forall (λ e, is_prepare e = false) seg.
Proof.
  destruct (Cursor_executemany (consts := odbtp_h) (lib := scripted)
              "INSERT INTO t VALUES (?)" [[PyInt 1]] (fresh []))
    as [ [ [ [] | e ] w1 ] | ] eqn:Hfirst;
    [ | by vm_compute in Hfirst | by vm_compute in Hfirst ].
  destruct (Cursor_executemany (consts := odbtp_h) (lib := scripted)
              "INSERT INTO t VALUES (?)" [[PyInt 2]; [PyInt 3]] w1)
    as [ [ r w2 ] | ] eqn:Hsecond.
  - exists w1, r, w2. split_and!; [ reflexivity | exact Hsecond | ].
    exact (proj2 (same_operation_prepared_once (consts := odbtp_h) (lib := scripted)
                    _ _ _ _ _ _ _ Hfirst Hsecond)).
  - exfalso. vm_compute in Hfirst. injection Hfirst as <-. by vm_compute in Hsecond.
Defined.

(** A procedure call, then a statement. *)
Lemma callproc_forgets_prepared_operation_witness :
  ∃ r w1 r' w2,
    Cursor_callproc (consts := odbtp_h) (lib := scripted) "sp_total" [] (fresh [])
    = Some (r, w1)
    ∧ Cursor_executemany (consts := odbtp_h) (lib := scripted)
        "SELECT total FROM t" [[]] w1
      = Some (r', w2)
    ∧ prepared_operation (self w1) = None
    ∧ ∃ reply seg, trace w2 = trace w1 ++ (odbPrepare 2 "SELECT total FROM t", reply) :: seg.
Proof.
  destruct (Cursor_callproc (consts := odbtp_h) (lib := scripted) "sp_total" [] (fresh []))
    as [ [ r w1 ] | ] eqn:Hfirst; [ | by vm_compute in Hfirst ].
  destruct (Cursor_executemany (consts := odbtp_h) (lib := scripted)
              "SELECT total FROM t" [[]] w1)
    as [ [ r' w2 ] | ] eqn:Hsecond.
  - destruct (callproc_forgets_prepared_operation (consts := odbtp_h) (lib := scripted)
                "sp_total" "SELECT total FROM t" [] [[]] (fresh []) w1 w2 r r' Hfirst)
      as (Hop & _ & Hprepare).
    + vm_compute in Hfirst. injection Hfirst as _ <-. by split.
    + discriminate.
    + exact Hsecond.
    + exists r, w1, r', w2. split_and!; [ reflexivity | exact Hsecond | exact Hop | ].
      exact Hprepare.
  - exfalso. vm_compute in Hfirst. injection Hfirst as _ <-. by vm_compute in Hsecond.
Defined.

(** A statement run by a new cursor. *)
Lemma executemany_describes_the_result_witness :
  ∃ w' d,
    Cursor_executemany (consts := odbtp_h) (lib := scripted)
      "SELECT total FROM t" [[]] (fresh [])
    = Some (Return (), w')
    ∧ description (self w') = Some d
    ∧ rowcount (self w') = 1
    ∧ committed (connection w') = false.
Proof.
  destruct (Cursor_executemany (consts := odbtp_h) (lib := scripted)
              "SELECT total FROM t" [[]] (fresh []))
    as [ [ [ [] | e ] w' ] | ] eqn:Hrun;
    [ | by vm_compute in Hrun | by vm_compute in Hrun ].
  destruct (executemany_describes_the_result (consts := odbtp_h) (lib := scripted)
              _ _ _ _ Hrun)
    as (before & columns & answers & count & _ & _ & Hd & Hcount & Hc).
  exists w', (column_entry (consts := odbtp_h) <$> answers).
  split_and!; [ reflexivity | exact Hd | | exact Hc ].
  vm_compute in Hrun. injection Hrun as <-. reflexivity.
Defined.

(** The bind request for a string of 25 characters is refused; and the
    request that sets a bound string to an integer, taken as an address. *)
Lemma refused_parameter_rolls_back_witness :
  (∃ e w' r r0 seg,
     bind_to_column (consts := odbtp_h) (lib := scripted) None
       (STRING (consts := odbtp_h) 25) 1 1 (fresh refused_request)
     = Some (Raise e, w')
     ∧ trace w' = (odbBindParamEx 2 1 4 1 25 1 25 0 true, r) :: (odbRollback 1, r0) :: seg
     ∧ connection w' = new_connection 1)
  ∧ (∃ e w' r r0 seg,
       set_parameter (consts := odbtp_h) (lib := scripted) bound_string (PyInt 5)
         (fresh refused_request)
       = Some (Raise e, w')
       ∧ trace w'
         = (odbSetParam odbSetParamText 2 1 (c_char_p_address 5) true, r)
             :: (odbRollback 1, r0) :: seg
       ∧ connection w' = new_connection 1).
Proof.
  destruct (refused_parameter_rolls_back (consts := odbtp_h) (lib := scripted) 1
              (fresh refused_request) eq_refl eq_refl)
    as [ Hbind Hset ].
  split.
  - destruct (Hbind None (STRING (consts := odbtp_h) 25) 1 1 eq_refl)
      as (e & w' & r & r0 & seg & Hrun & _ & Ht & _ & Hc).
    by exists e, w', r, r0, seg.
  - destruct (Hset bound_string (PyInt 5)
                (odbSetParam odbSetParamText 2 1 (c_char_p_address 5) true))
      as (e & w' & r & r0 & seg & Hrun & _ & Ht & _ & Hc).
    + discriminate.
    + reflexivity.
    + right. split; [ discriminate | ].
      by exists convert_text, odbSetParamText, (c_char_p_address 5).
    + reflexivity.
    + by exists e, w', r, r0, seg.
Defined.
